(** * logging.hpp: a shallow embedding of the logging facility

    The development follows include/logging/logging.hpp top to bottom:
    the level enumeration and its two label tables, the compiled-in
    cutoff, [timestamp], the logger hierarchy ([logger], [std_out_logger],
    [file_logger]), [logger_factory], and the singleton accessor with the
    free logging functions.

    Effects are explicit.  The environment a call runs in is a [world]:
    the successive readings of the system clock, the process id, which
    paths the operating system lets the process open, and the trace of
    operations performed so far (lock, unlock, open, close, write, flush).
    A computation is a function from a state to an [outcome] and a state.

    The library pieces the program leans on are modelled next to it:
    [std::ofstream] with its error bits and exception mask, [std::stoul],
    [gmtime_r], the 64-bit counts of [std::chrono], and the [double] that
    [timestamp] prints, as a correctly rounded binary64 quotient. *)

From Stdlib Require Import ZArith String Ascii List Bool Lia.
From stdpp Require Import base option gmap strings.

Local Open Scope string_scope.
Local Open Scope Z_scope.

(** ** Levels and label tables *)

(** [enum class log_level : uint8_t] *)
Inductive log_level := TRACE | DEBUG | INFO | WARN | ERROR.

Definition level_value (l : log_level) : Z :=
  match l with TRACE => 0 | DEBUG => 1 | INFO => 2 | WARN => 3 | ERROR => 4 end.

Definition log_level_eqb (a b : log_level) : bool :=
  Z.eqb (level_value a) (level_value b).

Definition ESC : string := String (ascii_of_nat 27) "".
Definition NL : string := String (ascii_of_nat 10) "".

(** The tables are written in the order of the source initialisers. *)
Definition level_table := list (log_level * string).

Definition uncolored : level_table :=
  [ (ERROR, " [ERROR] "); (WARN, " [WARN] "); (INFO, " [INFO] ");
    (DEBUG, " [DEBUG] "); (TRACE, " [TRACE] ") ].

Definition colored : level_table :=
  [ (ERROR, " " +:+ ESC +:+ "[31;1m[ERROR]" +:+ ESC +:+ "[0m ");
    (WARN,  " " +:+ ESC +:+ "[33;1m[WARN]"  +:+ ESC +:+ "[0m ");
    (INFO,  " " +:+ ESC +:+ "[32;1m[INFO]"  +:+ ESC +:+ "[0m ");
    (DEBUG, " " +:+ ESC +:+ "[34;1m[DEBUG]" +:+ ESC +:+ "[0m ");
    (TRACE, " " +:+ ESC +:+ "[37;1m[TRACE]" +:+ ESC +:+ "[0m ") ].

(** [table.find(level)]: the entry for the key, if any. *)
Fixpoint table_find (l : log_level) (t : level_table) : option string :=
  match t with
  | [] => None
  | (k, v) :: t' => if log_level_eqb k l then Some v else table_find l t'
  end.

(** [table.find(level)->second].  Dereferencing [end()] is undefined in
    the source; [table_find_uncolored] and [table_find_colored] show the
    case does not arise for the two tables of the program. *)
Definition label (t : level_table) (l : log_level) : string :=
  default "" (table_find l t).

(** ** The compiled-in cutoff *)

(** The preprocessor symbols the [#if] chain looks at. *)
Record build_flags := {
  LOGGING_LEVEL_ALL : bool;
  LOGGING_LEVEL_TRACE : bool;
  LOGGING_LEVEL_DEBUG : bool;
  LOGGING_LEVEL_WARN : bool;
  LOGGING_LEVEL_ERROR : bool;
  LOGGING_LEVEL_NONE : bool }.

(** The value of the cutoff, as the underlying integer of the enum;
    [log_level::ERROR + 1] is 5. *)
Definition LOG_LEVEL_CUTOFF (b : build_flags) : Z :=
  if LOGGING_LEVEL_ALL b || LOGGING_LEVEL_TRACE b then level_value TRACE
  else if LOGGING_LEVEL_DEBUG b then level_value DEBUG
  else if LOGGING_LEVEL_WARN b then level_value WARN
  else if LOGGING_LEVEL_ERROR b then level_value ERROR
  else if LOGGING_LEVEL_NONE b then level_value ERROR + 1
  else level_value INFO.

(** No symbol defined: the default build. *)
Definition default_build : build_flags :=
  {| LOGGING_LEVEL_ALL := false; LOGGING_LEVEL_TRACE := false;
     LOGGING_LEVEL_DEBUG := false; LOGGING_LEVEL_WARN := false;
     LOGGING_LEVEL_ERROR := false; LOGGING_LEVEL_NONE := false |}.

(** ** Decimal output: [std::to_string] and the [printf] conversions *)

Definition digit_char (d : Z) : ascii := ascii_of_nat (48 + Z.to_nat d).

(** The [w] low decimal digits of [n], most significant first. *)
Fixpoint pad_digits (w : nat) (n : Z) : string :=
  match w with
  | O => ""
  | S w' => pad_digits w' (n / 10) +:+ String (digit_char (n mod 10)) ""
  end.

Fixpoint ndigits_aux (fuel : nat) (n : Z) : nat :=
  match fuel with
  | O => 1%nat
  | S f => if n <? 10 then 1%nat else S (ndigits_aux f (n / 10))
  end.

(** Number of decimal digits of a non-negative [n] (1 for 0). *)
Definition ndigits (n : Z) : nat := ndigits_aux (Z.to_nat (Z.log2 n)) n.

(** [std::to_string(int)] *)
Definition to_string (n : Z) : string :=
  if n <? 0 then "-" +:+ pad_digits (ndigits (- n)) (- n)
  else pad_digits (ndigits n) n.

(** [printf("%0<w>d", n)]: at least [w] characters, zero padded, the sign
    first. *)
Definition fmt_0d (w : nat) (n : Z) : string :=
  if n <? 0 then "-" +:+ pad_digits (Nat.max (w - 1)%nat (ndigits (- n))) (- n)
  else pad_digits (Nat.max w (ndigits n)) n.

(** ** Calendar time: [std::tm] and [gmtime_r] *)

(** The fields of [std::tm] that [timestamp] reads. *)
Record tm := {
  tm_sec : Z; tm_min : Z; tm_hour : Z;
  tm_mday : Z; tm_mon : Z; tm_year : Z }.

(** Day number since 1970-01-01 to proleptic Gregorian (year, month, day),
    month in 1..12. *)
Definition civil_from_days (z0 : Z) : Z * Z * Z :=
  let z := z0 + 719468 in
  let era := z / 146097 in
  let doe := z - era * 146097 in
  let yoe := (doe - doe / 1460 + doe / 36524 - doe / 146096) / 365 in
  let y := yoe + era * 400 in
  let doy := doe - (365 * yoe + yoe / 4 - yoe / 100) in
  let mp := (5 * doy + 2) / 153 in
  let d := doy - (153 * mp + 2) / 5 + 1 in
  let m := if mp <? 10 then mp + 3 else mp - 9 in
  (if m <=? 2 then y + 1 else y, m, d).

(** (year, month, day) to day number since 1970-01-01. *)
Definition days_from_civil (y0 m d : Z) : Z :=
  let y := if m <=? 2 then y0 - 1 else y0 in
  let era := y / 400 in
  let yoe := y - era * 400 in
  let doy := (153 * (if 2 <? m then m - 3 else m + 9) + 2) / 5 + d - 1 in
  let doe := yoe * 365 + yoe / 4 - yoe / 100 + doy in
  era * 146097 + doe - 719468.

(** Leap years and month lengths of the Gregorian calendar. *)
Definition is_leap (y : Z) : bool :=
  (y mod 4 =? 0) && (negb (y mod 100 =? 0) || (y mod 400 =? 0)).

Definition days_in_month (y m : Z) : Z :=
  if m =? 2 then (if is_leap y then 29 else 28)
  else if (m =? 4) || (m =? 6) || (m =? 9) || (m =? 11) then 30
  else 31.

(** [gmtime_r(&tt, &gmt)] of the C library: UTC broken-down time of a
    count of seconds since the epoch, days of 86400 seconds. *)
Definition gmtime_r (tt : Z) : tm :=
  let days := tt / 86400 in
  let rem := tt mod 86400 in
  let '(y, m, d) := civil_from_days days in
  {| tm_sec := rem mod 60; tm_min := (rem / 60) mod 60; tm_hour := rem / 3600;
     tm_mday := d; tm_mon := m - 1; tm_year := y - 1900 |}.

(** ** [std::chrono::system_clock] *)

(** A [system_clock::time_point] is a signed 64-bit count of nanoseconds
    since the epoch. *)
Definition time_point := Z.

Definition ns_per_s : Z := 1000000000.

(** Result of an arithmetic operation on [int64_t] counts, two's
    complement. *)
Definition wrap64 (z : Z) : Z := (z + 2 ^ 63) mod 2 ^ 64 - 2 ^ 63.

(** [system_clock::to_time_t]: [duration_cast<seconds>], which truncates
    toward zero. *)
Definition to_time_t (tp : time_point) : Z := Z.quot tp ns_per_s.

Definition from_time_t (tt : Z) : time_point := tt * ns_per_s.

(** ** Outcomes and stateful computations *)

(** The exception types the program throws or could meet. *)
Inductive exn :=
| runtime_error (what : string)
| invalid_argument
| out_of_range
| ios_failure
| std_exception.

(** How a call ends: it returns, it leaves by an exception, or it never
    returns because it waits for a mutex that is already held. *)
Inductive outcome (A : Type) :=
| Returns (a : A)
| Throws (e : exn)
| Blocks.
Arguments Returns {A} a.
Arguments Throws {A} e.
Arguments Blocks {A}.

Definition M (S A : Type) : Type := S -> outcome A * S.

Definition ret {S A} (a : A) : M S A := fun s => (Returns a, s).

Definition bind {S A B} (c : M S A) (k : A -> M S B) : M S B :=
  fun s =>
    match c s with
    | (Returns a, s') => k a s'
    | (Throws e, s') => (Throws e, s')
    | (Blocks, s') => (Blocks, s')
    end.

Definition throw {S A} (e : exn) : M S A := fun s => (Throws e, s).

(** [try { c } catch (...) { h }] *)
Definition try_catch {S A} (c : M S A) (h : exn -> M S A) : M S A :=
  fun s =>
    match c s with
    | (Throws e, s') => h e s'
    | r => r
    end.

Definition get {S} : M S S := fun s => (Returns s, s).
Definition modify {S} (f : S -> S) : M S unit := fun s => (Returns tt, f s).

Notation "'do' x <- c ; k" := (bind c (fun x => k))
  (at level 10, x name, c at level 100, k at level 200).
Notation "'run' c ; k" := (bind c (fun _ => k))
  (at level 10, c at level 100, k at level 200).

(** Run a computation on the second component of a pair state. *)
Definition in_snd {X S A} (c : M S A) : M (X * S) A :=
  fun xs => let '(r, s') := c (snd xs) in (r, (fst xs, s')).

(** ** The environment *)

Inductive event :=
| Lock
| Unlock
| StdoutWrite (bytes : string)
| StdoutFlush
| FileOpen (path : string) (mode : Z) (ok : bool)
| FileClose (path : string)
| FileWrite (path : string) (bytes : string)
| FileFlush (path : string).

Record world := {
  clock : nat -> time_point;   (* the n-th reading of the system clock *)
  clock_reads : nat;           (* readings taken so far *)
  pid : Z;                     (* what getpid() returns *)
  openable : string -> bool;   (* can the path be opened for appending *)
  trace : list event           (* operations performed, oldest first *)
}.

(** [std::chrono::system_clock::now()] *)
Definition system_clock_now : M world time_point :=
  fun w =>
    (Returns (clock w (clock_reads w)),
     {| clock := clock w; clock_reads := S (clock_reads w); pid := pid w;
        openable := openable w; trace := trace w |}).

Definition getpid : M world Z := fun w => (Returns (pid w), w).

Definition emit (e : event) : M world unit :=
  modify (fun w =>
    {| clock := clock w; clock_reads := clock_reads w; pid := pid w;
       openable := openable w; trace := trace w ++ [e] |}).

(** [std::cout << message], on a stream taken to accept every write. *)
Definition cout_write (message : string) : M world unit :=
  emit (StdoutWrite message).

Definition cout_flush : M world unit := emit StdoutFlush.

(** ** [std::mutex] *)

(** The state of a mutex: held or not.  A sequential caller that locks a
    held mutex does not return. *)
Definition mutex := bool.

Definition mutex_lock (m : mutex) : M world mutex :=
  if m then (fun w => (Blocks, w)) else (run emit Lock; ret true).

Definition mutex_unlock (m : mutex) : M world mutex :=
  run emit Unlock; ret false.

(** ** [std::ofstream] *)

(** The file the stream's buffer is attached to, the error bits of
    [rdstate()], and the [exceptions()] mask. *)
Record ofstream := {
  of_file : option string;
  failbit : bool;
  badbit : bool;
  exc_failbit : bool;
  exc_badbit : bool }.

(** A default-constructed stream: no file, state good, empty mask. *)
Definition ofstream_default : ofstream :=
  {| of_file := None; failbit := false; badbit := false;
     exc_failbit := false; exc_badbit := false |}.

Definition good (f : ofstream) : bool := negb (failbit f) && negb (badbit f).

(** [setstate(bits)]: add the bits, then throw if a set bit is in the
    mask. *)
Definition setstate (fail bad : bool) : M (ofstream * world) unit :=
  fun fw =>
    let f := fst fw in
    let f' := {| of_file := of_file f; failbit := failbit f || fail;
                 badbit := badbit f || bad; exc_failbit := exc_failbit f;
                 exc_badbit := exc_badbit f |} in
    if (failbit f' && exc_failbit f') || (badbit f' && exc_badbit f')
    then (Throws ios_failure, (f', snd fw))
    else (Returns tt, (f', snd fw)).

Definition attach (o : option string) : M (ofstream * world) unit :=
  modify (fun fw =>
    ({| of_file := o; failbit := failbit (fst fw); badbit := badbit (fst fw);
        exc_failbit := exc_failbit (fst fw);
        exc_badbit := exc_badbit (fst fw) |}, snd fw)).

(** [clear()]: the state becomes good. *)
Definition clear : M (ofstream * world) unit :=
  modify (fun fw =>
    ({| of_file := of_file (fst fw); failbit := false; badbit := false;
        exc_failbit := exc_failbit (fst fw);
        exc_badbit := exc_badbit (fst fw) |}, snd fw)).

(** The [std::ios_base::openmode] bits used by the program. *)
Definition ios_app : Z := 1.
Definition ios_out : Z := 16.

(** [file.open(path, mode)]: fails when a file is already attached or the
    operating system refuses; success clears the state. *)
Definition ofstream_open (path : string) (mode : Z) : M (ofstream * world) unit :=
  do fw <- get;
  match of_file (fst fw) with
  | Some _ => setstate true false
  | None =>
      if openable (snd fw) path
      then (run in_snd (emit (FileOpen path mode true));
            run attach (Some path); clear)
      else (run in_snd (emit (FileOpen path mode false)); setstate true false)
  end.

(** [file.close()]: fails when no file is attached. *)
Definition ofstream_close : M (ofstream * world) unit :=
  do fw <- get;
  match of_file (fst fw) with
  | Some path => run in_snd (emit (FileClose path)); attach None
  | None => setstate true false
  end.

(** The [sentry] of an output operation: true when the stream is good. *)
Definition sentry : M (ofstream * world) bool :=
  do fw <- get;
  if good (fst fw) then ret true
  else if badbit (fst fw) then (run setstate true false; ret false)
  else ret false.

(** [file << message]: nothing is written unless the stream is good; a
    write with no file attached sets [badbit]. *)
Definition ofstream_write (message : string) : M (ofstream * world) unit :=
  do ok <- sentry;
  if ok then
    do fw <- get;
    match of_file (fst fw) with
    | Some path => in_snd (emit (FileWrite path message))
    | None => if String.eqb message "" then ret tt else setstate false true
    end
  else ret tt.

(** [file.flush()] *)
Definition ofstream_flush : M (ofstream * world) unit :=
  do ok <- sentry;
  if ok then
    do fw <- get;
    match of_file (fst fw) with
    | Some path => in_snd (emit (FileFlush path))
    | None => ret tt
    end
  else ret tt.

(** ** [std::stoul] *)

Definition is_space (c : ascii) : bool :=
  let n := nat_of_ascii c in
  Nat.eqb n 32 || (Nat.leb 9 n && Nat.leb n 13).

Definition is_digit (c : ascii) : bool :=
  let n := nat_of_ascii c in Nat.leb 48 n && Nat.leb n 57.

Definition digit_value (c : ascii) : Z := Z.of_nat (nat_of_ascii c) - 48.

Fixpoint skip_spaces (s : string) : string :=
  match s with
  | String c s' => if is_space c then skip_spaces s' else s
  | EmptyString => s
  end.

(** The value of the longest prefix of decimal digits; [None] when the
    string does not start with a digit. *)
Fixpoint parse_digits (acc : option Z) (s : string) : option Z :=
  match s with
  | String c s' =>
      if is_digit c
      then parse_digits (Some (10 * default 0 acc + digit_value c)) s'
      else acc
  | EmptyString => acc
  end.

Definition ULONG_MAX : Z := 2 ^ 64 - 1.

(** [std::stoul(str)] (base 10, no position argument): leading white
    space, an optional sign, then digits; what follows the digits is
    ignored.  No digit: [invalid_argument].  Magnitude above [ULONG_MAX]:
    [out_of_range].  A minus sign negates in [unsigned long]. *)
Definition stoul_result (str : string) : exn + Z :=
  let s1 := skip_spaces str in
  let '(neg, s2) :=
    match s1 with
    | String "-" s' => (true, s')
    | String "+" s' => (false, s')
    | _ => (false, s1)
    end in
  match parse_digits None s2 with
  | None => inl invalid_argument
  | Some v =>
      if ULONG_MAX <? v then inl out_of_range
      else inr (if neg then (2 ^ 64 - v) mod 2 ^ 64 else v)
  end.

Definition stoul {S} (str : string) : M S Z :=
  match stoul_result str with
  | inl e => throw e
  | inr v => ret v
  end.

(** ** [double] *)

(** A finite [double]: its sign and its magnitude [mantissa / 2 ^ scale]. *)
Record double := {
  negative : bool;
  mantissa : Z;
  scale : Z }.

(** [num / den] rounded to the nearest integer, a tie to the even one
    ([num >= 0], [den > 0]). *)
Definition round_nearest_even (num den : Z) : Z :=
  let q := num / den in
  let r := num mod den in
  if 2 * r <? den then q
  else if den <? 2 * r then q + 1
  else if Z.even q then q else q + 1.

(** The power of two by which [a / 1e9] is scaled to a 53-bit mantissa. *)
Definition double_scale (a : Z) : Z :=
  let s0 := 52 - (Z.log2 a - Z.log2 ns_per_s) in
  if 2 ^ 52 <=? a * 2 ^ s0 / ns_per_s then s0 else s0 + 1.

(** The count of a [std::chrono::duration<double>] made from [n]
    nanoseconds: [static_cast<double>(n) / 1e9], the quotient rounded to
    the nearest [double].  Both operands are exact for [|n| < 2 ^ 53]. *)
Definition seconds_double (n : Z) : double :=
  let a := Z.abs n in
  if a =? 0 then {| negative := false; mantissa := 0; scale := 0 |}
  else
    let s := double_scale a in
    {| negative := n <? 0;
       mantissa := round_nearest_even (a * 2 ^ s) ns_per_s;
       scale := s |}.

(** The magnitude of [x] in millionths, rounded as [printf] rounds the six
    decimals of [%f]: to nearest, a tie to even. *)
Definition printed_micro (x : double) : Z :=
  round_nearest_even (mantissa x * 1000000) (2 ^ scale x).

(** [printf("%09.6f", x)]: sign, integer part, point, six decimals, zero
    padded to nine characters. *)
Definition fmt_09_6f (x : double) : string :=
  let micro := printed_micro x in
  let ip := micro / 1000000 in
  let fp := micro mod 1000000 in
  if negative x
  then "-" +:+ pad_digits (Nat.max 1 (ndigits ip)) ip +:+ "." +:+ pad_digits 6 fp
  else pad_digits (Nat.max 2 (ndigits ip)) ip +:+ "." +:+ pad_digits 6 fp.

(** The microseconds [timestamp] prints for [ns] nanoseconds. *)
Definition round_micro (ns : Z) : Z := printed_micro (seconds_double ns).

(** ** The program *)

(** [using logging_config_t = std::unordered_map<std::string, std::string>] *)
Abbreviation logging_config_t := (gmap string string).

Section Logging.

(** The build the program was compiled with. *)
Variable flags : build_flags.

(** The text [sprintf] produces in [timestamp] for the clock reading
    [tp].  It is written over the 26 characters of [buffer];
    [timestamp_of_length] shows it has exactly that length for every
    reading the 64-bit clock can give. *)
Definition timestamp_of (tp : time_point) : string :=
  let tt := to_time_t tp in
  let gmt := gmtime_r tt in
  let fractional_seconds :=
    seconds_double ((tp - from_time_t tt) + tm_sec gmt * ns_per_s) in
  fmt_0d 4 (tm_year gmt + 1900) +:+ "/" +:+ fmt_0d 2 (tm_mon gmt + 1) +:+ "/" +:+
  fmt_0d 2 (tm_mday gmt) +:+ " " +:+ fmt_0d 2 (tm_hour gmt) +:+ ":" +:+
  fmt_0d 2 (tm_min gmt) +:+ ":" +:+ fmt_09_6f fractional_seconds.

Definition timestamp : M world string :=
  do tp <- system_clock_now;
  ret (timestamp_of tp).

(** *** [class logger] *)

Record logger_base := { lock : mutex }.

Definition logger_ctor (config : logging_config_t) : logger_base :=
  {| lock := false |}.

(** *** [class std_out_logger] *)

Record std_out_logger := {
  so_lock : mutex;
  levels : level_table }.

Definition std_out_logger_ctor (config : logging_config_t) : std_out_logger :=
  {| so_lock := false;
     levels := match config !! "color" with
               | Some _ => colored
               | None => uncolored
               end |}.

(** [void log(const std::string& message)] *)
Definition std_out_logger_log (message : string) : M (std_out_logger * world) unit :=
  run in_snd (cout_write message);
  in_snd cout_flush.

(** [void log(const std::string& message, const log_level level)] *)
Definition std_out_logger_log_level (message : string) (level : log_level)
  : M (std_out_logger * world) unit :=
  if level_value level <? LOG_LEVEL_CUTOFF flags then ret tt
  else
    do ts <- in_snd timestamp;
    do p <- in_snd getpid;
    do this <- get;
    let output :=
      (((ts +:+ (" [" +:+ to_string p +:+ "]")) +:+ label (levels (fst this)) level)
         +:+ message) +:+ NL in
    std_out_logger_log output.

(** *** [class file_logger] *)

Record file_logger := {
  fl_lock : mutex;
  file_name : string;
  file : ofstream;
  reopen_interval : Z;          (* std::chrono::seconds, a 64-bit count *)
  last_reopen : time_point }.

Definition set_fl_lock (m : mutex) (l : file_logger) : file_logger :=
  {| fl_lock := m; file_name := file_name l; file := file l;
     reopen_interval := reopen_interval l; last_reopen := last_reopen l |}.

Definition set_file_name (n : string) (l : file_logger) : file_logger :=
  {| fl_lock := fl_lock l; file_name := n; file := file l;
     reopen_interval := reopen_interval l; last_reopen := last_reopen l |}.

Definition set_file (f : ofstream) (l : file_logger) : file_logger :=
  {| fl_lock := fl_lock l; file_name := file_name l; file := f;
     reopen_interval := reopen_interval l; last_reopen := last_reopen l |}.

Definition set_reopen_interval (i : Z) (l : file_logger) : file_logger :=
  {| fl_lock := fl_lock l; file_name := file_name l; file := file l;
     reopen_interval := i; last_reopen := last_reopen l |}.

Definition set_last_reopen (t : time_point) (l : file_logger) : file_logger :=
  {| fl_lock := fl_lock l; file_name := file_name l; file := file l;
     reopen_interval := reopen_interval l; last_reopen := t |}.

(** An assignment to a member of [*this]. *)
Definition assign {W} (f : file_logger -> file_logger) : M (file_logger * W) unit :=
  modify (fun tw => (f (fst tw), snd tw)).

(** A call on the member [file]. *)
Definition on_file {A} (c : M (ofstream * world) A) : M (file_logger * world) A :=
  fun tw =>
    let '(r, (f', w')) := c (file (fst tw), snd tw) in
    (r, (set_file f' (fst tw), w')).

(** [lock.lock()] and [lock.unlock()] on the member [lock]. *)
Definition lock_lock : M (file_logger * world) unit :=
  fun tw =>
    match mutex_lock (fl_lock (fst tw)) (snd tw) with
    | (Returns m, w') => (Returns tt, (set_fl_lock m (fst tw), w'))
    | (Throws e, w') => (Throws e, (fst tw, w'))
    | (Blocks, w') => (Blocks, (fst tw, w'))
    end.

Definition lock_unlock : M (file_logger * world) unit :=
  fun tw =>
    match mutex_unlock (fl_lock (fst tw)) (snd tw) with
    | (Returns m, w') => (Returns tt, (set_fl_lock m (fst tw), w'))
    | (Throws e, w') => (Throws e, (fst tw, w'))
    | (Blocks, w') => (Blocks, (fst tw, w'))
    end.

(** [now - last_reopen > reopen_interval]: the difference is a count of
    nanoseconds, the interval is converted from seconds to nanoseconds,
    both in 64 bits. *)
Definition reopen_due (now : time_point) (this : file_logger) : bool :=
  wrap64 (reopen_interval this * ns_per_s) <? wrap64 (now - last_reopen this).

(** [void reopen()] *)
Definition reopen : M (file_logger * world) unit :=
  do now <- in_snd system_clock_now;
  run lock_lock;
  do this <- get;
  run (if reopen_due now (fst this)
       then
         run assign (set_last_reopen now);
         run try_catch (on_file ofstream_close) (fun _ => ret tt);
         try_catch
           (run on_file (ofstream_open (file_name (fst this))
                           (Z.lor ios_out ios_app));
            do t <- in_snd system_clock_now;
            assign (set_last_reopen t))
           (fun e =>
              run try_catch (on_file ofstream_close) (fun _ => ret tt);
              throw std_exception)
       else ret tt);
  lock_unlock.

(** [void log(const std::string& message)] *)
Definition file_logger_log (message : string) : M (file_logger * world) unit :=
  run lock_lock;
  run on_file (ofstream_write message);
  run on_file ofstream_flush;
  run lock_unlock;
  reopen.

(** [void log(const std::string& message, const log_level level)] *)
Definition file_logger_log_level (message : string) (level : log_level)
  : M (file_logger * world) unit :=
  if level_value level <? LOG_LEVEL_CUTOFF flags then ret tt
  else
    do ts <- in_snd timestamp;
    let output := ((ts +:+ label uncolored level) +:+ message) +:+ NL in
    file_logger_log output.

(** The members as initialised before the constructor body runs:
    [reopen_interval{std::chrono::seconds(300)}], the others default
    constructed ([last_reopen] is the epoch). *)
Definition file_logger_init : file_logger :=
  {| fl_lock := false; file_name := ""; file := ofstream_default;
     reopen_interval := 300; last_reopen := 0 |}.

(** The body of [file_logger(const logging_config_t& config)]. *)
Definition file_logger_ctor_body (config : logging_config_t)
  : M (file_logger * world) unit :=
  match config !! "file_name" with
  | None => throw (runtime_error "No output file provided to file logger")
  | Some name =>
      do p <- in_snd getpid;
      run assign (set_file_name ((to_string p +:+ "-") +:+ name));
      run match config !! "reopen_interval" with
          | Some interval =>
              try_catch
                (do n <- stoul interval;
                 assign (set_reopen_interval (wrap64 n)))
                (fun _ =>
                   throw (runtime_error (interval +:+ " is not a valid reopen interval")))
          | None => ret tt
          end;
      reopen
  end.

(** The constructor: the object when the body returns; when the body
    throws, the members are destroyed, which closes an attached file. *)
Definition file_logger_ctor (config : logging_config_t) : M world file_logger :=
  fun w =>
    match file_logger_ctor_body config (file_logger_init, w) with
    | (Returns _, (this, w')) => (Returns this, w')
    | (Throws e, (this, w')) =>
        match of_file (file this) with
        | Some path => (Throws e, snd (emit (FileClose path) w'))
        | None => (Throws e, w')
        end
    | (Blocks, (_, w')) => (Blocks, w')
    end.

(** *** The hierarchy and its virtual calls *)

Inductive logger :=
| Logger (l : logger_base)
| Std_out_logger (l : std_out_logger)
| File_logger (l : file_logger).

(** Run a method of the dynamic type on the object. *)
Definition dispatch {T A} (inj : T -> logger) (this : T) (m : M (T * world) A)
  : M (logger * world) A :=
  fun lw =>
    let '(r, (this', w')) := m (this, snd lw) in (r, (inj this', w')).

(** [virtual void log(const std::string&, const log_level)] *)
Definition logger_log_level (message : string) (level : log_level)
  : M (logger * world) unit :=
  do lw <- get;
  match fst lw with
  | Logger _ => ret tt
  | Std_out_logger l => dispatch Std_out_logger l (std_out_logger_log_level message level)
  | File_logger l => dispatch File_logger l (file_logger_log_level message level)
  end.

(** [virtual void log(const std::string&)] *)
Definition logger_log (message : string) : M (logger * world) unit :=
  do lw <- get;
  match fst lw with
  | Logger _ => ret tt
  | Std_out_logger l => dispatch Std_out_logger l (std_out_logger_log message)
  | File_logger l => dispatch File_logger l (file_logger_log message)
  end.

End Logging.

(** *** [class logger_factory] *)

(** [logger_creator]: a pointer to a function that takes a configuration
    and returns a new logger. *)
Abbreviation logger_creator := (logging_config_t -> M world logger).

Record logger_factory := { creators : gmap string logger_creator }.

(** [creators.emplace(name, creator)]: no effect on a name already
    present. *)
Definition emplace (name : string) (c : logger_creator) (f : logger_factory)
  : logger_factory :=
  match creators f !! name with
  | Some _ => f
  | None => {| creators := <[name := c]> (creators f) |}
  end.

Definition logger_factory_ctor : logger_factory :=
  emplace "file"
    (fun config => do l <- file_logger_ctor config; ret (File_logger l))
    (emplace "std_out"
       (fun config => ret (Std_out_logger (std_out_logger_ctor config)))
       (emplace ""
          (fun config => ret (Logger (logger_ctor config)))
          {| creators := ∅ |})).

(** [logger* produce(const logging_config_t& config) const] *)
Definition produce (f : logger_factory) (config : logging_config_t) : M world logger :=
  match config !! "type" with
  | None =>
      throw (runtime_error "Logging factory configuration requires a type of logger")
  | Some type =>
      match creators f !! type with
      | Some found => found config
      | None => throw (runtime_error ("Couldn't produce logger for type: " +:+ type))
      end
  end.

(** [get_factory()]: the function-local static factory. *)
Definition get_factory : logger_factory := logger_factory_ctor.

(** *** The singleton *)

(** The function-local static [singleton] of [get_logger] and the
    environment.  [None]: the static is not initialised yet. *)
Record process := {
  singleton : option logger;
  env : world }.

(** The default argument of [get_logger]. *)
Definition default_config : logging_config_t :=
  <["color" := ""]> (<["type" := "std_out"]> ∅).

(** [logger& get_logger(const logging_config_t& config)].  The
    initialiser of a local static runs when control first passes its
    declaration; if it throws, the static stays uninitialised and the
    next call runs the initialiser again.  The result stands for the
    reference to the object held in [singleton]. *)
Definition get_logger (config : logging_config_t) : M process logger :=
  fun p =>
    match singleton p with
    | Some l => (Returns l, p)
    | None =>
        match produce get_factory config (env p) with
        | (Returns l, w') => (Returns l, {| singleton := Some l; env := w' |})
        | (Throws e, w') => (Throws e, {| singleton := None; env := w' |})
        | (Blocks, w') => (Blocks, {| singleton := None; env := w' |})
        end
    end.

(** [void configure(const logging_config_t& config)] *)
Definition configure (config : logging_config_t) : M process unit :=
  run get_logger config;
  ret tt.

(** [get_logger().m(...)]: a call of a method on the singleton. *)
Definition on_logger (m : M (logger * world) unit) : M process unit :=
  fun p =>
    match get_logger default_config p with
    | (Returns l, p') =>
        let '(r, (l', w')) := m (l, env p') in
        (r, {| singleton := Some l'; env := w' |})
    | (Throws e, p') => (Throws e, p')
    | (Blocks, p') => (Blocks, p')
    end.

(** The free functions [log(message, level)], [log(message)] and the
    five level-named ones. *)
Section Free_functions.

Context (flags : build_flags).

Definition log_level_free (message : string) (level : log_level) : M process unit :=
  on_logger (logger_log_level flags message level).

Definition log_free (message : string) : M process unit :=
  on_logger (logger_log message).

Definition log_TRACE (message : string) : M process unit :=
  on_logger (logger_log_level flags message TRACE).
Definition log_DEBUG (message : string) : M process unit :=
  on_logger (logger_log_level flags message DEBUG).
Definition log_INFO (message : string) : M process unit :=
  on_logger (logger_log_level flags message INFO).
Definition log_WARN (message : string) : M process unit :=
  on_logger (logger_log_level flags message WARN).
Definition log_ERROR (message : string) : M process unit :=
  on_logger (logger_log_level flags message ERROR).

End Free_functions.

(** ** Sample environments and configurations *)

(** A clock that stands at 2026-10-30 12:00:00.123456789 UTC and gains a
    microsecond at each reading; process 4242; every path can be opened. *)
Definition sample_world : world :=
  {| clock := fun n => Z.of_nat n * 1000 + 1793361600123456789;
     clock_reads := 0; pid := 4242; openable := fun _ => true; trace := [] |}.

Definition file_config (interval : string) : logging_config_t :=
  <["reopen_interval" := interval]>
    (<["file_name" := "test.log"]> (<["type" := "file"]> ∅)).

Definition sample_file_logger : file_logger :=
  {| fl_lock := false; file_name := "4242-test.log";
     file := {| of_file := Some "4242-test.log"; failbit := false;
                badbit := false; exc_failbit := false; exc_badbit := false |};
     reopen_interval := 300; last_reopen := 1793361600123456000 |}.

(** The environment after [n] further clock readings and the operations
    [evs]. *)
Definition after (n : nat) (evs : list event) (w : world) : world :=
  {| clock := clock w; clock_reads := (n + clock_reads w)%nat; pid := pid w;
     openable := openable w; trace := trace w ++ evs |}.

(** The current reading of the clock. *)
Definition now (w : world) : time_point := clock w (clock_reads w).

(** What closing the stream adds to the trace. *)
Definition close_events (f : ofstream) : list event :=
  match of_file f with
  | Some path => [FileClose path]
  | None => []
  end.

(** Operations that put bytes on an output. *)
Definition is_write (e : event) : bool :=
  match e with
  | StdoutWrite _ | FileWrite _ _ => true
  | _ => false
  end.

Definition no_write (evs : list event) : bool :=
  forallb (fun e => negb (is_write e)) evs.

(** A stream that throws on no error bit, as every stream of the program
    is: the source never calls [exceptions(...)]. *)
Definition quiet (f : ofstream) : Prop :=
  exc_failbit f = false /\ exc_badbit f = false.

(** The object on which the constructor body calls [reopen]. *)
Definition before_reopen (w : world) (name : string) (interval : Z) : file_logger :=
  {| fl_lock := false; file_name := (to_string (pid w) +:+ "-") +:+ name;
     file := ofstream_default; reopen_interval := interval; last_reopen := 0 |}.

(** The same environment with a file system that refuses, or grants,
    every open. *)
Definition with_openable (open : string -> bool) (w : world) : world :=
  {| clock := clock w; clock_reads := clock_reads w; pid := pid w;
     openable := open; trace := trace w |}.

(** ** Notions used in the statements *)

(** A numeric value: one or more decimal digits and nothing else. *)
Fixpoint all_digits (s : string) : bool :=
  match s with
  | EmptyString => true
  | String c s' => is_digit c && all_digits s'
  end.

Definition numeric (s : string) : bool :=
  negb (String.eqb s "") && all_digits s.

(** The number a string of digits denotes, continuing from [acc]. *)
Fixpoint decimal_value (acc : Z) (s : string) : Z :=
  match s with
  | EmptyString => acc
  | String c s' => decimal_value (10 * acc + digit_value c) s'
  end.

(** Whole-string match against a pattern in which [d] stands for one
    decimal digit and every other character for itself. *)
Fixpoint matches (pattern s : string) : bool :=
  match pattern, s with
  | EmptyString, EmptyString => true
  | String p pattern', String c s' =>
      (if Ascii.eqb p "d" then is_digit c else Ascii.eqb p c)
      && matches pattern' s'
  | _, _ => false
  end.

(** \d{4}/\d{2}/\d{2} \d{2}:\d{2}:\d{2}\.\d{6} *)
Definition timestamp_pattern : string := "dddd/dd/dd dd:dd:dd.dddddd".

(** How many newline characters a string ends with. *)
Fixpoint trailing_newlines (s : string) : nat :=
  match s with
  | EmptyString => 0%nat
  | String c s' =>
      let k := trailing_newlines s' in
      if Nat.eqb k (String.length s') && Ascii.eqb c (ascii_of_nat 10)
      then S k else k
  end.

(** ** The test driver *)

(** A call through the environment alone, for an argument evaluated
    before the logger is fetched. *)
Definition in_env {A} (c : M world A) : M process A :=
  fun p =>
    let '(r, w') := c (env p) in (r, {| singleton := singleton p; env := w' |}).

Section Test_driver.

Context (flags : build_flags).

(** One pass of the loop body of [work()].  [s] is the text of the string
    stream; the [sleep_for] calls only let time pass, which the clock of
    [world] is free to do between readings. *)
Definition work_pass (s : string) : M process unit :=
  run log_ERROR flags s;
  run log_WARN flags s;
  run log_INFO flags s;
  run log_DEBUG flags s;
  run log_TRACE flags s;
  do ts <- in_env timestamp;
  log_free (((ts +:+ (" " +:+ ESC +:+ "[35;1m[CUSTOM]" +:+ ESC +:+ "[0m ")) +:+ s) +:+ NL).

(** [for (size_t i = 0; i < n; ++i) { ... }] *)
Fixpoint work_loop (n : nat) (s : string) : M process unit :=
  match n with
  | O => ret tt
  | S n' => run work_pass s; work_loop n' s
  end.

(** [size_t work()], run by one thread; [thread_id] is what
    [std::this_thread::get_id()] prints as. *)
Definition work (thread_id : string) : M process Z :=
  let s := "hi my name is: " +:+ thread_id in
  run work_loop 2 s;
  ret 10.

End Test_driver.

(** ** Further notions used in the statements *)

(** The byte strings written to standard output, oldest first. *)
Fixpoint stdout_writes (evs : list event) : list string :=
  match evs with
  | [] => []
  | StdoutWrite bytes :: evs' => bytes :: stdout_writes evs'
  | _ :: evs' => stdout_writes evs'
  end.

(** The levels a build lets through. *)
Definition passes (flags : build_flags) (level : log_level) : bool :=
  LOG_LEVEL_CUTOFF flags <=? level_value level.

(** A file logger between calls: lock free, stream with an empty
    exception mask and attached, if at all, to the logger's own file. *)
Definition settled (l : file_logger) : Prop :=
  fl_lock l = false /\ quiet (file l) /\
  (of_file (file l) = None \/ of_file (file l) = Some (file_name l)).

Definition settled_logger (l : logger) : Prop :=
  match l with
  | File_logger f => settled f
  | _ => True
  end.

(** The operations of a trace respect the lock and the path: a file
    operation only while the lock is held and only on [path], a lock only
    when it is free, an unlock only when it is held, and the lock free at
    the end.  [held] is the state of the lock at the start. *)
Fixpoint disciplined (path : string) (held : bool) (evs : list event) : bool :=
  match evs with
  | [] => negb held
  | Lock :: evs' => negb held && disciplined path true evs'
  | Unlock :: evs' => held && disciplined path false evs'
  | FileOpen p _ _ :: evs' | FileClose p :: evs' | FileWrite p _ :: evs'
  | FileFlush p :: evs' => held && String.eqb p path && disciplined path held evs'
  | _ :: evs' => disciplined path held evs'
  end.

(** The decimal number in the [len] characters of [s] from [start]. *)
Definition field (start len : nat) (s : string) : Z :=
  decimal_value 0 (substring start len s).

(** The time a timestamp text denotes, in microseconds since the epoch. *)
Definition timestamp_micros (s : string) : Z :=
  (((days_from_civil (field 0 4 s) (field 5 2 s) (field 8 2 s) * 24
     + field 11 2 s) * 60 + field 14 2 s) * 60 + field 17 2 s) * 1000000
  + field 20 6 s.

(** The logger a process gets when it logs without having configured
    anything: [get_logger]'s default argument names the standard-output
    logger and has the key "color". *)
Definition default_logger : logger :=
  Std_out_logger {| so_lock := false; levels := colored |}.

(** A process between calls: its logger, if it has one, is settled. *)
Definition process_ok (p : process) : Prop :=
  match singleton p with
  | Some l => settled_logger l
  | None => True
  end.

(** How many of the five levels a build lets through. *)
Definition passing_levels (flags : build_flags) : nat :=
  length (List.filter (passes flags) [ERROR; WARN; INFO; DEBUG; TRACE]).

(** A line that ends with [s] and a newline. *)
Definition carries (s line : string) : Prop :=
  exists prefix : string, line = prefix +:+ s +:+ NL.

(** [m], run in a process whose logger is the standard-output logger
    [this], returns from any environment, leaves the logger as it is,
    reads the clock [k] times and writes [k] lines that carry [s]. *)
Definition writes_lines (this : std_out_logger) (s : string) (k : nat)
    (m : M process unit) : Prop :=
  forall w : world, exists evs : list event,
    m {| singleton := Some (Std_out_logger this); env := w |}
    = (Returns tt,
       {| singleton := Some (Std_out_logger this); env := after k evs w |}) /\
    length (stdout_writes evs) = k /\
    Forall (carries s) (stdout_writes evs).



(** A file logger whose last open was refused. *)
Definition failed_file_logger : file_logger :=
  {| fl_lock := false; file_name := "4242-test.log";
     file := {| of_file := None; failbit := true; badbit := false;
                exc_failbit := false; exc_badbit := false |};
     reopen_interval := 300; last_reopen := 0 |}.

(** * Properties *)

Section Properties.

Context (flags : build_flags).

(** ** Strings and environments *)

Lemma append_assoc (a b c : string) : (a +:+ b) +:+ c = a +:+ (b +:+ c).
Proof.
  induction a as [| x a IH]; [reflexivity |].
  change (String x ((a +:+ b) +:+ c) = String x (a +:+ (b +:+ c))).
  now f_equal.
Qed.

Lemma append_nil_r (a : string) : a +:+ "" = a.
Proof.
  induction a as [| x a IH]; [reflexivity |].
  change (String x (a +:+ "") = String x a). now f_equal.
Qed.

Lemma length_append (a b : string) :
  String.length (a +:+ b) = (String.length a + String.length b)%nat.
Proof.
  induction a as [| x a IH]; [reflexivity |].
  change (S (String.length (a +:+ b)) = S (String.length a + String.length b)).
  now f_equal.
Qed.

Lemma after_after (n m : nat) (s t : list event) (w : world) :
  after n t (after m s w) = after (n + m) (s ++ t) w.
Proof.
  unfold after. cbn. f_equal; [lia | now rewrite List.app_assoc].
Qed.

Lemma after_0_nil (w : world) : after 0 [] w = w.
Proof. destruct w. unfold after. cbn. now rewrite app_nil_r. Qed.

Lemma no_write_app (s t : list event) :
  no_write (s ++ t) = no_write s && no_write t.
Proof. apply forallb_app. Qed.

Lemma no_write_close_events (f : ofstream) : no_write (close_events f) = true.
Proof. unfold close_events. now destruct (of_file f). Qed.

(** ** Decimal output *)

Lemma is_digit_digit_char (x : Z) : is_digit (digit_char (x mod 10)) = true.
Proof.
  assert (H : 0 <= x mod 10 < 10) by (apply Z.mod_pos_bound; lia).
  set (r := x mod 10) in *.
  assert (Hr : r = 0 \/ r = 1 \/ r = 2 \/ r = 3 \/ r = 4 \/ r = 5 \/ r = 6
               \/ r = 7 \/ r = 8 \/ r = 9) by lia.
  destruct Hr as [-> | [-> | [-> | [-> | [-> | [-> | [-> | [-> | [-> | ->]]]]]]]]];
    reflexivity.
Qed.

Lemma length_pad_digits (w : nat) (n : Z) : String.length (pad_digits w n) = w.
Proof.
  revert n. induction w as [| w IH]; intros n; [reflexivity |].
  cbn [pad_digits]. rewrite length_append, IH. cbn. lia.
Qed.

Lemma ndigits_aux_le (fuel w : nat) (n : Z) :
  (1 <= w)%nat -> 0 <= n < 10 ^ Z.of_nat w -> (ndigits_aux fuel n <= w)%nat.
Proof.
  revert w n. induction fuel as [| fuel IH]; intros w n Hw Hn; [exact Hw |].
  cbn [ndigits_aux]. destruct (n <? 10) eqn:E; [exact Hw |].
  apply Z.ltb_ge in E.
  destruct w as [| [| w]]; [lia | cbn in Hn; lia |].
  apply le_n_S. apply IH; [lia |].
  replace (Z.of_nat (S (S w))) with (Z.succ (Z.of_nat (S w))) in Hn by lia.
  rewrite Z.pow_succ_r in Hn by lia.
  split; [apply Z.div_pos; lia | apply Z.div_lt_upper_bound; lia].
Qed.

Lemma fmt_0d_pads (w : nat) (n : Z) :
  (1 <= w)%nat -> 0 <= n < 10 ^ Z.of_nat w -> fmt_0d w n = pad_digits w n.
Proof.
  intros Hw Hn. unfold fmt_0d.
  replace (n <? 0) with false by (symmetry; apply Z.ltb_ge; lia).
  rewrite Nat.max_l; [reflexivity |]. apply ndigits_aux_le; assumption.
Qed.

(** ** The calendar *)

Lemma year_of_era_bounds (doe : Z) :
  0 <= doe < 146097 ->
  let yoe := (doe - doe / 1460 + doe / 36524 - doe / 146096) / 365 in
  let doy := doe - (365 * yoe + yoe / 4 - yoe / 100) in
  0 <= yoe <= 399 /\ 0 <= doy <= 365 /\
  (doy = 365 -> (yoe + 1) mod 4 = 0 /\ ((yoe + 1) mod 100 <> 0 \/ yoe + 1 = 400)).
Proof. intros H. cbv zeta. Z.div_mod_to_equations. lia. Qed.

(** Replace the integer tests that linear arithmetic decides by their
    values. *)
Ltac decide_tests :=
  repeat match goal with
    | |- context [?a <? ?b] =>
        first [ replace (a <? b) with true by (symmetry; apply Z.ltb_lt; lia)
              | replace (a <? b) with false by (symmetry; apply Z.ltb_ge; lia) ]
    | |- context [?a <=? ?b] =>
        first [ replace (a <=? b) with true by (symmetry; apply Z.leb_le; lia)
              | replace (a <=? b) with false by (symmetry; apply Z.leb_gt; lia) ]
    | |- context [?a =? ?b] =>
        first [ replace (a =? b) with true by (symmetry; apply Z.eqb_eq; lia)
              | replace (a =? b) with false by (symmetry; apply Z.eqb_neq; lia) ]
    end;
  cbn [orb andb negb].

(** The day of the month stays within the month, February included. *)
Lemma civil_from_days_valid (z0 : Z) :
  let '(y, m, d) := civil_from_days z0 in
  1 <= m <= 12 /\ 1 <= d <= days_in_month y m.
Proof.
  unfold civil_from_days. cbv zeta.
  set (z := z0 + 719468).
  set (era := z / 146097).
  set (doe := z - era * 146097).
  assert (Hdoe : 0 <= doe < 146097) by (subst doe era; Z.div_mod_to_equations; lia).
  pose proof (year_of_era_bounds doe Hdoe) as Hy. cbv zeta in Hy.
  set (yoe := (doe - doe / 1460 + doe / 36524 - doe / 146096) / 365) in *.
  set (doy := doe - (365 * yoe + yoe / 4 - yoe / 100)) in *.
  destruct Hy as (Hyoe & Hdoy & Hleap).
  clearbody doy yoe era.
  set (mp := (5 * doy + 2) / 153).
  assert (Hmp : 0 <= mp <= 11) by (subst mp; Z.div_mod_to_equations; lia).
  assert (Hcases : mp = 0 \/ mp = 1 \/ mp = 2 \/ mp = 3 \/ mp = 4 \/ mp = 5 \/ mp = 6
                   \/ mp = 7 \/ mp = 8 \/ mp = 9 \/ mp = 10 \/ mp = 11) by lia.
  assert (Hd : 153 * mp <= 5 * doy + 2 < 153 * mp + 153)
    by (subst mp; Z.div_mod_to_equations; lia).
  unfold days_in_month, is_leap.
  destruct Hcases as [E|[E|[E|[E|[E|[E|[E|[E|[E|[E|[E|E]]]]]]]]]]];
    rewrite E in *; decide_tests;
    try (split; [lia |]; Z.div_mod_to_equations; lia).
  split; [lia |].
  assert (Hdoy2 : 337 <= doy <= 365) by lia.
  change ((153 * 11 + 2) / 5) with 337.
  destruct (Z.eq_dec doy 365) as [E5 | E5].
  - destruct (Hleap E5) as [H4 H100].
    replace ((yoe + era * 400 + 1) mod 4) with ((yoe + 1) mod 4)
      by (clear; Z.div_mod_to_equations; lia).
    rewrite H4. change (0 =? 0) with true. cbn [andb].
    destruct ((yoe + era * 400 + 1) mod 100 =? 0) eqn:E100; cbn [negb orb].
    + apply Z.eqb_eq in E100.
      destruct H100 as [H100 | H100].
      * exfalso. apply H100. clear - E100. Z.div_mod_to_equations. lia.
      * replace ((yoe + era * 400 + 1) mod 400 =? 0) with true
          by (symmetry; apply Z.eqb_eq; clear - H100; Z.div_mod_to_equations; lia).
        lia.
    + lia.
  - destruct (_ && _); lia.
Qed.

(** Within the days a 64-bit count of nanoseconds can reach,
    [civil_from_days] gives a date of the calendar, between 1677 and 2262,
    and [days_from_civil] maps it back to the day. *)
Lemma civil_from_days_spec (z0 : Z) :
  -106752 <= z0 <= 106751 ->
  let '(y, m, d) := civil_from_days z0 in
  days_from_civil y m d = z0 /\
  1 <= m <= 12 /\ 1 <= d <= days_in_month y m /\ 1 <= d <= 31 /\
  1677 <= y <= 2262.
Proof.
  intros H. pose proof (civil_from_days_valid z0) as Hvalid. revert Hvalid.
  unfold civil_from_days, days_from_civil. cbv zeta.
  set (z := z0 + 719468).
  set (era := z / 146097).
  set (doe := z - era * 146097).
  assert (Hdoe : 0 <= doe < 146097) by (subst doe era; Z.div_mod_to_equations; lia).
  pose proof (year_of_era_bounds doe Hdoe) as Hy. cbv zeta in Hy.
  set (yoe := (doe - doe / 1460 + doe / 36524 - doe / 146096) / 365) in *.
  set (doy := doe - (365 * yoe + yoe / 4 - yoe / 100)) in *.
  set (mp := (5 * doy + 2) / 153).
  assert (Hmp : 0 <= mp <= 11) by (subst mp; Z.div_mod_to_equations; lia).
  destruct Hy as (Hyoe & Hdoy & _).
  intros [_ Hvalid].
  destruct (mp <? 10) eqn:E1; [apply Z.ltb_lt in E1 | apply Z.ltb_ge in E1].
  - replace (mp + 3 <=? 2) with false in * by (symmetry; apply Z.leb_gt; lia).
    replace (2 <? mp + 3) with true by (symmetry; apply Z.ltb_lt; lia).
    replace (mp + 3 - 3) with mp by lia.
    split; [| split; [lia | split; [exact Hvalid |]]];
      clear Hvalid; repeat split; try lia;
      subst mp doy yoe doe era z; Z.div_mod_to_equations; lia.
  - replace (mp - 9 <=? 2) with true in * by (symmetry; apply Z.leb_le; lia).
    replace (2 <? mp - 9) with false by (symmetry; apply Z.ltb_ge; lia).
    replace (mp - 9 + 9) with mp by lia.
    split; [| split; [lia | split; [exact Hvalid |]]];
      clear Hvalid; repeat split; try lia;
      subst mp doy yoe doe era z; Z.div_mod_to_equations; lia.
Qed.

(** ** The timestamp *)

Lemma timestamp_reads_clock (w : world) :
  timestamp w = (Returns (timestamp_of (now w)), after 1 [] w).
Proof.
  destruct w. unfold timestamp, bind, system_clock_now, ret, after, now. cbn.
  now rewrite app_nil_r.
Qed.

Lemma round_nearest_even_spec (num den : Z) :
  0 <= num -> 0 < den ->
  0 <= round_nearest_even num den /\
  - den <= 2 * (round_nearest_even num den * den - num) <= den.
Proof.
  intros Hn Hd. unfold round_nearest_even.
  pose proof (Z.div_mod num den ltac:(lia)) as Hq.
  pose proof (Z.mod_pos_bound num den Hd) as Hr.
  assert (H0 : 0 <= num / den) by (apply Z.div_pos; lia).
  set (q := num / den) in *. set (r := num mod den) in *.
  destruct (2 * r <? den) eqn:E1; [apply Z.ltb_lt in E1 | apply Z.ltb_ge in E1].
  - split; [exact H0 | lia].
  - destruct (den <? 2 * r) eqn:E2; [apply Z.ltb_lt in E2 | apply Z.ltb_ge in E2].
    + split; lia.
    + destruct (Z.even q); split; lia.
Qed.

Lemma double_scale_ge (a : Z) : 0 < a < 2 ^ 36 -> 46 <= double_scale a.
Proof.
  intros [H0 H1]. unfold double_scale.
  assert (Hl : Z.log2 a < 36) by (apply Z.log2_lt_pow2; assumption).
  change (Z.log2 ns_per_s) with 29.
  destruct (2 ^ 52 <=? a * 2 ^ (52 - (Z.log2 a - 29)) / ns_per_s); lia.
Qed.

Lemma negative_seconds_double (ns : Z) : negative (seconds_double ns) = (ns <? 0).
Proof.
  unfold seconds_double.
  destruct (Z.abs ns =? 0) eqn:E; [| reflexivity].
  apply Z.eqb_eq in E. cbn [negative]. symmetry. apply Z.ltb_ge. lia.
Qed.

Lemma round_micro_abs (ns : Z) :
  Z.abs ns < 60 * ns_per_s ->
  0 <= round_micro ns /\ -500 <= round_micro ns * 1000 - Z.abs ns <= 500.
Proof.
  unfold ns_per_s. intros Hb. unfold round_micro, printed_micro, seconds_double.
  pose proof (Z.abs_nonneg ns) as Ha. set (a := Z.abs ns) in *.
  destruct (a =? 0) eqn:E; [apply Z.eqb_eq in E | apply Z.eqb_neq in E].
  - cbn [mantissa scale]. rewrite E.
    change (round_nearest_even (0 * 1000000) (2 ^ 0)) with 0. lia.
  - cbn [mantissa scale].
    assert (Hs : 46 <= double_scale a)
      by (apply double_scale_ge; change (2 ^ 36) with 68719476736; lia).
    set (s := double_scale a) in *.
    assert (HP : 2 ^ 46 <= 2 ^ s) by (apply Z.pow_le_mono_r; lia).
    change (2 ^ 46) with 70368744177664 in HP.
    set (P := 2 ^ s) in *.
    destruct (round_nearest_even_spec (a * P) ns_per_s) as [Hm0 Hm];
      [apply Z.mul_nonneg_nonneg; lia | reflexivity |].
    set (m := round_nearest_even (a * P) ns_per_s) in *.
    destruct (round_nearest_even_spec (m * 1000000) P) as [HM0 HM]; [lia | lia |].
    set (M := round_nearest_even (m * 1000000) P) in *.
    split; [exact HM0 |]. unfold ns_per_s in Hm.
    assert (Hx : -501 * P < (M * 1000 - a) * P < 501 * P).
    { replace ((M * 1000 - a) * P) with (1000 * (M * P) - a * P) by ring. lia. }
    nia.
Qed.

Lemma round_micro_close (ns : Z) :
  0 <= ns < 60 * ns_per_s ->
  0 <= round_micro ns /\ -500 <= round_micro ns * 1000 - ns <= 500.
Proof.
  intros H. pose proof (round_micro_abs ns) as Ha.
  rewrite Z.abs_eq in Ha by lia. apply Ha. lia.
Qed.

Lemma fmt_09_6f_nonneg (ns : Z) :
  0 <= ns < 60 * ns_per_s ->
  fmt_09_6f (seconds_double ns)
  = pad_digits 2 (round_micro ns / 1000000) +:+ "."
    +:+ pad_digits 6 (round_micro ns mod 1000000).
Proof.
  intros H. unfold fmt_09_6f. rewrite negative_seconds_double.
  fold (round_micro ns).
  destruct (round_micro_close ns) as [H0 Hc]; [lia |].
  unfold ns_per_s in H.
  replace (ns <? 0) with false by (symmetry; apply Z.ltb_ge; lia).
  rewrite Nat.max_l; [reflexivity |].
  apply ndigits_aux_le; [lia |].
  change (10 ^ Z.of_nat 2) with 100.
  split; [apply Z.div_pos; lia | apply Z.div_lt_upper_bound; lia].
Qed.

Lemma matches_timestamp_fields (y mo d h mi a b : Z) :
  matches timestamp_pattern
    (pad_digits 4 y +:+ "/" +:+ pad_digits 2 mo +:+ "/" +:+ pad_digits 2 d +:+ " "
     +:+ pad_digits 2 h +:+ ":" +:+ pad_digits 2 mi +:+ ":" +:+ pad_digits 2 a +:+ "."
     +:+ pad_digits 6 b) = true.
Proof.
  cbv -[is_digit digit_char Z.div Z.modulo].
  rewrite !is_digit_digit_char. reflexivity.
Qed.

(** The fields [timestamp] prints for a clock reading at or after the
    epoch. *)
Lemma timestamp_of_fields (tp : time_point) :
  0 <= tp < 2 ^ 63 ->
  exists year month day hour minute micro : Z,
    timestamp_of tp
    = pad_digits 4 year +:+ "/" +:+ pad_digits 2 month +:+ "/" +:+ pad_digits 2 day
      +:+ " " +:+ pad_digits 2 hour +:+ ":" +:+ pad_digits 2 minute +:+ ":"
      +:+ pad_digits 2 (micro / 1000000) +:+ "." +:+ pad_digits 6 (micro mod 1000000) /\
    1970 <= year <= 2262 /\ 1 <= month <= 12 /\
    1 <= day <= days_in_month year month /\
    0 <= hour < 24 /\ 0 <= minute < 60 /\ 0 <= micro <= 60000000 /\
    ((days_from_civil year month day * 24 + hour) * 60 + minute) = tp / 60000000000 /\
    -500 <= micro * 1000 - tp mod 60000000000 <= 500.
Proof.
  intros Htp. change (2 ^ 63) with 9223372036854775808 in Htp.
  unfold timestamp_of, to_time_t, from_time_t, gmtime_r.
  rewrite Z.quot_div_nonneg by (unfold ns_per_s; lia).
  set (tt := tp / ns_per_s).
  assert (Htt : 0 <= tt <= 9223372036)
    by (subst tt; unfold ns_per_s; Z.div_mod_to_equations; lia).
  set (days := tt / 86400). set (rem := tt mod 86400).
  assert (Hdays : 0 <= days <= 106751)
    by (subst days; Z.div_mod_to_equations; lia).
  assert (Hrem : 0 <= rem < 86400) by (subst rem; apply Z.mod_pos_bound; lia).
  pose proof (civil_from_days_spec days) as Hciv.
  destruct (civil_from_days days) as [[y m] d].
  destruct Hciv as (Hback & Hm & Hdm & Hd & Hy); [lia |].
  cbn [tm_sec tm_min tm_hour tm_mday tm_mon tm_year].
  set (frac := tp - tt * ns_per_s + rem mod 60 * ns_per_s).
  assert (Hfrac : frac = tp mod 60000000000).
  { subst frac rem tt. unfold ns_per_s. Z.div_mod_to_equations. lia. }
  assert (Hfr : 0 <= frac < 60 * ns_per_s).
  { rewrite Hfrac. unfold ns_per_s. apply Z.mod_pos_bound. lia. }
  destruct (round_micro_close frac) as [Hmicro0 Hclose]; [exact Hfr |].
  assert (Hyear : 1970 <= y).
  { assert (Hge : 0 <= days_from_civil y m d) by lia.
    unfold days_from_civil in Hge.
    destruct (m <=? 2) eqn:E; [apply Z.leb_le in E | apply Z.leb_gt in E].
    - replace (2 <? m) with false in Hge by (symmetry; apply Z.ltb_ge; lia).
      Z.div_mod_to_equations. lia.
    - replace (2 <? m) with true in Hge by (symmetry; apply Z.ltb_lt; lia).
      Z.div_mod_to_equations. lia. }
  exists y, m, d, (rem / 3600), (rem / 60 mod 60), (round_micro frac).
  split.
  { rewrite (fmt_0d_pads 4 (y - 1900 + 1900)) by (change (10 ^ Z.of_nat 4) with 10000; lia).
    rewrite (fmt_0d_pads 2 (m - 1 + 1)) by (change (10 ^ Z.of_nat 2) with 100; lia).
    rewrite (fmt_0d_pads 2 d) by (change (10 ^ Z.of_nat 2) with 100; lia).
    rewrite (fmt_0d_pads 2 (rem / 3600))
      by (change (10 ^ Z.of_nat 2) with 100; Z.div_mod_to_equations; lia).
    rewrite (fmt_0d_pads 2 (rem / 60 mod 60))
      by (change (10 ^ Z.of_nat 2) with 100; Z.div_mod_to_equations; lia).
    rewrite (fmt_09_6f_nonneg frac) by exact Hfr.
    replace (y - 1900 + 1900) with y by lia.
    replace (m - 1 + 1) with m by lia.
    reflexivity. }
  split; [lia |]. split; [lia |]. split; [exact Hdm |].
  split; [Z.div_mod_to_equations; lia |].
  split; [Z.div_mod_to_equations; lia |].
  split; [unfold ns_per_s in Hfr; lia |].
  split.
  - rewrite Hback. subst days rem tt. unfold ns_per_s.
    Z.div_mod_to_equations. lia.
  - rewrite <- Hfrac. exact Hclose.
Qed.

Lemma length_fmt_09_6f (ns : Z) :
  - ns_per_s < ns < 60 * ns_per_s ->
  String.length (fmt_09_6f (seconds_double ns)) = 9%nat.
Proof.
  intros H. unfold fmt_09_6f. rewrite negative_seconds_double.
  fold (round_micro ns).
  destruct (round_micro_abs ns) as [H0 Hc]; [unfold ns_per_s in *; lia |].
  unfold ns_per_s in H.
  destruct (ns <? 0) eqn:E; [apply Z.ltb_lt in E | apply Z.ltb_ge in E].
  - rewrite Nat.max_l.
    + change ("-" +:+ ?x) with (String "-" x).
      cbn [String.length]. rewrite !length_append, !length_pad_digits. reflexivity.
    + apply ndigits_aux_le; [lia |]. change (10 ^ Z.of_nat 1) with 10.
      split; [apply Z.div_pos; lia | apply Z.div_lt_upper_bound; lia].
  - rewrite Nat.max_l.
    + rewrite !length_append, !length_pad_digits. reflexivity.
    + apply ndigits_aux_le; [lia |]. change (10 ^ Z.of_nat 2) with 100.
      split; [apply Z.div_pos; lia | apply Z.div_lt_upper_bound; lia].
Qed.

(** For every reading a 64-bit count of nanoseconds can hold, the text
    has the 26 characters of the buffer it is printed into. *)
Lemma timestamp_of_length (tp : time_point) :
  - 2 ^ 63 <= tp < 2 ^ 63 -> String.length (timestamp_of tp) = 26%nat.
Proof.
  intros Htp. change (2 ^ 63) with 9223372036854775808 in Htp.
  unfold timestamp_of, to_time_t, from_time_t, gmtime_r.
  set (tt := Z.quot tp ns_per_s).
  assert (Htt : -9223372036 <= tt <= 9223372036 /\ - ns_per_s < tp - tt * ns_per_s < ns_per_s)
    by (subst tt; unfold ns_per_s; Z.to_euclidean_division_equations; lia).
  destruct Htt as [Htt Hfr].
  set (days := tt / 86400). set (rem := tt mod 86400).
  assert (Hdays : -106752 <= days <= 106751)
    by (subst days; Z.div_mod_to_equations; lia).
  assert (Hrem : 0 <= rem < 86400) by (subst rem; apply Z.mod_pos_bound; lia).
  pose proof (civil_from_days_spec days Hdays) as Hciv.
  destruct (civil_from_days days) as [[y m] d].
  destruct Hciv as (_ & Hm & _ & Hd & Hy).
  cbn [tm_sec tm_min tm_hour tm_mday tm_mon tm_year].
  rewrite (fmt_0d_pads 4 (y - 1900 + 1900)) by (change (10 ^ Z.of_nat 4) with 10000; lia).
  rewrite (fmt_0d_pads 2 (m - 1 + 1)) by (change (10 ^ Z.of_nat 2) with 100; lia).
  rewrite (fmt_0d_pads 2 d) by (change (10 ^ Z.of_nat 2) with 100; lia).
  rewrite (fmt_0d_pads 2 (rem / 3600))
    by (change (10 ^ Z.of_nat 2) with 100; Z.div_mod_to_equations; lia).
  rewrite (fmt_0d_pads 2 (rem / 60 mod 60))
    by (change (10 ^ Z.of_nat 2) with 100; Z.div_mod_to_equations; lia).
  rewrite !length_append, !length_pad_digits, length_fmt_09_6f; [reflexivity |].
  unfold ns_per_s in *. Z.div_mod_to_equations. lia.
Qed.

(** C9.  [timestamp()] reads the clock once; for a reading at or after the
    epoch (and within the 64 bits of the clock) the string it returns has
    26 characters and the form dddd/dd/dd dd:dd:dd.dddddd; its first five
    fields are the year, month, day, hour and minute of the reading in
    UTC, and its last field, read as a number of microseconds, is within
    half a microsecond of the time elapsed in that minute. *)
Theorem timestamp_format (w : world) :
  0 <= now w < 2 ^ 63 ->
  exists s : string,
    timestamp w = (Returns s, after 1 [] w) /\
    String.length s = 26%nat /\
    matches timestamp_pattern s = true /\
    exists year month day hour minute micro : Z,
      s = pad_digits 4 year +:+ "/" +:+ pad_digits 2 month +:+ "/"
          +:+ pad_digits 2 day +:+ " " +:+ pad_digits 2 hour +:+ ":"
          +:+ pad_digits 2 minute +:+ ":" +:+ pad_digits 2 (micro / 1000000)
          +:+ "." +:+ pad_digits 6 (micro mod 1000000) /\
      1970 <= year <= 2262 /\ 1 <= month <= 12 /\
      1 <= day <= days_in_month year month /\
      0 <= hour < 24 /\ 0 <= minute < 60 /\ 0 <= micro <= 60000000 /\
      (days_from_civil year month day * 24 + hour) * 60 + minute
      = now w / 60000000000 /\
      -500 <= micro * 1000 - now w mod 60000000000 <= 500.
Proof.
  intros Hnow. exists (timestamp_of (now w)).
  split; [apply timestamp_reads_clock |].
  split; [apply timestamp_of_length; lia |].
  destruct (timestamp_of_fields (now w) Hnow)
    as (year & month & day & hour & minute & micro & Heq & Hrest).
  split.
  - rewrite Heq. apply matches_timestamp_fields.
  - exists year, month, day, hour, minute, micro. split; [exact Heq | exact Hrest].
Qed.

(** ** The reopen check *)

Ltac step_model :=
  unfold reopen, file_logger_log, lock_lock, lock_unlock, mutex_lock,
    mutex_unlock, assign, on_file, try_catch, ofstream_open, ofstream_close,
    ofstream_write, ofstream_flush, sentry, setstate, attach, clear, good,
    in_snd, system_clock_now, getpid, emit, cout_write, cout_flush, throw,
    bind, ret, get, modify, reopen_due, now, after, close_events;
  cbn -[wrap64 Z.mul Z.sub Z.ltb String.eqb].

Lemma wrap64_small (z : Z) : - 2 ^ 63 <= z < 2 ^ 63 -> wrap64 z = z.
Proof.
  intros H. unfold wrap64. change (2 ^ 63) with 9223372036854775808 in *.
  change (2 ^ 64) with 18446744073709551616.
  rewrite Z.mod_small by lia. lia.
Qed.

(** Without overflow, the reopen check is due exactly when more than the
    interval has elapsed since the last reopen. *)
Lemma reopen_due_exact (t : time_point) (this : file_logger) :
  - 2 ^ 63 <= reopen_interval this * ns_per_s < 2 ^ 63 ->
  - 2 ^ 63 <= t - last_reopen this < 2 ^ 63 ->
  reopen_due t this = true <-> reopen_interval this * ns_per_s < t - last_reopen this.
Proof.
  intros Hi Ht. unfold reopen_due. rewrite !wrap64_small by assumption.
  apply Z.ltb_lt.
Qed.

Lemma reopen_not_due (this : file_logger) (w : world) :
  fl_lock this = false ->
  reopen_due (now w) this = false ->
  reopen (this, w) = (Returns tt, (this, after 1 [Lock; Unlock] w)).
Proof.
  destruct this as [lk name f iv last], w as [ck rd pd op tr].
  cbn [fl_lock]. intros -> Hdue. revert Hdue. step_model. intros ->.
  cbn. rewrite <- List.app_assoc. reflexivity.
Qed.

Lemma reopen_due_opened (this : file_logger) (w : world) :
  fl_lock this = false -> quiet (file this) ->
  reopen_due (now w) this = true ->
  openable w (file_name this) = true ->
  reopen (this, w)
  = (Returns tt,
     ({| fl_lock := false; file_name := file_name this;
         file := {| of_file := Some (file_name this); failbit := false;
                    badbit := false; exc_failbit := false;
                    exc_badbit := false |};
         reopen_interval := reopen_interval this;
         last_reopen := clock w (S (clock_reads w)) |},
      after 2 (Lock :: close_events (file this)
                 ++ [FileOpen (file_name this) 17 true; Unlock]) w)).
Proof.
  destruct this as [lk name [fo fb bb ef eb] iv last], w as [ck rd pd op tr].
  unfold quiet. cbn [fl_lock file exc_failbit exc_badbit file_name openable].
  intros -> [-> ->] Hdue Hop. revert Hdue. step_model. intros ->.
  destruct fo as [path |]; cbn; rewrite ?andb_false_r; cbn; rewrite Hop; cbn;
    rewrite <- !List.app_assoc; reflexivity.
Qed.

Lemma reopen_due_refused (this : file_logger) (w : world) :
  fl_lock this = false -> quiet (file this) ->
  reopen_due (now w) this = true ->
  openable w (file_name this) = false ->
  reopen (this, w)
  = (Returns tt,
     ({| fl_lock := false; file_name := file_name this;
         file := {| of_file := None; failbit := true;
                    badbit := badbit (file this); exc_failbit := false;
                    exc_badbit := false |};
         reopen_interval := reopen_interval this;
         last_reopen := clock w (S (clock_reads w)) |},
      after 2 (Lock :: close_events (file this)
                 ++ [FileOpen (file_name this) 17 false; Unlock]) w)).
Proof.
  destruct this as [lk name [fo fb bb ef eb] iv last], w as [ck rd pd op tr].
  unfold quiet. cbn [fl_lock file exc_failbit exc_badbit file_name openable].
  intros -> [-> ->] Hdue Hop. revert Hdue. step_model. intros ->.
  destruct fo as [path |]; cbn; rewrite ?andb_false_r, ?orb_true_r; cbn;
    rewrite Hop; cbn; rewrite ?andb_false_r, ?orb_true_r, ?orb_false_r; cbn;
    rewrite <- !List.app_assoc; reflexivity.
Qed.

(** Whatever the clock and the file system do, the reopen check returns,
    releases the lock, writes nothing, and keeps the stream quiet. *)
Lemma reopen_returns (this : file_logger) (w : world) :
  fl_lock this = false -> quiet (file this) ->
  exists this' n tail,
    reopen (this, w) = (Returns tt, (this', after n tail w)) /\
    fl_lock this' = false /\ quiet (file this') /\
    file_name this' = file_name this /\
    reopen_interval this' = reopen_interval this /\
    no_write tail = true.
Proof.
  intros Hl Hq.
  destruct (reopen_due (now w) this) eqn:Hdue.
  - destruct (openable w (file_name this)) eqn:Hop.
    + eexists _, _, _. split; [apply reopen_due_opened; assumption |].
      cbn. unfold quiet. cbn. rewrite no_write_app, no_write_close_events.
      repeat split; reflexivity.
    + eexists _, _, _. split; [apply reopen_due_refused; assumption |].
      cbn. unfold quiet. cbn. rewrite no_write_app, no_write_close_events.
      repeat split; reflexivity.
  - eexists _, _, _. split; [apply reopen_not_due; assumption |].
    repeat split; try assumption; try reflexivity; apply Hq.
Qed.

(** ** The raw write of the file logger *)

Lemma file_logger_log_written (message path : string) (this : file_logger) (w : world) :
  fl_lock this = false -> quiet (file this) ->
  of_file (file this) = Some path -> good (file this) = true ->
  file_logger_log message (this, w)
  = reopen (this, after 0 [Lock; FileWrite path message; FileFlush path; Unlock] w).
Proof.
  destruct this as [lk name [fo fb bb ef eb] iv last], w as [ck rd pd op tr].
  unfold quiet, good. cbn [fl_lock file exc_failbit exc_badbit of_file failbit badbit].
  intros -> [-> ->] -> Hg.
  apply andb_true_iff in Hg as [Hf Hb].
  apply negb_true_iff in Hf, Hb. subst fb bb.
  unfold file_logger_log, bind at 1 2 3 4.
  unfold lock_lock, lock_unlock, mutex_lock, mutex_unlock, on_file,
    ofstream_write, ofstream_flush, sentry, good, in_snd, emit, bind, ret,
    get, modify, after.
  cbn -[reopen]. rewrite <- !List.app_assoc. reflexivity.
Qed.

(** The raw write on a good stream attached to [path]: the bytes are
    written and flushed under the lock, the lock is released, and the
    reopen check follows under a new acquisition of the same lock; when it
    is due the stream is closed and the file name opened for appending,
    and the time of the last reopen becomes the reading taken after the
    open. *)
Lemma file_logger_log_spec (message path : string) (this : file_logger) (w : world) :
  fl_lock this = false -> quiet (file this) ->
  of_file (file this) = Some path -> good (file this) = true ->
  file_logger_log message (this, w)
  = if reopen_due (now w) this
    then
      (Returns tt,
       ({| fl_lock := false; file_name := file_name this;
           file := if openable w (file_name this)
                   then {| of_file := Some (file_name this); failbit := false;
                           badbit := false; exc_failbit := false;
                           exc_badbit := false |}
                   else {| of_file := None; failbit := true; badbit := false;
                           exc_failbit := false; exc_badbit := false |};
           reopen_interval := reopen_interval this;
           last_reopen := clock w (S (clock_reads w)) |},
        after 2 [Lock; FileWrite path message; FileFlush path; Unlock;
                 Lock; FileClose path;
                 FileOpen (file_name this) (Z.lor ios_out ios_app)
                   (openable w (file_name this));
                 Unlock] w))
    else
      (Returns tt,
       (this,
        after 1 [Lock; FileWrite path message; FileFlush path; Unlock;
                 Lock; Unlock] w)).
Proof.
  intros Hl Hq Hf Hg. rewrite (file_logger_log_written message path) by assumption.
  set (w1 := after 0 [Lock; FileWrite path message; FileFlush path; Unlock] w).
  assert (Hnow : now w1 = now w) by reflexivity.
  assert (Hbad : badbit (file this) = false).
  { unfold good in Hg. apply andb_true_iff in Hg as [_ Hb].
    apply negb_true_iff in Hb. exact Hb. }
  destruct (reopen_due (now w) this) eqn:Hdue.
  - destruct (openable w (file_name this)) eqn:Hop.
    + rewrite (reopen_due_opened this w1) by assumption.
      subst w1. rewrite after_after. unfold close_events. rewrite Hf. reflexivity.
    + rewrite (reopen_due_refused this w1) by assumption.
      subst w1. rewrite after_after, Hbad. unfold close_events. rewrite Hf.
      reflexivity.
  - rewrite (reopen_not_due this w1) by assumption.
    subst w1. rewrite after_after. reflexivity.
Qed.

(** On a stream that is not good, or has no file, the raw write puts no
    byte anywhere and reports nothing. *)
Lemma file_logger_log_dropped (message : string) (this : file_logger) (w : world) :
  fl_lock this = false -> quiet (file this) ->
  good (file this) = false \/ of_file (file this) = None ->
  exists f',
    file_logger_log message (this, w)
    = reopen (set_file f' this, after 0 [Lock; Unlock] w) /\
    quiet f' /\ of_file f' = of_file (file this).
Proof.
  destruct this as [lk name [fo fb bb ef eb] iv last], w as [ck rd pd op tr].
  unfold quiet, good. cbn [fl_lock file exc_failbit exc_badbit of_file failbit badbit].
  intros -> [-> ->] Hbad.
  unfold file_logger_log, bind at 1 2 3 4.
  unfold lock_lock, lock_unlock, mutex_lock, mutex_unlock, on_file,
    ofstream_write, ofstream_flush, sentry, setstate, good, in_snd, emit, bind,
    ret, get, modify, after, set_file, set_fl_lock.
  destruct fb, bb, fo as [path |];
    try (destruct Hbad as [Hbad | Hbad]; discriminate Hbad);
    try destruct (String.eqb message "");
    cbn -[reopen]; rewrite <- ?List.app_assoc;
    (eexists; split; [reflexivity | unfold quiet; cbn; repeat split; reflexivity]).
Qed.

(** ** Below the cutoff *)

(** C1.  A call of [log(message, level)] with a level strictly below the
    compiled-in cutoff returns at once and leaves everything as it was:
    the logger object (lock, file handle, time of the last reopen) and the
    environment (nothing written, locked, opened or closed, and the clock
    not read, so nothing formatted and no reopen check).  This holds for
    the standard-output logger, the file logger, and through the virtual
    call for every logger. *)
Theorem below_cutoff_no_effect (message : string) (level : log_level) :
  level_value level < LOG_LEVEL_CUTOFF flags ->
  (forall (this : std_out_logger) (w : world),
      std_out_logger_log_level flags message level (this, w)
      = (Returns tt, (this, w))) /\
  (forall (this : file_logger) (w : world),
      file_logger_log_level flags message level (this, w)
      = (Returns tt, (this, w))) /\
  (forall (l : logger) (w : world),
      logger_log_level flags message level (l, w)
      = (Returns tt, (l, w))).
Proof.
  intros Hlt.
  assert (Hb : (level_value level <? LOG_LEVEL_CUTOFF flags) = true)
    by (apply Z.ltb_lt; exact Hlt).
  repeat split.
  - intros this w. unfold std_out_logger_log_level. rewrite Hb. reflexivity.
  - intros this w. unfold file_logger_log_level. rewrite Hb. reflexivity.
  - intros l w. unfold logger_log_level, bind, get, dispatch.
    destruct l as [b | o | f]; cbn [fst snd].
    + reflexivity.
    + unfold std_out_logger_log_level. rewrite Hb. reflexivity.
    + unfold file_logger_log_level. rewrite Hb. reflexivity.
Qed.

(** ** The label tables *)

Lemma table_find_uncolored (l : log_level) :
  table_find l uncolored = Some (label uncolored l).
Proof. destruct l; reflexivity. Qed.

Lemma table_find_colored (l : log_level) :
  table_find l colored = Some (label colored l).
Proof. destruct l; reflexivity. Qed.

Lemma label_colored_differs (l : log_level) : label colored l <> label uncolored l.
Proof. destruct l; discriminate. Qed.

(** ** At or above the cutoff *)

Lemma file_logger_log_level_passes (message : string) (level : log_level)
    (this : file_logger) (w : world) :
  LOG_LEVEL_CUTOFF flags <= level_value level ->
  file_logger_log_level flags message level (this, w)
  = file_logger_log
      (timestamp_of (now w) +:+ label uncolored level +:+ message +:+ NL)
      (this, after 1 [] w).
Proof.
  intros Hge. unfold file_logger_log_level.
  replace (level_value level <? LOG_LEVEL_CUTOFF flags) with false
    by (symmetry; apply Z.ltb_ge; exact Hge).
  unfold bind at 1. unfold in_snd. cbn [fst snd].
  rewrite timestamp_reads_clock, !append_assoc. reflexivity.
Qed.

Lemma std_out_logger_log_level_passes (message : string) (level : log_level)
    (this : std_out_logger) (w : world) :
  LOG_LEVEL_CUTOFF flags <= level_value level ->
  std_out_logger_log_level flags message level (this, w)
  = (Returns tt,
     (this,
      after 1
        [StdoutWrite
           (timestamp_of (now w) +:+ " [" +:+ to_string (pid w) +:+ "]"
            +:+ label (levels this) level +:+ message +:+ NL);
         StdoutFlush] w)).
Proof.
  intros Hge. unfold std_out_logger_log_level.
  replace (level_value level <? LOG_LEVEL_CUTOFF flags) with false
    by (symmetry; apply Z.ltb_ge; exact Hge).
  unfold bind at 1. unfold in_snd at 1. cbn [fst snd].
  rewrite timestamp_reads_clock.
  destruct w as [ck rd pd op tr].
  unfold std_out_logger_log, bind, in_snd, getpid, get, cout_write, cout_flush,
    emit, modify, ret, after, now.
  cbn -[timestamp_of to_string label String.append].
  rewrite !append_assoc, app_nil_r, <- List.app_assoc. reflexivity.
Qed.

(** C2.  At or above the cutoff, [log(message, level)] of a
    standard-output logger built from [config] writes to standard output,
    in one write followed by a flush, exactly the timestamp of the clock
    reading, a space, the process id in brackets, the level label, the
    message and a newline; the label comes from the colored table when
    [config] has the key "color" and from the uncolored table when it has
    not, and the two tables differ at every level.  The file logger hands
    to its raw write exactly the timestamp, the uncolored label, the
    message and a newline, with no process id, whatever it was configured
    with; on a logger whose stream is good and attached to [path] that
    line is the one thing written to [path]. *)
Theorem emitted_line_exact (message : string) (level : log_level) :
  LOG_LEVEL_CUTOFF flags <= level_value level ->
  (forall (config : logging_config_t) (w : world),
      std_out_logger_log_level flags message level
        (std_out_logger_ctor config, w)
      = (Returns tt,
         (std_out_logger_ctor config,
          after 1
            [StdoutWrite
               (timestamp_of (now w) +:+ " [" +:+ to_string (pid w) +:+ "]"
                +:+ label (match config !! "color" with
                           | Some _ => colored
                           | None => uncolored
                           end) level
                +:+ message +:+ NL);
             StdoutFlush] w))) /\
  (forall l : log_level,
      table_find l colored = Some (label colored l) /\
      table_find l uncolored = Some (label uncolored l) /\
      label colored l <> label uncolored l) /\
  (forall (this : file_logger) (w : world),
      file_logger_log_level flags message level (this, w)
      = file_logger_log
          (timestamp_of (now w) +:+ label uncolored level +:+ message +:+ NL)
          (this, after 1 [] w)) /\
  (forall (this : file_logger) (w : world) (path : string),
      fl_lock this = false -> quiet (file this) ->
      of_file (file this) = Some path -> good (file this) = true ->
      exists this' n tail,
        file_logger_log_level flags message level (this, w)
        = (Returns tt,
           (this',
            after n
              ([Lock;
                FileWrite path
                  (timestamp_of (now w) +:+ label uncolored level
                   +:+ message +:+ NL);
                FileFlush path; Unlock] ++ tail) w)) /\
        no_write tail = true).
Proof.
  intros Hge. split; [| split; [| split]].
  - intros config w.
    rewrite std_out_logger_log_level_passes by exact Hge. reflexivity.
  - intros l. split; [apply table_find_colored |].
    split; [apply table_find_uncolored | apply label_colored_differs].
  - intros this w. apply file_logger_log_level_passes. exact Hge.
  - intros this w path Hl Hq Hf Hg.
    rewrite file_logger_log_level_passes by exact Hge.
    rewrite (file_logger_log_written _ path) by assumption.
    rewrite after_after.
    destruct (reopen_returns this
                (after (0 + 1)
                   ([] ++ [Lock;
                           FileWrite path
                             (timestamp_of (now w) +:+ label uncolored level
                              +:+ message +:+ NL);
                           FileFlush path; Unlock]) w) Hl Hq)
      as (this' & n & tail & Heq & _ & _ & _ & _ & Hnw).
    exists this', (n + (0 + 1))%nat, tail.
    split; [| exact Hnw].
    rewrite Heq, after_after. reflexivity.
Qed.

(** ** Newlines at the end of a line *)

Lemma trailing_newlines_le (s : string) :
  (trailing_newlines s <= String.length s)%nat.
Proof.
  induction s as [| c s IH]; [apply Nat.le_refl |].
  cbn [trailing_newlines String.length].
  destruct (Nat.eqb (trailing_newlines s) (String.length s)
            && Ascii.eqb c (ascii_of_nat 10)); lia.
Qed.

Lemma trailing_newlines_append (a b : string) :
  trailing_newlines (a +:+ b)
  = if Nat.eqb (trailing_newlines b) (String.length b)
    then (trailing_newlines a + String.length b)%nat
    else trailing_newlines b.
Proof.
  induction a as [| c a IH].
  - change ("" +:+ b) with b. cbn [trailing_newlines].
    destruct (Nat.eqb (trailing_newlines b) (String.length b)) eqn:E;
      [apply Nat.eqb_eq in E; lia | reflexivity].
  - change (String c a +:+ b) with (String c (a +:+ b)).
    cbn [trailing_newlines]. rewrite IH, length_append.
    pose proof (trailing_newlines_le b) as Hb.
    destruct (Nat.eqb (trailing_newlines b) (String.length b)) eqn:E.
    + destruct (Nat.eqb (trailing_newlines a) (String.length a)) eqn:Ea.
      * apply Nat.eqb_eq in Ea. rewrite Ea, Nat.eqb_refl. cbn [andb].
        destruct (Ascii.eqb c (ascii_of_nat 10)); reflexivity.
      * apply Nat.eqb_neq in Ea.
        replace (Nat.eqb (trailing_newlines a + String.length b)
                   (String.length a + String.length b)) with false
          by (symmetry; apply Nat.eqb_neq; lia).
        reflexivity.
    + apply Nat.eqb_neq in E.
      replace (Nat.eqb (trailing_newlines b) (String.length a + String.length b))
        with false by (symmetry; apply Nat.eqb_neq; lia).
      reflexivity.
Qed.

Lemma label_ends_line (config : logging_config_t) (l : log_level) :
  let t := levels (std_out_logger_ctor config) in
  trailing_newlines (label t l) = 0%nat /\ String.length (label t l) <> 0%nat.
Proof.
  unfold std_out_logger_ctor. cbn [levels].
  destruct (config !! "color"), l; split; (reflexivity || discriminate).
Qed.

Lemma uncolored_label_ends_line (l : log_level) :
  trailing_newlines (label uncolored l) = 0%nat /\
  String.length (label uncolored l) <> 0%nat.
Proof. destruct l; split; (reflexivity || discriminate). Qed.

(** A prefix that ends with a label, then the message, then a newline. *)
Lemma trailing_newlines_line (front lbl message : string) :
  trailing_newlines lbl = 0%nat -> String.length lbl <> 0%nat ->
  trailing_newlines ((front +:+ lbl) +:+ message +:+ NL)
  = S (trailing_newlines message).
Proof.
  intros H0 Hlen.
  rewrite <- (append_assoc (front +:+ lbl) message NL).
  rewrite (trailing_newlines_append _ NL). cbn [trailing_newlines NL String.length].
  change (Nat.eqb 0 0 && Ascii.eqb (ascii_of_nat 10) (ascii_of_nat 10)) with true.
  cbn [Nat.eqb].
  rewrite (trailing_newlines_append (front +:+ lbl) message).
  rewrite (trailing_newlines_append front lbl), H0.
  replace (Nat.eqb 0 (String.length lbl)) with false
    by (symmetry; apply Nat.eqb_neq; lia).
  destruct (Nat.eqb (trailing_newlines message) (String.length message)) eqn:E.
  - apply Nat.eqb_eq in E. lia.
  - lia.
Qed.

(** C8 (amended).  At or above the cutoff, the line a logger emits is a
    prefix, then the message, then one newline: it contains the message as
    a contiguous substring and ends with exactly one newline more than the
    message itself ends with, hence with exactly one when the message does
    not end in a newline.  For the standard-output logger the line is what
    is written to standard output; for the file logger it is what is
    handed to the raw write. *)
Theorem emitted_line_shape (message : string) (level : log_level) :
  LOG_LEVEL_CUTOFF flags <= level_value level ->
  (forall (config : logging_config_t) (w : world),
      exists prefix line : string,
        std_out_logger_log_level flags message level
          (std_out_logger_ctor config, w)
        = (Returns tt,
           (std_out_logger_ctor config,
            after 1 [StdoutWrite line; StdoutFlush] w)) /\
        line = prefix +:+ message +:+ NL /\
        trailing_newlines line = S (trailing_newlines message) /\
        (trailing_newlines message = 0%nat -> trailing_newlines line = 1%nat)) /\
  (forall (this : file_logger) (w : world),
      exists prefix line : string,
        file_logger_log_level flags message level (this, w)
        = file_logger_log line (this, after 1 [] w) /\
        line = prefix +:+ message +:+ NL /\
        trailing_newlines line = S (trailing_newlines message) /\
        (trailing_newlines message = 0%nat -> trailing_newlines line = 1%nat)).
Proof.
  intros Hge. split.
  - intros config w.
    destruct (label_ends_line config level) as [H0 Hlen].
    exists ((timestamp_of (now w) +:+ " [" +:+ to_string (pid w) +:+ "]")
            +:+ label (levels (std_out_logger_ctor config)) level).
    eexists. split; [| split; [reflexivity |]].
    + rewrite std_out_logger_log_level_passes by exact Hge.
      rewrite !append_assoc. reflexivity.
    + rewrite (trailing_newlines_line _ _ _ H0 Hlen). split; [reflexivity | lia].
  - intros this w.
    destruct (uncolored_label_ends_line level) as [H0 Hlen].
    exists (timestamp_of (now w) +:+ label uncolored level).
    eexists. split; [| split; [reflexivity |]].
    + rewrite file_logger_log_level_passes by exact Hge.
      rewrite !append_assoc. reflexivity.
    + rewrite (trailing_newlines_line _ _ _ H0 Hlen). split; [reflexivity | lia].
Qed.

(** ** Construction of the file logger *)

Lemma file_logger_ctor_no_name (config : logging_config_t) (w : world) :
  config !! "file_name" = None ->
  file_logger_ctor config w
  = (Throws (runtime_error "No output file provided to file logger"), w).
Proof.
  intros Hn. unfold file_logger_ctor, file_logger_ctor_body. rewrite Hn.
  reflexivity.
Qed.

Lemma file_logger_ctor_bad_interval (config : logging_config_t) (w : world)
    (name value : string) (e : exn) :
  config !! "file_name" = Some name ->
  config !! "reopen_interval" = Some value ->
  stoul_result value = inl e ->
  file_logger_ctor config w
  = (Throws (runtime_error (value +:+ " is not a valid reopen interval")), w).
Proof.
  intros Hn Hi He. unfold file_logger_ctor, file_logger_ctor_body.
  rewrite Hn, Hi. destruct w as [ck rd pd op tr].
  unfold bind, in_snd, getpid, assign, modify, try_catch, stoul, throw.
  rewrite He. reflexivity.
Qed.

Lemma file_logger_ctor_reopens (config : logging_config_t) (w : world)
    (name : string) (interval : Z) :
  config !! "file_name" = Some name ->
  match config !! "reopen_interval" with
  | Some value => exists n, stoul_result value = inr n /\ interval = wrap64 n
  | None => interval = 300
  end ->
  exists this n tail,
    reopen (before_reopen w name interval, w)
    = (Returns tt, (this, after n tail w)) /\
    file_logger_ctor config w = (Returns this, after n tail w) /\
    fl_lock this = false /\ quiet (file this) /\
    file_name this = to_string (pid w) +:+ "-" +:+ name /\
    reopen_interval this = interval /\
    no_write tail = true.
Proof.
  intros Hn Hi.
  destruct (reopen_returns (before_reopen w name interval) w)
    as (this & n & tail & Heq & Hl & Hq & Hfn & Hri & Hnw);
    [reflexivity | split; reflexivity |].
  exists this, n, tail.
  split; [exact Heq |].
  split; [| repeat split; try assumption; try apply Hq;
            rewrite Hfn; cbn; apply append_assoc].
  unfold file_logger_ctor, file_logger_ctor_body. rewrite Hn.
  destruct (config !! "reopen_interval") as [value |].
  - destruct Hi as (m & Hm & ->).
    unfold bind at 1 2 3. unfold in_snd at 1. unfold getpid, assign, modify,
      try_catch, stoul, bind, ret.
    rewrite Hm. cbn [fst snd].
    change (set_reopen_interval (wrap64 m)
              (set_file_name ((to_string (pid w) +:+ "-") +:+ name) file_logger_init))
      with (before_reopen w name (wrap64 m)) at 1.
    rewrite Heq. reflexivity.
  - subst interval.
    unfold bind at 1 2 3. unfold in_snd at 1. unfold getpid, assign, modify, ret.
    cbn [fst snd].
    change (set_file_name ((to_string (pid w) +:+ "-") +:+ name) file_logger_init)
      with (before_reopen w name 300) at 1.
    rewrite Heq. reflexivity.
Qed.

(** [std::stoul] on a value made of digits only. *)
Lemma parse_digits_all_digits (s : string) (acc : Z) :
  all_digits s = true ->
  parse_digits (Some acc) s = Some (decimal_value acc s).
Proof.
  revert acc. induction s as [| c s IH]; intros acc Hd; [reflexivity |].
  cbn in Hd. apply andb_true_iff in Hd as [Hc Hs].
  cbn. rewrite Hc. cbn. apply IH. exact Hs.
Qed.

Lemma is_digit_not_space (c : ascii) : is_digit c = true -> is_space c = false.
Proof.
  unfold is_digit, is_space. intros H.
  apply andb_true_iff in H as [H1 H2].
  apply Nat.leb_le in H1. apply Nat.leb_le in H2.
  apply orb_false_iff. split.
  - apply Nat.eqb_neq. lia.
  - apply andb_false_iff. right. apply Nat.leb_gt. lia.
Qed.

Lemma stoul_result_numeric (s : string) :
  numeric s = true ->
  stoul_result s
  = if ULONG_MAX <? decimal_value 0 s then inl out_of_range
    else inr (decimal_value 0 s).
Proof.
  unfold numeric. intros H. apply andb_true_iff in H as [Hne Hd].
  destruct s as [| c s]; [discriminate Hne |].
  pose proof Hd as Hd'. cbn in Hd'. apply andb_true_iff in Hd' as [Hc Hs].
  unfold stoul_result. cbn [skip_spaces]. rewrite (is_digit_not_space c Hc).
  destruct c as [[] [] [] [] [] [] [] []]; try discriminate Hc;
    cbn [parse_digits]; rewrite ?Hc; cbn -[decimal_value parse_digits ULONG_MAX Z.ltb];
    rewrite (parse_digits_all_digits s _ Hs); reflexivity.
Qed.

Lemma not_valid_message_differs (value : string) :
  value +:+ " is not a valid reopen interval"
  <> "No output file provided to file logger".
Proof.
  intros H.
  assert (Hlen : String.length value = 7%nat).
  { apply (f_equal String.length) in H. rewrite length_append in H.
    cbn in H. lia. }
  do 8 (destruct value as [| ? value]; [discriminate Hlen || discriminate H |]).
  discriminate Hlen.
Qed.

(** C4 (amended).  Construction throws "No output file provided to file
    logger" exactly when the key "file_name" is absent.  With the key
    present and a value under "reopen_interval", construction throws
    exactly when [std::stoul] rejects the value (no digit after optional
    white space and sign, or a magnitude above 2^64 - 1), and the error is
    "<value> is not a valid reopen interval"; a value of digits only is
    rejected exactly when it exceeds 2^64 - 1.  Otherwise construction
    returns a logger whose interval is the number [std::stoul] read, as a
    64-bit count of seconds (300 without the key), and whose file name is
    "<pid>-<file_name>"; and when the clock reads more than the interval
    past the epoch, construction has asked for that file to be opened for
    appending, under the lock, has recorded the reading taken after the
    open, and holds a good stream attached to the file if the open was
    granted. *)
Theorem file_logger_ctor_spec (config : logging_config_t) (w : world) :
  (config !! "file_name" = None <->
   file_logger_ctor config w
   = (Throws (runtime_error "No output file provided to file logger"), w)) /\
  (forall name value : string,
      config !! "file_name" = Some name ->
      config !! "reopen_interval" = Some value ->
      ((exists e, stoul_result value = inl e) <->
       (exists e w', file_logger_ctor config w = (Throws e, w'))) /\
      ((exists e, stoul_result value = inl e) ->
       file_logger_ctor config w
       = (Throws (runtime_error (value +:+ " is not a valid reopen interval")), w)) /\
      (numeric value = true ->
       ((exists e, stoul_result value = inl e) <-> ULONG_MAX < decimal_value 0 value) /\
       (decimal_value 0 value <= ULONG_MAX ->
        stoul_result value = inr (decimal_value 0 value)))) /\
  (forall (name : string) (interval : Z),
      config !! "file_name" = Some name ->
      match config !! "reopen_interval" with
      | Some value => exists n, stoul_result value = inr n /\ interval = wrap64 n
      | None => interval = 300
      end ->
      exists (this : file_logger) (w' : world),
        file_logger_ctor config w = (Returns this, w') /\
        reopen_interval this = interval /\
        file_name this = to_string (pid w) +:+ "-" +:+ name /\
        (wrap64 (interval * ns_per_s) < wrap64 (now w) ->
         w' = after 2 [Lock;
                       FileOpen (file_name this) (Z.lor ios_out ios_app)
                         (openable w (file_name this));
                       Unlock] w /\
         last_reopen this = clock w (S (clock_reads w)) /\
         (openable w (file_name this) = true ->
          of_file (file this) = Some (file_name this) /\
          good (file this) = true))).
Proof.
  split; [| split].
  - split; [apply file_logger_ctor_no_name |].
    intros Hthrow. destruct (config !! "file_name") as [name |] eqn:Hn; [| reflexivity].
    exfalso.
    destruct (config !! "reopen_interval") as [value |] eqn:Hi.
    + destruct (stoul_result value) as [e | n] eqn:Hs.
      * rewrite (file_logger_ctor_bad_interval _ _ _ _ _ Hn Hi Hs) in Hthrow.
        injection Hthrow as Hm. exact (not_valid_message_differs value Hm).
      * destruct (file_logger_ctor_reopens config w name (wrap64 n) Hn)
          as (this & k & tail & _ & Hc & _); [rewrite Hi; eauto |].
        rewrite Hc in Hthrow. discriminate Hthrow.
    + destruct (file_logger_ctor_reopens config w name 300 Hn)
        as (this & k & tail & _ & Hc & _); [rewrite Hi; reflexivity |].
      rewrite Hc in Hthrow. discriminate Hthrow.
  - intros name value Hn Hi. split; [| split].
    + split.
      * intros [e He]. rewrite (file_logger_ctor_bad_interval _ _ _ _ _ Hn Hi He). eauto.
      * intros (e & w' & Hthrow).
        destruct (stoul_result value) as [e' | n] eqn:Hs; [eauto |].
        destruct (file_logger_ctor_reopens config w name (wrap64 n) Hn)
          as (this & k & tail & _ & Hc & _); [rewrite Hi; eauto |].
        rewrite Hc in Hthrow. discriminate Hthrow.
    + intros [e He]. exact (file_logger_ctor_bad_interval _ _ _ _ _ Hn Hi He).
    + intros Hnum. rewrite (stoul_result_numeric value Hnum). split.
      * destruct (ULONG_MAX <? decimal_value 0 value) eqn:Hlt.
        -- apply Z.ltb_lt in Hlt. split; [intros _; exact Hlt | eauto].
        -- apply Z.ltb_ge in Hlt. split; [intros [e He]; discriminate He | lia].
      * intros Hle. apply Z.ltb_ge in Hle. rewrite Hle. reflexivity.
  - intros name interval Hn Hi.
    destruct (file_logger_ctor_reopens config w name interval Hn Hi)
      as (this & k & tail & Hre & Hc & _ & _ & Hfn & Hri & _).
    exists this, (after k tail w).
    split; [exact Hc |]. split; [exact Hri |]. split; [exact Hfn |].
    intros Hdue.
    assert (Hd : reopen_due (now w) (before_reopen w name interval) = true).
    { unfold reopen_due, before_reopen. cbn [reopen_interval last_reopen].
      rewrite Z.sub_0_r. apply Z.ltb_lt. exact Hdue. }
    assert (Hname : file_name this = file_name (before_reopen w name interval)).
    { rewrite Hfn. cbn. symmetry. apply append_assoc. }
    assert (Hpair : forall (a b : file_logger) (x y : world),
               (Returns tt, (a, x)) = (Returns tt, (b, y)) -> a = b /\ x = y)
      by (intros a b x y [= -> ->]; split; reflexivity).
    destruct (openable w (file_name this)) eqn:Hop.
    + rewrite Hname in Hop.
      pose proof (reopen_due_opened (before_reopen w name interval) w eq_refl
                    (conj eq_refl eq_refl) Hd Hop) as Ho.
      rewrite Hre in Ho. destruct (Hpair _ _ _ _ Ho) as [Ht Hw].
      rewrite Hw, Ht. repeat split; reflexivity.
    + rewrite Hname in Hop.
      pose proof (reopen_due_refused (before_reopen w name interval) w eq_refl
                    (conj eq_refl eq_refl) Hd Hop) as Ho.
      rewrite Hre in Ho. destruct (Hpair _ _ _ _ Ho) as [Ht Hw].
      rewrite Hw, Ht. repeat split; try reflexivity; discriminate.
Qed.

(** The raw write of a logger with a quiet stream returns whatever the
    state of the stream and of the file system: no failure reaches the
    caller. *)
Lemma file_logger_log_returns (message : string) (this : file_logger) (w : world) :
  fl_lock this = false -> quiet (file this) ->
  exists this' n tail,
    file_logger_log message (this, w) = (Returns tt, (this', after n tail w)) /\
    fl_lock this' = false /\ quiet (file this').
Proof.
  intros Hl Hq.
  destruct (good (file this)) eqn:Hg; [destruct (of_file (file this)) as [path |] eqn:Hf |].
  - rewrite (file_logger_log_written message path) by assumption.
    destruct (reopen_returns this
                (after 0 [Lock; FileWrite path message; FileFlush path; Unlock] w)
                Hl Hq) as (this' & n & tail & Heq & Hl' & Hq' & _).
    rewrite Heq, after_after. eauto 10.
  - destruct (file_logger_log_dropped message this w Hl Hq (or_intror Hf))
      as (f' & Heq & Hq' & _).
    destruct (reopen_returns (set_file f' this) (after 0 [Lock; Unlock] w) Hl Hq')
      as (this' & n & tail & Hre & Hl' & Hq'' & _).
    rewrite Heq, Hre, after_after. eauto 10.
  - destruct (file_logger_log_dropped message this w Hl Hq (or_introl Hg))
      as (f' & Heq & Hq' & _).
    destruct (reopen_returns (set_file f' this) (after 0 [Lock; Unlock] w) Hl Hq')
      as (this' & n & tail & Hre & Hl' & Hq'' & _).
    rewrite Heq, Hre, after_after. eauto 10.
Qed.

(** ** The factory *)

Lemma creators_get_factory :
  creators get_factory
  = <["file" := fun config => do l <- file_logger_ctor config; ret (File_logger l)]>
      (<["std_out" := fun config => ret (Std_out_logger (std_out_logger_ctor config))]>
         (<["" := fun config => ret (Logger (logger_ctor config))]> ∅)).
Proof. reflexivity. Qed.

Lemma registered_names (name : string) :
  is_Some (creators get_factory !! name)
  <-> name = "" \/ name = "std_out" \/ name = "file".
Proof.
  rewrite creators_get_factory.
  rewrite !lookup_insert_is_Some, lookup_empty, is_Some_alt.
  split.
  - intros [<- | [_ [<- | [_ [<- | [_ []]]]]]]; auto.
  - intros [-> | [-> | ->]].
    + right. split; [discriminate |]. right. split; [discriminate |]. now left.
    + right. split; [discriminate |]. now left.
    + now left.
Qed.

(** C6.  [produce] throws "Logging factory configuration requires a type
    of logger" when the configuration has no key "type"; throws "Couldn't
    produce logger for type: <type>" when no constructor is registered
    under the value of "type"; and otherwise is the call of the registered
    constructor on the configuration.  Exactly the names "", "std_out" and
    "file" are registered: the first builds a base [logger], both of whose
    [log] operations do nothing, the second a [std_out_logger], the third
    a [file_logger]. *)
Theorem produce_spec (config : logging_config_t) (w : world) :
  (config !! "type" = None ->
   produce get_factory config w
   = (Throws (runtime_error
                "Logging factory configuration requires a type of logger"), w)) /\
  (forall type : string,
      config !! "type" = Some type ->
      creators get_factory !! type = None ->
      produce get_factory config w
      = (Throws (runtime_error ("Couldn't produce logger for type: " +:+ type)), w)) /\
  (forall (type : string) (found : logger_creator),
      config !! "type" = Some type ->
      creators get_factory !! type = Some found ->
      produce get_factory config w = found config w) /\
  (forall name : string,
      is_Some (creators get_factory !! name)
      <-> name = "" \/ name = "std_out" \/ name = "file") /\
  (exists null_creator std_out_creator file_creator : logger_creator,
      creators get_factory !! "" = Some null_creator /\
      creators get_factory !! "std_out" = Some std_out_creator /\
      creators get_factory !! "file" = Some file_creator /\
      null_creator config w = (Returns (Logger (logger_ctor config)), w) /\
      std_out_creator config w
      = (Returns (Std_out_logger (std_out_logger_ctor config)), w) /\
      file_creator config w
      = (do l <- file_logger_ctor config; ret (File_logger l)) w) /\
  (forall (message : string) (level : log_level) (l : logger_base) (w' : world),
      logger_log_level flags message level (Logger l, w')
      = (Returns tt, (Logger l, w')) /\
      logger_log message (Logger l, w') = (Returns tt, (Logger l, w'))).
Proof.
  split; [| split; [| split; [| split; [| split]]]].
  - intros Ht. unfold produce. rewrite Ht. reflexivity.
  - intros type Ht Hc. unfold produce. rewrite Ht, Hc. reflexivity.
  - intros type found Ht Hc. unfold produce. rewrite Ht, Hc. reflexivity.
  - apply registered_names.
  - eexists _, _, _. rewrite creators_get_factory.
    split; [reflexivity |]. split; [reflexivity |]. split; [reflexivity |].
    repeat split; reflexivity.
  - intros message level l w'. split; reflexivity.
Qed.

(** [produce] either returns a logger or throws; it never waits, and when
    it throws the environment is as it was. *)
Lemma produce_outcome (config : logging_config_t) (w : world) :
  (exists l n tail, produce get_factory config w = (Returns l, after n tail w)) \/
  (exists e, produce get_factory config w = (Throws e, w)).
Proof.
  unfold produce. destruct (config !! "type") as [type |]; [| right; eauto].
  rewrite creators_get_factory.
  destruct (decide (type = "file")) as [-> | Hf].
  { rewrite lookup_insert_eq. unfold bind.
    destruct (config !! "file_name") as [name |] eqn:Hn.
    - destruct (config !! "reopen_interval") as [value |] eqn:Hi.
      + destruct (stoul_result value) as [e | n] eqn:Hs.
        * right. rewrite (file_logger_ctor_bad_interval _ _ _ _ _ Hn Hi Hs). eauto.
        * left.
          destruct (file_logger_ctor_reopens config w name (wrap64 n) Hn)
            as (this & k & tail & _ & Hc & _); [rewrite Hi; eauto |].
          rewrite Hc. eexists _, _, _. reflexivity.
      + left.
        destruct (file_logger_ctor_reopens config w name 300 Hn)
          as (this & k & tail & _ & Hc & _); [rewrite Hi; reflexivity |].
        rewrite Hc. eexists _, _, _. reflexivity.
    - right. rewrite (file_logger_ctor_no_name _ _ Hn). eauto. }
  rewrite lookup_insert_ne by congruence.
  destruct (decide (type = "std_out")) as [-> | Hs].
  { rewrite lookup_insert_eq. left. eexists _, 0%nat, [].
    rewrite after_0_nil. reflexivity. }
  rewrite lookup_insert_ne by congruence.
  destruct (decide (type = "")) as [-> | He].
  { rewrite lookup_insert_eq. left. eexists _, 0%nat, [].
    rewrite after_0_nil. reflexivity. }
  rewrite lookup_insert_ne by congruence. rewrite lookup_empty. right. eauto.
Qed.

(** ** The singleton *)

(** C3.  While the static is uninitialised, [get_logger(config)] builds
    the logger with the factory from [config], stores it and returns it;
    with the default argument the logger is a standard-output logger with
    the colored table.  Once the static holds a logger, [get_logger] and
    [configure] return with that logger and leave it and the environment
    exactly as they were, whatever configuration they are given; so of
    two calls in a row the first one alone decides. *)
Theorem get_logger_once (config : logging_config_t) (w : world) :
  (forall (l : logger) (w' : world),
      produce get_factory config w = (Returns l, w') ->
      get_logger config {| singleton := None; env := w |}
      = (Returns l, {| singleton := Some l; env := w' |})) /\
  get_logger default_config {| singleton := None; env := w |}
  = (Returns (Std_out_logger {| so_lock := false; levels := colored |}),
     {| singleton := Some (Std_out_logger {| so_lock := false; levels := colored |});
        env := w |}) /\
  (forall l : logger,
      get_logger config {| singleton := Some l; env := w |}
      = (Returns l, {| singleton := Some l; env := w |}) /\
      configure config {| singleton := Some l; env := w |}
      = (Returns tt, {| singleton := Some l; env := w |})) /\
  (forall (later : logging_config_t) (l : logger) (w' : world),
      produce get_factory config w = (Returns l, w') ->
      (run get_logger config; get_logger later) {| singleton := None; env := w |}
      = (Returns l, {| singleton := Some l; env := w' |}) /\
      (run configure config; get_logger later) {| singleton := None; env := w |}
      = (Returns l, {| singleton := Some l; env := w' |})).
Proof.
  split; [| split; [| split]].
  - intros l w' Hp. unfold get_logger. cbn [singleton env]. rewrite Hp. reflexivity.
  - reflexivity.
  - intros l. split; reflexivity.
  - intros later l w' Hp.
    unfold configure, bind, get_logger, ret. cbn [singleton env]. rewrite Hp.
    cbn [singleton env]. split; reflexivity.
Qed.

(** C10.  When the factory throws on the configuration of a call that
    finds the static uninitialised, [get_logger] leaves by the same
    exception, the static stays uninitialised and the environment is
    untouched; a caller that catches the exception and calls [get_logger]
    again has the factory run on the configuration of that later call,
    and a logger is only ever returned together with a static that holds
    it. *)
Theorem get_logger_failure (config : logging_config_t) (w : world)
    (e : exn) (w' : world) :
  produce get_factory config w = (Throws e, w') ->
  w' = w /\
  get_logger config {| singleton := None; env := w |}
  = (Throws e, {| singleton := None; env := w |}) /\
  (forall (later : logging_config_t) (l : logger) (w2 : world),
      produce get_factory later w = (Returns l, w2) ->
      try_catch (get_logger config) (fun _ => get_logger later)
        {| singleton := None; env := w |}
      = (Returns l, {| singleton := Some l; env := w2 |})) /\
  (forall (later : logging_config_t) (e2 : exn) (w2 : world),
      produce get_factory later w = (Throws e2, w2) ->
      try_catch (get_logger config) (fun _ => get_logger later)
        {| singleton := None; env := w |}
      = (Throws e2, {| singleton := None; env := w |})) /\
  (forall (any : logging_config_t) (p p' : process) (l : logger),
      get_logger any p = (Returns l, p') -> singleton p' = Some l).
Proof.
  intros Hp.
  assert (Hw : w' = w).
  { destruct (produce_outcome config w) as [(l & n & tail & H) | (e' & H)];
      rewrite H in Hp; congruence. }
  subst w'.
  assert (Hg : get_logger config {| singleton := None; env := w |}
               = (Throws e, {| singleton := None; env := w |})).
  { unfold get_logger. cbn [singleton env]. rewrite Hp. reflexivity. }
  split; [reflexivity |]. split; [exact Hg |]. split; [| split].
  - intros later l w2 Hl. unfold try_catch. rewrite Hg.
    unfold get_logger. cbn [singleton env]. rewrite Hl. reflexivity.
  - intros later e2 w2 Hl. unfold try_catch. rewrite Hg.
    unfold get_logger. cbn [singleton env]. rewrite Hl.
    destruct (produce_outcome later w) as [(l & n & tail & H) | (e' & H)];
      rewrite H in Hl; [discriminate |].
    injection Hl as _ <-. reflexivity.
  - intros any p p' l. unfold get_logger.
    destruct (singleton p) as [l0 |] eqn:Hs.
    + intros [= <- <-]. exact Hs.
    + destruct (produce get_factory any (env p)) as [[l0 | e0 |] w0];
        intros [= <- <-]; reflexivity.
Qed.

End Properties.

(** In the default build the cutoff is INFO, and DEBUG is below it. *)
Lemma below_cutoff_no_effect_witness :
  level_value DEBUG < LOG_LEVEL_CUTOFF default_build /\
  file_logger_log_level default_build "boom" DEBUG
    (sample_file_logger, sample_world)
  = (Returns tt, (sample_file_logger, sample_world)).
Proof.
  split.
  - vm_compute. reflexivity.
  - apply (below_cutoff_no_effect default_build "boom" DEBUG).
    vm_compute. reflexivity.
Defined.

(** ERROR in the default build, on the default configuration and on a
    file logger with its file open. *)
Lemma emitted_line_exact_witness :
  LOG_LEVEL_CUTOFF default_build <= level_value ERROR /\
  std_out_logger_log_level default_build "boom" ERROR
    (std_out_logger_ctor default_config, sample_world)
  = (Returns tt,
     (std_out_logger_ctor default_config,
      after 1
        [StdoutWrite
           ("2026/10/30 12:00:00.123457 [4242] " +:+ ESC +:+ "[31;1m[ERROR]"
            +:+ ESC +:+ "[0m boom" +:+ NL);
         StdoutFlush] sample_world)) /\
  file_logger_log_level default_build "boom" ERROR
    (sample_file_logger, sample_world)
  = file_logger_log ("2026/10/30 12:00:00.123457 [ERROR] boom" +:+ NL)
      (sample_file_logger, after 1 [] sample_world).
Proof.
  assert (H : LOG_LEVEL_CUTOFF default_build <= level_value ERROR)
    by (vm_compute; discriminate).
  split; [exact H |].
  destruct (emitted_line_exact default_build "boom" ERROR H)
    as (Hout & _ & Hfile & _).
  split.
  - exact (Hout default_config sample_world).
  - exact (Hfile sample_file_logger sample_world).
Defined.

Lemma produce_spec_witness :
  file_config "1" !! "type" = Some "file" /\
  (exists found : logger_creator,
      creators get_factory !! "file" = Some found /\
      produce get_factory (file_config "1") sample_world
      = found (file_config "1") sample_world) /\
  ({[ "type" := "nonexistent" ]} : logging_config_t) !! "type" = Some "nonexistent" /\
  creators get_factory !! "nonexistent" = None /\
  produce get_factory {[ "type" := "nonexistent" ]} sample_world
  = (Throws (runtime_error "Couldn't produce logger for type: nonexistent"),
     sample_world) /\
  (∅ : logging_config_t) !! "type" = None /\
  produce get_factory ∅ sample_world
  = (Throws (runtime_error
               "Logging factory configuration requires a type of logger"),
     sample_world).
Proof.
  assert (Ht : file_config "1" !! "type" = Some "file") by reflexivity.
  assert (Hn : ({[ "type" := "nonexistent" ]} : logging_config_t) !! "type"
               = Some "nonexistent") by reflexivity.
  assert (Hc : creators get_factory !! "nonexistent" = None) by reflexivity.
  assert (He : (∅ : logging_config_t) !! "type" = None) by reflexivity.
  split; [exact Ht |]. split.
  - destruct (creators get_factory !! "file") as [found |] eqn:Hf;
      [| discriminate Hf].
    exists found. split; [reflexivity |].
    destruct (produce_spec default_build (file_config "1") sample_world)
      as (_ & _ & Hcall & _).
    exact (Hcall "file" found Ht Hf).
  - split; [exact Hn |]. split; [exact Hc |]. split; [| split; [exact He |]].
    + destruct (produce_spec default_build
                  {[ "type" := "nonexistent" ]} sample_world)
        as (_ & Hunknown & _).
      exact (Hunknown "nonexistent" Hn Hc).
    + destruct (produce_spec default_build ∅ sample_world)
        as (Hnone & _).
      exact (Hnone He).
Defined.

Lemma get_logger_once_witness :
  produce get_factory (file_config "300") sample_world
  = (Returns (File_logger
                {| fl_lock := false; file_name := "4242-test.log";
                   file := {| of_file := Some "4242-test.log"; failbit := false;
                              badbit := false; exc_failbit := false;
                              exc_badbit := false |};
                   reopen_interval := 300;
                   last_reopen := 1793361600123457789 |}),
     after 2 [Lock; FileOpen "4242-test.log" (Z.lor ios_out ios_app) true; Unlock]
       sample_world) /\
  (run configure (file_config "300"); get_logger default_config)
    {| singleton := None; env := sample_world |}
  = (Returns (File_logger
                {| fl_lock := false; file_name := "4242-test.log";
                   file := {| of_file := Some "4242-test.log"; failbit := false;
                              badbit := false; exc_failbit := false;
                              exc_badbit := false |};
                   reopen_interval := 300;
                   last_reopen := 1793361600123457789 |}),
     {| singleton :=
          Some (File_logger
                  {| fl_lock := false; file_name := "4242-test.log";
                     file := {| of_file := Some "4242-test.log"; failbit := false;
                                badbit := false; exc_failbit := false;
                                exc_badbit := false |};
                     reopen_interval := 300;
                     last_reopen := 1793361600123457789 |});
        env := after 2 [Lock; FileOpen "4242-test.log" (Z.lor ios_out ios_app) true;
                        Unlock] sample_world |}).
Proof.
  assert (Hp : produce get_factory (file_config "300") sample_world
               = (Returns (File_logger
                             {| fl_lock := false; file_name := "4242-test.log";
                                file := {| of_file := Some "4242-test.log";
                                           failbit := false; badbit := false;
                                           exc_failbit := false;
                                           exc_badbit := false |};
                                reopen_interval := 300;
                                last_reopen := 1793361600123457789 |}),
                  after 2 [Lock; FileOpen "4242-test.log" (Z.lor ios_out ios_app) true;
                           Unlock] sample_world))
    by (vm_compute; reflexivity).
  split; [exact Hp |].
  destruct (get_logger_once (file_config "300") sample_world) as (_ & _ & _ & Htwo).
  exact (proj2 (Htwo default_config _ _ Hp)).
Defined.

Lemma get_logger_failure_witness :
  produce get_factory {[ "type" := "file" ]} sample_world
  = (Throws (runtime_error "No output file provided to file logger"), sample_world) /\
  get_logger {[ "type" := "file" ]} {| singleton := None; env := sample_world |}
  = (Throws (runtime_error "No output file provided to file logger"),
     {| singleton := None; env := sample_world |}) /\
  try_catch (get_logger {[ "type" := "file" ]}) (fun _ => get_logger {[ "type" := "" ]})
    {| singleton := None; env := sample_world |}
  = (Returns (Logger {| lock := false |}),
     {| singleton := Some (Logger {| lock := false |}); env := sample_world |}).
Proof.
  assert (Hp : produce get_factory {[ "type" := "file" ]} sample_world
               = (Throws (runtime_error "No output file provided to file logger"),
                  sample_world)) by reflexivity.
  assert (Hl : produce get_factory {[ "type" := "" ]} sample_world
               = (Returns (Logger {| lock := false |}), sample_world)) by reflexivity.
  split; [exact Hp |].
  destruct (get_logger_failure {[ "type" := "file" ]} sample_world _ _ Hp)
    as (_ & Hg & Hretry & _).
  split; [exact Hg |].
  exact (Hretry {[ "type" := "" ]} _ _ Hl).
Defined.

Lemma emitted_line_shape_witness :
  LOG_LEVEL_CUTOFF default_build <= level_value WARN /\
  exists prefix line : string,
    file_logger_log_level default_build "disk almost full" WARN
      (sample_file_logger, sample_world)
    = file_logger_log line (sample_file_logger, after 1 [] sample_world) /\
    line = prefix +:+ "disk almost full" +:+ NL /\
    trailing_newlines line = 1%nat.
Proof.
  assert (H : LOG_LEVEL_CUTOFF default_build <= level_value WARN)
    by (vm_compute; discriminate).
  split; [exact H |].
  destruct (proj2 (emitted_line_shape default_build "disk almost full" WARN H)
              sample_file_logger sample_world)
    as (prefix & line & Heq & Hline & _ & Hone).
  exists prefix, line. split; [exact Heq |]. split; [exact Hline |].
  apply Hone. reflexivity.
Defined.

(** C8 as stated fails: a message that ends in a newline gives a line
    that ends in two. *)
Lemma newline_message_counterexample :
  LOG_LEVEL_CUTOFF default_build <= level_value ERROR /\
  std_out_logger_log_level default_build ("boom" +:+ NL) ERROR
    (std_out_logger_ctor default_config, sample_world)
  = (Returns tt,
     (std_out_logger_ctor default_config,
      after 1
        [StdoutWrite
           ("2026/10/30 12:00:00.123457 [4242] " +:+ ESC +:+ "[31;1m[ERROR]"
            +:+ ESC +:+ "[0m boom" +:+ NL +:+ NL);
         StdoutFlush] sample_world)) /\
  trailing_newlines
    ("2026/10/30 12:00:00.123457 [4242] " +:+ ESC +:+ "[31;1m[ERROR]"
     +:+ ESC +:+ "[0m boom" +:+ NL +:+ NL) = 2%nat /\
  trailing_newlines
    ("2026/10/30 12:00:00.123457 [4242] " +:+ ESC +:+ "[31;1m[ERROR]"
     +:+ ESC +:+ "[0m boom" +:+ NL +:+ NL) <> 1%nat.
Proof.
  split; [vm_compute; discriminate |].
  split; [vm_compute; reflexivity |].
  split; [vm_compute; reflexivity | vm_compute; discriminate].
Qed.

Lemma file_logger_ctor_spec_witness :
  file_config "300" !! "file_name" = Some "test.log" /\
  (exists n, stoul_result "300" = inr n /\ 300 = wrap64 n) /\
  wrap64 (300 * ns_per_s) < wrap64 (now sample_world) /\
  openable sample_world "4242-test.log" = true /\
  exists (this : file_logger) (w' : world),
    file_logger_ctor (file_config "300") sample_world = (Returns this, w') /\
    reopen_interval this = 300 /\
    file_name this = "4242-test.log" /\
    w' = after 2 [Lock; FileOpen "4242-test.log" (Z.lor ios_out ios_app) true; Unlock]
           sample_world /\
    last_reopen this = 1793361600123457789 /\
    of_file (file this) = Some "4242-test.log" /\
    good (file this) = true.
Proof.
  assert (Hn : file_config "300" !! "file_name" = Some "test.log")
    by (vm_compute; reflexivity).
  assert (Hs : exists n, stoul_result "300" = inr n /\ 300 = wrap64 n)
    by (exists 300; split; vm_compute; reflexivity).
  assert (Hdue : wrap64 (300 * ns_per_s) < wrap64 (now sample_world))
    by (vm_compute; reflexivity).
  split; [exact Hn |]. split; [exact Hs |]. split; [exact Hdue |].
  split; [reflexivity |].
  destruct (file_logger_ctor_spec (file_config "300") sample_world) as (_ & _ & Hok).
  assert (Hi : match file_config "300" !! "reopen_interval" with
               | Some value => exists n, stoul_result value = inr n /\ 300 = wrap64 n
               | None => 300 = 300
               end).
  { replace (file_config "300" !! "reopen_interval") with (Some "300")
      by (vm_compute; reflexivity).
    exact Hs. }
  destruct (Hok "test.log" 300 Hn Hi) as (this & w' & Hc & Hri & Hfn & Hopen).
  assert (Hname : file_name this = "4242-test.log")
    by (rewrite Hfn; vm_compute; reflexivity).
  destruct (Hopen Hdue) as (Hw & Hlast & Hgood).
  rewrite Hname in Hw, Hgood.
  destruct (Hgood eq_refl) as [Hf Hg].
  exists this, w'. repeat split; try assumption.
Defined.

(** C4 as stated fails on values the constructor treats otherwise than
    "numeric or error": a
    value with trailing letters is accepted as its leading number; a value
    of digits only is refused when it exceeds 2^64 - 1; and with an
    interval longer than the time since the epoch the constructor returns
    without having opened anything. *)
Lemma file_logger_ctor_counterexample :
  (numeric "12abc" = false /\
   exists (this : file_logger) (w' : world),
     file_logger_ctor (file_config "12abc") sample_world = (Returns this, w') /\
     reopen_interval this = 12) /\
  (numeric "99999999999999999999" = true /\
   file_logger_ctor (file_config "99999999999999999999") sample_world
   = (Throws (runtime_error "99999999999999999999 is not a valid reopen interval"),
      sample_world)) /\
  (numeric "2000000000" = true /\
   exists (this : file_logger) (w' : world),
     file_logger_ctor (file_config "2000000000") sample_world = (Returns this, w') /\
     reopen_interval this = 2000000000 /\
     of_file (file this) = None /\
     last_reopen this = 0 /\
     trace w' = [Lock; Unlock]).
Proof.
  split; [| split].
  - split; [reflexivity |]. eexists _, _. split; [vm_compute; reflexivity |].
    reflexivity.
  - split; vm_compute; reflexivity.
  - split; [reflexivity |]. eexists _, _. split; [vm_compute; reflexivity |].
    repeat split; reflexivity.
Qed.

(** ** The file logger over several calls *)

(** C5.  The specification has a very large interval cause only the
    initial open.  On the code, a file logger configured with an interval
    of 2000000000 seconds, with the clock in 2026, is never opened at all:
    the constructor's reopen check compares the time since the epoch with
    the interval and skips the open, two later calls find the check not
    due either, and both messages are lost. *)
Lemma huge_interval_never_opens :
  exists (l : file_logger) (w' : world),
    (run configure (file_config "2000000000");
     run log_ERROR default_build "first";
     log_ERROR default_build "second")
      {| singleton := None; env := sample_world |}
    = (Returns tt, {| singleton := Some (File_logger l); env := w' |}) /\
    trace w' = [Lock; Unlock; Lock; Unlock; Lock; Unlock; Lock; Unlock; Lock; Unlock] /\
    of_file (file l) = None /\
    reopen_interval l = 2000000000 /\
    last_reopen l = 0.
Proof.
  eexists _, _. split; [vm_compute; reflexivity |]. repeat split; reflexivity.
Qed.

(** With an interval of 0 every write is followed by a close and an open;
    with an interval of a million seconds the file is opened once. *)
Example zero_interval_reopens_each_time :
  exists (l : file_logger) (w' : world),
    (run configure (file_config "0");
     run log_ERROR default_build "first";
     log_ERROR default_build "second")
      {| singleton := None; env := sample_world |}
    = (Returns tt, {| singleton := Some (File_logger l); env := w' |}) /\
    trace w'
    = [Lock; FileOpen "4242-test.log" 17 true; Unlock;
       Lock; FileWrite "4242-test.log" ("2026/10/30 12:00:00.123459 [ERROR] first" +:+ NL);
       FileFlush "4242-test.log"; Unlock;
       Lock; FileClose "4242-test.log"; FileOpen "4242-test.log" 17 true; Unlock;
       Lock; FileWrite "4242-test.log" ("2026/10/30 12:00:00.123462 [ERROR] second" +:+ NL);
       FileFlush "4242-test.log"; Unlock;
       Lock; FileClose "4242-test.log"; FileOpen "4242-test.log" 17 true; Unlock].
Proof.
  eexists _, _. split; vm_compute; reflexivity.
Qed.

Example long_interval_opens_once :
  exists (l : file_logger) (w' : world),
    (run configure (file_config "1000000");
     run log_ERROR default_build "first";
     log_ERROR default_build "second")
      {| singleton := None; env := sample_world |}
    = (Returns tt, {| singleton := Some (File_logger l); env := w' |}) /\
    trace w'
    = [Lock; FileOpen "4242-test.log" 17 true; Unlock;
       Lock; FileWrite "4242-test.log" ("2026/10/30 12:00:00.123459 [ERROR] first" +:+ NL);
       FileFlush "4242-test.log"; Unlock; Lock; Unlock;
       Lock; FileWrite "4242-test.log" ("2026/10/30 12:00:00.123461 [ERROR] second" +:+ NL);
       FileFlush "4242-test.log"; Unlock; Lock; Unlock].
Proof.
  eexists _, _. split; vm_compute; reflexivity.
Qed.

(** C7.  The specification has a failed reopen surface as an error to the
    caller of the write.  On the code: a logger with interval 0 and its
    file open, on a file system that has started to refuse the path.  The
    first write is done and the open that follows is refused: the call
    returns normally with the stream failed.  The second message is
    written nowhere, nothing is reported, and the open is tried again.
    Once the path can be opened, the next call drops its message too and
    then reopens the file. *)
Lemma reopen_failure_is_silent :
  let l0 := set_reopen_interval 0 sample_file_logger in
  let w0 := with_openable (fun _ => false) sample_world in
  exists (l1 l2 l3 : file_logger) (w1 w2 w3 : world),
    file_logger_log "one" (l0, w0) = (Returns tt, (l1, w1)) /\
    trace w1
    = [Lock; FileWrite "4242-test.log" "one"; FileFlush "4242-test.log"; Unlock;
       Lock; FileClose "4242-test.log"; FileOpen "4242-test.log" 17 false; Unlock] /\
    of_file (file l1) = None /\ failbit (file l1) = true /\ fl_lock l1 = false /\
    file_logger_log "two" (l1, w1) = (Returns tt, (l2, w2)) /\
    trace w2
    = (trace w1 ++ [Lock; Unlock; Lock; FileOpen "4242-test.log" 17 false; Unlock])%list /\
    file_logger_log "three" (l2, with_openable (fun _ => true) w2)
    = (Returns tt, (l3, w3)) /\
    trace w3
    = (trace w2 ++ [Lock; Unlock; Lock; FileOpen "4242-test.log" 17 true; Unlock])%list /\
    of_file (file l3) = Some "4242-test.log" /\ good (file l3) = true.
Proof.
  cbv zeta. eexists _, _, _, _, _, _.
  split; [vm_compute; reflexivity |].
  split; [reflexivity |]. split; [reflexivity |]. split; [reflexivity |].
  split; [reflexivity |].
  split; [vm_compute; reflexivity |].
  split; [reflexivity |].
  split; [vm_compute; reflexivity |].
  repeat split; reflexivity.
Qed.

Lemma timestamp_format_witness :
  0 <= now sample_world < 2 ^ 63 /\
  timestamp sample_world
  = (Returns "2026/10/30 12:00:00.123457", after 1 [] sample_world) /\
  matches timestamp_pattern "2026/10/30 12:00:00.123457" = true.
Proof.
  assert (H : 0 <= now sample_world < 2 ^ 63)
    by (vm_compute; split; [discriminate | reflexivity]).
  split; [exact H |].
  destruct (timestamp_format sample_world H) as (s & Hs & _ & Hm & _).
  assert (E : s = "2026/10/30 12:00:00.123457").
  { assert (Hc : timestamp sample_world
                 = (Returns "2026/10/30 12:00:00.123457", after 1 [] sample_world))
      by (vm_compute; reflexivity).
    rewrite Hc in Hs. injection Hs as Hs. symmetry. exact Hs. }
  rewrite <- E. split; [exact Hs | exact Hm].
Defined.

(** Durations that lie half-way between two microseconds print as their
    binary value falls: 2500 ns is printed as 3 microseconds, 3500 ns as 3,
    and 7812500 ns, which is 1/128 s exactly, as the even 7812. *)
Example round_micro_on_ties :
  map round_micro [500; 1500; 2500; 3500; 7812500; 123456500; 999999500]
  = [0; 2; 3; 3; 7812; 123456; 1000000].
Proof. vm_compute. reflexivity. Qed.

(** Readings that round up to a full minute, and a reading before the
    epoch in a second that gmtime_r reports as 0. *)
Example timestamp_rounds_to_sixty :
  timestamp_of 59999999600 = "1970/01/01 00:00:60.000000".
Proof. vm_compute. reflexivity. Qed.

Example timestamp_before_epoch :
  timestamp_of (-500000000) = "1970/01/01 00:00:-0.500000" /\
  matches timestamp_pattern (timestamp_of (-500000000)) = false.
Proof. split; vm_compute; reflexivity. Qed.

(** * Further properties *)

(** ** The cutoff chosen by the build *)

(** X1.  The [#if] chain picks the most verbose of the levels the build
    names.  With [named] the levels whose symbols are defined
    ([LOGGING_LEVEL_ALL] counting as [TRACE]), the cutoff is a member of
    [named] that is at or below every other one; with none named and
    [LOGGING_LEVEL_NONE] undefined it is [INFO].  A build that defines
    [LOGGING_LEVEL_ALL] or [LOGGING_LEVEL_TRACE] lets every level through,
    whatever else it defines; and unless [LOGGING_LEVEL_NONE] is defined,
    [ERROR] always passes, while [TRACE] passes only in a build that asks
    for it. *)
Theorem cutoff_most_verbose (b : build_flags) :
  let named :=
    ((if LOGGING_LEVEL_ALL b || LOGGING_LEVEL_TRACE b then [TRACE] else [])
     ++ (if LOGGING_LEVEL_DEBUG b then [DEBUG] else [])
     ++ (if LOGGING_LEVEL_WARN b then [WARN] else [])
     ++ (if LOGGING_LEVEL_ERROR b then [ERROR] else []))%list in
  (named <> [] ->
   exists l : log_level,
     In l named /\ LOG_LEVEL_CUTOFF b = level_value l /\
     Forall (fun l' => level_value l <= level_value l') named) /\
  (named = [] -> LOGGING_LEVEL_NONE b = false ->
   LOG_LEVEL_CUTOFF b = level_value INFO) /\
  (LOGGING_LEVEL_ALL b || LOGGING_LEVEL_TRACE b = true ->
   forall l : log_level, passes b l = true) /\
  (LOGGING_LEVEL_NONE b = false ->
   passes b ERROR = true /\
   (passes b TRACE = true ->
    LOGGING_LEVEL_ALL b || LOGGING_LEVEL_TRACE b = true)).
Proof.
  destruct b as [[] [] [] [] [] []]; cbv zeta; unfold passes, LOG_LEVEL_CUTOFF;
    cbn [LOGGING_LEVEL_ALL LOGGING_LEVEL_TRACE LOGGING_LEVEL_DEBUG
         LOGGING_LEVEL_WARN LOGGING_LEVEL_ERROR LOGGING_LEVEL_NONE orb app];
    (split;
     [first [ intros H; exfalso; apply H; reflexivity
            | intros _; exists TRACE;
              split; [cbn; tauto | split; [reflexivity | repeat constructor; cbn; lia]]
            | intros _; exists DEBUG;
              split; [cbn; tauto | split; [reflexivity | repeat constructor; cbn; lia]]
            | intros _; exists WARN;
              split; [cbn; tauto | split; [reflexivity | repeat constructor; cbn; lia]]
            | intros _; exists ERROR;
              split; [cbn; tauto | split; [reflexivity | repeat constructor; cbn; lia]] ]
     |]);
    (split; [intros H1 H2; first [discriminate H1 | discriminate H2 | reflexivity] |]);
    (split; [intros H; first [discriminate H | intros []; reflexivity] |]);
    intros H; first [discriminate H
                    | split; [reflexivity
                             | intros H'; first [reflexivity | discriminate H']]].
Qed.

(** ** The free functions and the singleton *)

Lemma std_out_leveled_call (flags : build_flags) (message : string)
    (level : log_level) (this : std_out_logger) (w : world) :
  std_out_logger_log_level flags message level (this, w)
  = (Returns tt,
     (this,
      if passes flags level
      then after 1
             [StdoutWrite
                (timestamp_of (now w) +:+ " [" +:+ to_string (pid w) +:+ "]"
                 +:+ label (levels this) level +:+ message +:+ NL);
              StdoutFlush] w
      else w)).
Proof.
  unfold passes. destruct (LOG_LEVEL_CUTOFF flags <=? level_value level) eqn:E.
  - apply Z.leb_le in E. apply std_out_logger_log_level_passes. exact E.
  - apply Z.leb_gt in E. unfold std_out_logger_log_level.
    replace (level_value level <? LOG_LEVEL_CUTOFF flags) with true
      by (symmetry; apply Z.ltb_lt; exact E).
    reflexivity.
Qed.

Lemma get_logger_default_fresh (w : world) :
  get_logger default_config {| singleton := None; env := w |}
  = (Returns default_logger, {| singleton := Some default_logger; env := w |}).
Proof. reflexivity. Qed.

(** X2.  A first call of a free logging function, with nothing
    configured, creates the default logger (standard output, coloured)
    and logs through it: the leveled call writes the coloured line when
    the level passes the cutoff and nothing otherwise, the raw call writes
    the message as it is.  From then on [configure] and [get_logger]
    return this logger and change nothing, whatever configuration they
    are given. *)
Theorem first_log_call_decides (flags : build_flags) (message : string)
    (level : log_level) (w : world) :
  let w' :=
    if passes flags level
    then after 1
           [StdoutWrite
              (timestamp_of (now w) +:+ " [" +:+ to_string (pid w) +:+ "]"
               +:+ label colored level +:+ message +:+ NL);
            StdoutFlush] w
    else w in
  log_level_free flags message level {| singleton := None; env := w |}
  = (Returns tt, {| singleton := Some default_logger; env := w' |}) /\
  log_free message {| singleton := None; env := w |}
  = (Returns tt,
     {| singleton := Some default_logger;
        env := after 0 [StdoutWrite message; StdoutFlush] w |}) /\
  (forall config : logging_config_t,
      configure config {| singleton := Some default_logger; env := w' |}
      = (Returns tt, {| singleton := Some default_logger; env := w' |}) /\
      get_logger config {| singleton := Some default_logger; env := w' |}
      = (Returns default_logger, {| singleton := Some default_logger; env := w' |})).
Proof.
  cbv zeta. split; [| split].
  - unfold log_level_free, on_logger. rewrite get_logger_default_fresh.
    cbn [env]. unfold logger_log_level, bind, get, dispatch, default_logger.
    cbn [fst snd]. rewrite std_out_leveled_call. reflexivity.
  - unfold log_free, on_logger. rewrite get_logger_default_fresh.
    destruct w as [ck rd pd op tr]. unfold after. cbn.
    rewrite <- List.app_assoc. reflexivity.
  - intros config. split; reflexivity.
Qed.

(** X3.  A configuration of type [""] installs the base [logger], whose
    two [log] methods have empty bodies: every later free logging call
    returns without writing, locking or reading the clock.  The test
    driver [work] run on it returns 10 and writes nothing; its two clock
    readings are those of its own calls of [timestamp()]. *)
Theorem null_logger_is_silent (flags : build_flags) (config : logging_config_t)
    (w : world) :
  config !! "type" = Some "" ->
  let quiet_state := {| singleton := Some (Logger {| lock := false |}); env := w |} in
  configure config {| singleton := None; env := w |} = (Returns tt, quiet_state) /\
  (forall (message : string) (level : log_level),
      log_level_free flags message level quiet_state = (Returns tt, quiet_state) /\
      log_free message quiet_state = (Returns tt, quiet_state)) /\
  (forall thread_id : string,
      work flags thread_id quiet_state
      = (Returns 10,
         {| singleton := Some (Logger {| lock := false |});
            env := after 2 [] w |})).
Proof.
  intros Ht. cbv zeta.
  assert (Hp : produce get_factory config w
               = (Returns (Logger {| lock := false |}), w)).
  { unfold produce. rewrite Ht, creators_get_factory.
    rewrite lookup_insert_ne by discriminate.
    rewrite lookup_insert_ne by discriminate.
    rewrite lookup_insert_eq. reflexivity. }
  split; [| split].
  - unfold configure, bind, get_logger. cbn [singleton env]. rewrite Hp. reflexivity.
  - intros message level. split; reflexivity.
  - intros thread_id. destruct w as [ck rd pd op tr]. unfold after. cbn.
    rewrite app_nil_r. reflexivity.
Qed.

(** ** Keys the constructors do not read *)

Lemma file_logger_ctor_ignores (config : logging_config_t) (key value : string)
    (w : world) :
  key <> "file_name" -> key <> "reopen_interval" ->
  file_logger_ctor (<[key := value]> config) w = file_logger_ctor config w.
Proof.
  intros H1 H2. unfold file_logger_ctor, file_logger_ctor_body.
  rewrite !lookup_insert_ne by congruence. reflexivity.
Qed.

(** X4.  The factory and the constructors look at four keys only:
    "type", "color", "file_name" and "reopen_interval".  Setting any other
    key changes nothing in what [produce] does; the standard-output
    constructor reads "color" only, and only whether it is present, not
    its value; the file constructor reads "file_name" and
    "reopen_interval" only. *)
Theorem unread_keys_are_ignored (config : logging_config_t) (key value : string)
    (w : world) :
  (key <> "type" -> key <> "color" -> key <> "file_name" ->
   key <> "reopen_interval" ->
   produce get_factory (<[key := value]> config) w = produce get_factory config w) /\
  (key <> "color" ->
   std_out_logger_ctor (<[key := value]> config) = std_out_logger_ctor config) /\
  (key <> "file_name" -> key <> "reopen_interval" ->
   file_logger_ctor (<[key := value]> config) w = file_logger_ctor config w) /\
  (forall other : string,
      std_out_logger_ctor (<["color" := value]> config)
      = std_out_logger_ctor (<["color" := other]> config)).
Proof.
  split; [| split; [| split]].
  - intros Ht Hc Hf Hr. unfold produce.
    rewrite lookup_insert_ne by congruence.
    destruct (config !! "type") as [type |]; [| reflexivity].
    rewrite creators_get_factory.
    destruct (decide (type = "file")) as [-> | Hnf].
    { rewrite lookup_insert_eq. unfold bind.
      rewrite file_logger_ctor_ignores by assumption. reflexivity. }
    rewrite lookup_insert_ne by congruence.
    destruct (decide (type = "std_out")) as [-> | Hns].
    { rewrite lookup_insert_eq. unfold std_out_logger_ctor.
      rewrite lookup_insert_ne by congruence. reflexivity. }
    rewrite lookup_insert_ne by congruence.
    destruct (decide (type = "")) as [-> | Hne].
    { rewrite lookup_insert_eq. reflexivity. }
    rewrite lookup_insert_ne by congruence. rewrite lookup_empty. reflexivity.
  - intros Hc. unfold std_out_logger_ctor.
    rewrite lookup_insert_ne by congruence. reflexivity.
  - apply file_logger_ctor_ignores.
  - intros other. unfold std_out_logger_ctor. rewrite !lookup_insert_eq. reflexivity.
Qed.

(** ** The buffer of [timestamp] *)

(** X5.  For every clock reading a 64-bit count of nanoseconds can hold,
    readings before the epoch included, [timestamp] reads the clock once
    and the text [sprintf] produces has exactly the length of the buffer
    "year/mo/dy hr:mn:sc.xxxxxx" it is printed into. *)
Theorem timestamp_fits_buffer (w : world) :
  - 2 ^ 63 <= now w < 2 ^ 63 ->
  exists s : string,
    timestamp w = (Returns s, after 1 [] w) /\
    String.length s = String.length "year/mo/dy hr:mn:sc.xxxxxx".
Proof.
  intros H. exists (timestamp_of (now w)).
  split; [apply timestamp_reads_clock | apply timestamp_of_length; exact H].
Qed.

(** ** The file logger between calls *)

Lemma disciplined_app (path : string) (held : bool) (s t : list event) :
  disciplined path held s = true -> disciplined path false t = true ->
  disciplined path held (s ++ t) = true.
Proof.
  revert held. induction s as [| e s IH]; intros held Hs Ht.
  - cbn in Hs. apply negb_true_iff in Hs. subst held. exact Ht.
  - destruct e; cbn [disciplined app] in *;
      repeat match goal with
        | H : _ && _ = true |- _ => apply andb_true_iff in H as [? ?]
        end;
      repeat (apply andb_true_iff; split); auto.
Qed.

Lemma settled_reopen (this : file_logger) (w : world) :
  settled this ->
  exists this' n evs,
    reopen (this, w) = (Returns tt, (this', after n evs w)) /\
    settled this' /\
    file_name this' = file_name this /\
    reopen_interval this' = reopen_interval this /\
    disciplined (file_name this) false evs = true /\
    no_write evs = true.
Proof.
  intros (Hl & Hq & Hf).
  assert (Hclose : disciplined (file_name this) true
                     (close_events (file this)) = false
                   \/ True) by (right; exact I).
  destruct (reopen_due (now w) this) eqn:Hdue.
  - destruct (openable w (file_name this)) eqn:Hop.
    + eexists _, _, _. split; [apply reopen_due_opened; assumption |].
      split; [split; [reflexivity | split; [split; reflexivity | right; reflexivity]] |].
      split; [reflexivity |]. split; [reflexivity |].
      unfold close_events. destruct Hf as [-> | ->]; cbn;
        rewrite ?String.eqb_refl; split; reflexivity.
    + eexists _, _, _. split; [apply reopen_due_refused; assumption |].
      split; [split; [reflexivity | split; [split; reflexivity | left; reflexivity]] |].
      split; [reflexivity |]. split; [reflexivity |].
      unfold close_events. destruct Hf as [-> | ->]; cbn;
        rewrite ?String.eqb_refl; split; reflexivity.
  - eexists _, _, _. split; [apply reopen_not_due; assumption |].
    split; [split; [exact Hl | split; [exact Hq | exact Hf]] |].
    repeat split; reflexivity.
Qed.

Lemma settled_raw_log (message : string) (this : file_logger) (w : world) :
  settled this ->
  exists this' n evs,
    file_logger_log message (this, w) = (Returns tt, (this', after n evs w)) /\
    settled this' /\
    file_name this' = file_name this /\
    reopen_interval this' = reopen_interval this /\
    disciplined (file_name this) false evs = true.
Proof.
  intros Hs. pose proof Hs as (Hl & Hq & Hf).
  destruct (good (file this)) eqn:Hg;
    [destruct (of_file (file this)) as [path |] eqn:Hp |].
  - assert (path = file_name this) by (destruct Hf as [Hf | Hf]; congruence).
    subst path.
    rewrite (file_logger_log_written message (file_name this)) by assumption.
    destruct (settled_reopen this
                (after 0 [Lock; FileWrite (file_name this) message;
                          FileFlush (file_name this); Unlock] w) Hs)
      as (this' & n & evs & Heq & Hs' & Hn & Hi & Hd & _).
    rewrite Heq, after_after. eexists _, _, _. split; [reflexivity |].
    split; [exact Hs' |]. split; [exact Hn |]. split; [exact Hi |].
    apply disciplined_app; [| exact Hd].
    cbn. rewrite String.eqb_refl. reflexivity.
  - destruct (file_logger_log_dropped message this w Hl Hq (or_intror Hp))
      as (f' & Heq & Hq' & Hf').
    assert (Hs1 : settled (set_file f' this)).
    { split; [exact Hl |]. split; [exact Hq' |]. cbn. rewrite Hf', Hp. now left. }
    destruct (settled_reopen (set_file f' this) (after 0 [Lock; Unlock] w) Hs1)
      as (this' & n & evs & Hre & Hs' & Hn & Hi & Hd & _).
    rewrite Heq, Hre, after_after. eexists _, _, _. split; [reflexivity |].
    split; [exact Hs' |]. split; [exact Hn |]. split; [exact Hi |].
    apply disciplined_app; [reflexivity | exact Hd].
  - destruct (file_logger_log_dropped message this w Hl Hq (or_introl Hg))
      as (f' & Heq & Hq' & Hf').
    assert (Hs1 : settled (set_file f' this)).
    { split; [exact Hl |]. split; [exact Hq' |]. cbn. rewrite Hf'. exact Hf. }
    destruct (settled_reopen (set_file f' this) (after 0 [Lock; Unlock] w) Hs1)
      as (this' & n & evs & Hre & Hs' & Hn & Hi & Hd & _).
    rewrite Heq, Hre, after_after. eexists _, _, _. split; [reflexivity |].
    split; [exact Hs' |]. split; [exact Hn |]. split; [exact Hi |].
    apply disciplined_app; [reflexivity | exact Hd].
Qed.

Lemma settled_leveled_log (flags : build_flags) (message : string)
    (level : log_level) (this : file_logger) (w : world) :
  settled this ->
  exists this' n evs,
    file_logger_log_level flags message level (this, w)
    = (Returns tt, (this', after n evs w)) /\
    settled this' /\
    file_name this' = file_name this /\
    reopen_interval this' = reopen_interval this /\
    disciplined (file_name this) false evs = true.
Proof.
  intros Hs.
  destruct (LOG_LEVEL_CUTOFF flags <=? level_value level) eqn:E.
  - apply Z.leb_le in E. rewrite file_logger_log_level_passes by exact E.
    destruct (settled_raw_log
                (timestamp_of (now w) +:+ label uncolored level +:+ message +:+ NL)
                this (after 1 [] w) Hs)
      as (this' & n & evs & Heq & Hrest).
    rewrite Heq, after_after. eexists _, _, _. split; [reflexivity |].
    exact Hrest.
  - apply Z.leb_gt in E. unfold file_logger_log_level.
    replace (level_value level <? LOG_LEVEL_CUTOFF flags) with true
      by (symmetry; apply Z.ltb_lt; exact E).
    exists this, 0%nat, []. rewrite after_0_nil.
    split; [reflexivity |]. split; [exact Hs |]. repeat split; reflexivity.
Qed.

Lemma settled_ctor (config : logging_config_t) (w : world) (this : file_logger)
    (w' : world) :
  file_logger_ctor config w = (Returns this, w') ->
  settled this /\
  exists n evs, w' = after n evs w /\ disciplined (file_name this) false evs = true.
Proof.
  intros Hc.
  destruct (config !! "file_name") as [name |] eqn:Hn;
    [| rewrite (file_logger_ctor_no_name _ _ Hn) in Hc; discriminate Hc].
  assert (Hi : exists interval,
             match config !! "reopen_interval" with
             | Some value => exists n, stoul_result value = inr n /\ interval = wrap64 n
             | None => interval = 300
             end).
  { destruct (config !! "reopen_interval") as [value |] eqn:Hv; [| eauto].
    destruct (stoul_result value) as [e | n] eqn:Hs; [| eauto].
    rewrite (file_logger_ctor_bad_interval _ _ _ _ _ Hn Hv Hs) in Hc.
    discriminate Hc. }
  destruct Hi as [interval Hi].
  destruct (file_logger_ctor_reopens config w name interval Hn Hi)
    as (this0 & k & tail & Hre & Hc0 & _).
  rewrite Hc0 in Hc. injection Hc as <- <-.
  assert (Hs0 : settled (before_reopen w name interval)).
  { split; [reflexivity |]. split; [split; reflexivity | left; reflexivity]. }
  destruct (settled_reopen (before_reopen w name interval) w Hs0)
    as (this' & n & evs & Heq & Hs' & Hname & _ & Hd & _).
  rewrite Heq in Hre.
  assert (Hpair : forall (a b : file_logger) (x y : world),
             (Returns tt, (a, x)) = (Returns tt, (b, y)) -> a = b /\ x = y)
    by (intros a b x y [= -> ->]; split; reflexivity).
  destruct (Hpair _ _ _ _ Hre) as [-> Hw].
  split; [exact Hs' |]. exists n, evs. split; [symmetry; exact Hw |].
  rewrite Hname. exact Hd.
Qed.

Lemma settled_produce (config : logging_config_t) (w : world) (l : logger)
    (w' : world) :
  produce get_factory config w = (Returns l, w') -> settled_logger l.
Proof.
  unfold produce. destruct (config !! "type") as [type |]; [| discriminate].
  rewrite creators_get_factory.
  destruct (decide (type = "file")) as [-> | Hf].
  { rewrite lookup_insert_eq. unfold bind.
    destruct (file_logger_ctor config w) as [[this | e |] w0] eqn:Hc;
      try discriminate.
    intros [= <- <-]. exact (proj1 (settled_ctor _ _ _ _ Hc)). }
  rewrite lookup_insert_ne by congruence.
  destruct (decide (type = "std_out")) as [-> | Hs].
  { rewrite lookup_insert_eq. intros [= <- <-]. exact I. }
  rewrite lookup_insert_ne by congruence.
  destruct (decide (type = "")) as [-> | He].
  { rewrite lookup_insert_eq. intros [= <- <-]. exact I. }
  rewrite lookup_insert_ne by congruence. rewrite lookup_empty. discriminate.
Qed.

Lemma settled_virtual_leveled (flags : build_flags) (message : string)
    (level : log_level) (l : logger) (w : world) :
  settled_logger l ->
  exists l' w',
    logger_log_level flags message level (l, w) = (Returns tt, (l', w')) /\
    settled_logger l'.
Proof.
  intros Hs. destruct l as [b | o | f];
    unfold logger_log_level, bind, get, dispatch; cbn [fst snd].
  - eexists _, _. split; [reflexivity | exact I].
  - destruct (LOG_LEVEL_CUTOFF flags <=? level_value level) eqn:E.
    + apply Z.leb_le in E. rewrite std_out_logger_log_level_passes by exact E.
      eexists _, _. split; [reflexivity | exact I].
    + apply Z.leb_gt in E. unfold std_out_logger_log_level.
      replace (level_value level <? LOG_LEVEL_CUTOFF flags) with true
        by (symmetry; apply Z.ltb_lt; exact E).
      eexists _, _. split; [reflexivity | exact I].
  - destruct (settled_leveled_log flags message level f w Hs)
      as (this' & n & evs & Heq & Hs' & _).
    rewrite Heq. eexists _, _. split; [reflexivity | exact Hs'].
Qed.

Lemma settled_virtual_raw (message : string) (l : logger) (w : world) :
  settled_logger l ->
  exists l' w',
    logger_log message (l, w) = (Returns tt, (l', w')) /\ settled_logger l'.
Proof.
  intros Hs. destruct l as [b | o | f];
    unfold logger_log, bind, get, dispatch; cbn [fst snd].
  - eexists _, _. split; [reflexivity | exact I].
  - eexists _, _. split; [reflexivity | exact I].
  - destruct (settled_raw_log message f w Hs) as (this' & n & evs & Heq & Hs' & _).
    rewrite Heq. eexists _, _. split; [reflexivity | exact Hs'].
Qed.

Lemma ok_get_logger_default (p : process) :
  process_ok p ->
  exists l p',
    get_logger default_config p = (Returns l, p') /\
    singleton p' = Some l /\ settled_logger l.
Proof.
  unfold process_ok, get_logger. destruct p as [[l |] w]; cbn [singleton env].
  - intros Hs. eexists _, _. split; [reflexivity |]. split; [reflexivity | exact Hs].
  - intros _. eexists _, _. split; [reflexivity |]. split; [reflexivity | exact I].
Qed.

Lemma ok_on_logger (m : M (logger * world) unit) (p : process) :
  process_ok p ->
  (forall l w, settled_logger l ->
     exists l' w', m (l, w) = (Returns tt, (l', w')) /\ settled_logger l') ->
  exists p', on_logger m p = (Returns tt, p') /\ process_ok p'.
Proof.
  intros Hp Hm. unfold on_logger.
  destruct (ok_get_logger_default p Hp) as (l & p1 & Hg & _ & Hs).
  rewrite Hg. destruct (Hm l (env p1) Hs) as (l' & w' & Heq & Hs').
  rewrite Heq. eexists. split; [reflexivity | exact Hs'].
Qed.

Lemma ok_work_pass (flags : build_flags) (s : string) (p : process) :
  process_ok p ->
  exists p', work_pass flags s p = (Returns tt, p') /\ process_ok p'.
Proof.
  intros Hp. unfold work_pass, log_ERROR, log_WARN, log_INFO, log_DEBUG, log_TRACE.
  destruct (ok_on_logger (logger_log_level flags s ERROR) p Hp) as (p1 & E1 & H1);
    [intros; apply settled_virtual_leveled; assumption |].
  destruct (ok_on_logger (logger_log_level flags s WARN) p1 H1) as (p2 & E2 & H2);
    [intros; apply settled_virtual_leveled; assumption |].
  destruct (ok_on_logger (logger_log_level flags s INFO) p2 H2) as (p3 & E3 & H3);
    [intros; apply settled_virtual_leveled; assumption |].
  destruct (ok_on_logger (logger_log_level flags s DEBUG) p3 H3) as (p4 & E4 & H4);
    [intros; apply settled_virtual_leveled; assumption |].
  destruct (ok_on_logger (logger_log_level flags s TRACE) p4 H4) as (p5 & E5 & H5);
    [intros; apply settled_virtual_leveled; assumption |].
  unfold bind at 1. rewrite E1. unfold bind at 1. rewrite E2.
  unfold bind at 1. rewrite E3. unfold bind at 1. rewrite E4.
  unfold bind at 1. rewrite E5. unfold bind at 1.
  unfold in_env. rewrite timestamp_reads_clock.
  unfold log_free.
  apply ok_on_logger; [exact H5 | intros; apply settled_virtual_raw; assumption].
Qed.

(** X6.  No free logging function ever throws or blocks.  In a process
    whose logger, if it has one, is between calls (for a file logger:
    lock free, stream with an empty exception mask, attached to the
    logger's own file or to none), the leveled and the raw [log] return
    and leave the process in such a state, [work] returns 10, and
    [configure] returns or throws, never blocks, and leaves such a state
    too.  A process that has no logger yet is in such a state, so this
    holds from the start of the process on. *)
Theorem free_logging_always_returns (flags : build_flags) (p : process) :
  process_ok p ->
  (forall (message : string) (level : log_level),
      exists p', log_level_free flags message level p = (Returns tt, p') /\ process_ok p') /\
  (forall message : string,
      exists p', log_free message p = (Returns tt, p') /\ process_ok p') /\
  (forall thread_id : string,
      exists p', work flags thread_id p = (Returns 10, p') /\ process_ok p') /\
  (forall config : logging_config_t,
      exists r p', configure config p = (r, p') /\ r <> Blocks /\ process_ok p').
Proof.
  intros Hp. split; [| split; [| split]].
  - intros message level. unfold log_level_free.
    apply ok_on_logger; [exact Hp | intros; apply settled_virtual_leveled; assumption].
  - intros message. unfold log_free.
    apply ok_on_logger; [exact Hp | intros; apply settled_virtual_raw; assumption].
  - intros thread_id. unfold work. cbv zeta. cbn [work_loop].
    destruct (ok_work_pass flags ("hi my name is: " +:+ thread_id) p Hp)
      as (p1 & E1 & H1).
    destruct (ok_work_pass flags ("hi my name is: " +:+ thread_id) p1 H1)
      as (p2 & E2 & H2).
    unfold bind at 1. unfold bind at 1. rewrite E1. unfold bind at 1. rewrite E2.
    exists p2. split; [reflexivity | exact H2].
  - intros config. unfold configure, bind, get_logger, process_ok in *.
    destruct p as [[l |] w]; cbn [singleton env] in *.
    + eexists _, _. split; [reflexivity |]. split; [discriminate | exact Hp].
    + destruct (produce_outcome config w) as [(l & n & tail & H) | (e & H)];
        rewrite H.
      * eexists _, _. split; [reflexivity |]. split; [discriminate |].
        cbn. exact (settled_produce _ _ _ _ H).
      * eexists _, _. split; [reflexivity |]. split; [discriminate | exact I].
Qed.

(** X7.  Both [log] methods of a file logger between calls return and
    leave it between calls, with the same file name and interval.  In
    what they do, every operation on a file happens while the lock is
    held and is on the logger's own file, the lock is never taken while
    held nor released while free, and it is free at the end. *)
Theorem file_operations_under_lock (flags : build_flags) (this : file_logger)
    (w : world) :
  settled this ->
  (forall message : string,
      exists this' n evs,
        file_logger_log message (this, w) = (Returns tt, (this', after n evs w)) /\
        disciplined (file_name this) false evs = true /\
        settled this' /\ file_name this' = file_name this /\
        reopen_interval this' = reopen_interval this) /\
  (forall (message : string) (level : log_level),
      exists this' n evs,
        file_logger_log_level flags message level (this, w)
        = (Returns tt, (this', after n evs w)) /\
        disciplined (file_name this) false evs = true /\
        settled this' /\ file_name this' = file_name this /\
        reopen_interval this' = reopen_interval this).
Proof.
  intros Hs. split.
  - intros message.
    destruct (settled_raw_log message this w Hs)
      as (this' & n & evs & Heq & Hs' & Hn & Hi & Hd).
    exists this', n, evs. repeat split; try assumption; apply Hs'.
  - intros message level.
    destruct (settled_leveled_log flags message level this w Hs)
      as (this' & n & evs & Heq & Hs' & Hn & Hi & Hd).
    exists this', n, evs. repeat split; try assumption; apply Hs'.
Qed.

(** X8.  When the constructor of the file logger returns, the object is
    between calls, and what the constructor did respects the lock and the
    file name in the same way. *)
Theorem file_logger_ctor_settles (config : logging_config_t) (w : world)
    (this : file_logger) (w' : world) :
  file_logger_ctor config w = (Returns this, w') ->
  settled this /\
  exists n evs,
    w' = after n evs w /\
    disciplined (file_name this) false evs = true.
Proof. apply settled_ctor. Qed.

(** X9.  A file logger whose stream has failed, or was never opened,
    drops the message of a raw write; but when the reopen check of that
    same call is due and the file can be opened, it closes the stream if
    a file is attached, opens the file for appending and so clears the
    error state, and the next raw write is written to the file. *)
Theorem failed_stream_recovers (message : string) (this : file_logger)
    (w : world) :
  settled this ->
  good (file this) = false \/ of_file (file this) = None ->
  reopen_due (now w) this = true ->
  openable w (file_name this) = true ->
  let healed :=
    {| fl_lock := false; file_name := file_name this;
       file := {| of_file := Some (file_name this); failbit := false;
                  badbit := false; exc_failbit := false; exc_badbit := false |};
       reopen_interval := reopen_interval this;
       last_reopen := clock w (S (clock_reads w)) |} in
  file_logger_log message (this, w)
  = (Returns tt,
     (healed,
      after 2 ([Lock; Unlock; Lock] ++ close_events (file this)
               ++ [FileOpen (file_name this) (Z.lor ios_out ios_app) true; Unlock])%list
        w)) /\
  forall (next : string) (w2 : world),
    file_logger_log next (healed, w2)
    = reopen (healed,
              after 0 [Lock; FileWrite (file_name this) next;
                       FileFlush (file_name this); Unlock] w2).
Proof.
  intros (Hl & Hq & Hf) Hbad Hdue Hop. cbv zeta. split.
  - destruct (file_logger_log_dropped message this w Hl Hq Hbad)
      as (f' & Heq & Hq' & Hf').
    rewrite Heq.
    rewrite (reopen_due_opened (set_file f' this) (after 0 [Lock; Unlock] w));
      [| exact Hl | exact Hq' | exact Hdue | exact Hop].
    rewrite after_after. unfold close_events. cbn [file set_file]. rewrite Hf'.
    destruct this as [lk name f iv last]. cbn. reflexivity.
  - intros next w2.
    apply file_logger_log_written; [reflexivity | split; reflexivity | |];
      reflexivity.
Qed.

(** ** From [configure] to the file *)

Lemma now_after (n : nat) (evs : list event) (w : world) :
  now (after n evs w) = clock w (n + clock_reads w)%nat.
Proof. reflexivity. Qed.

(** X10.  [configure] with type "file", a file name and a usable
    interval, followed by a leveled free call that passes the cutoff.
    When the constructor's reopen check is due and the file can be
    opened, the process opens [<pid>-<file_name>] for appending under the
    lock, then writes to it, under the lock, the line made of the
    timestamp of the third clock reading, the uncoloured label, the
    message and a newline, and flushes; nothing else is written. *)
Theorem configured_file_logger_writes (flags : build_flags)
    (config : logging_config_t) (w : world) (name : string) (interval : Z)
    (message : string) (level : log_level) :
  config !! "type" = Some "file" ->
  config !! "file_name" = Some name ->
  match config !! "reopen_interval" with
  | Some value => exists n, stoul_result value = inr n /\ interval = wrap64 n
  | None => interval = 300
  end ->
  wrap64 (interval * ns_per_s) < wrap64 (now w) ->
  openable w (to_string (pid w) +:+ "-" +:+ name) = true ->
  passes flags level = true ->
  let path := to_string (pid w) +:+ "-" +:+ name in
  exists (l : file_logger) (n : nat) (tail : list event),
    (run configure config; log_level_free flags message level)
      {| singleton := None; env := w |}
    = (Returns tt,
       {| singleton := Some (File_logger l);
          env := after n
                   ([Lock; FileOpen path (Z.lor ios_out ios_app) true; Unlock;
                     Lock;
                     FileWrite path
                       (timestamp_of (clock w (2 + clock_reads w)%nat)
                        +:+ label uncolored level +:+ message +:+ NL);
                     FileFlush path; Unlock] ++ tail)%list w |}) /\
    no_write tail = true /\
    file_name l = path.
Proof.
  intros Ht Hn Hi Hdue Hop Hpass. cbv zeta.
  set (path := to_string (pid w) +:+ "-" +:+ name) in *.
  assert (Hpath : file_name (before_reopen w name interval) = path)
    by (cbn; apply append_assoc).
  assert (Hd : reopen_due (now w) (before_reopen w name interval) = true).
  { unfold reopen_due. cbn [reopen_interval last_reopen before_reopen].
    rewrite Z.sub_0_r. apply Z.ltb_lt. exact Hdue. }
  destruct (file_logger_ctor_reopens config w name interval Hn Hi)
    as (this & k & tl & Hre & Hc & _).
  rewrite (reopen_due_opened (before_reopen w name interval) w) in Hre;
    [| reflexivity | split; reflexivity | exact Hd | rewrite Hpath; exact Hop].
  assert (Hpair : forall (a b : file_logger) (x y : world),
             (Returns tt, (a, x)) = (Returns tt, (b, y)) -> a = b /\ x = y)
    by (intros a b x y [= -> ->]; split; reflexivity).
  destruct (Hpair _ _ _ _ Hre) as [Hthis Hw]. rewrite <- Hw in Hc. clear Hre Hw.
  rewrite Hpath in Hthis, Hc.
  cbn [close_events of_file file before_reopen ofstream_default reopen_interval
       app] in Hthis, Hc.
  change (close_events (file (before_reopen w name interval))) with (@nil event)
    in Hc.
  cbn [app] in Hc.
  set (w1 := after 2 [Lock; FileOpen path 17 true; Unlock] w) in *.
  assert (Hp : produce get_factory config w = (Returns (File_logger this), w1)).
  { unfold produce. rewrite Ht, creators_get_factory, lookup_insert_eq.
    unfold bind. rewrite Hc. reflexivity. }
  unfold bind at 1. unfold configure, bind at 1, get_logger.
  cbn [singleton env]. rewrite Hp.
  unfold ret at 1. unfold log_level_free, on_logger, get_logger.
  cbn [singleton env]. unfold logger_log_level, bind, get, dispatch.
  cbn [fst snd].
  assert (Hle : LOG_LEVEL_CUTOFF flags <= level_value level)
    by (apply Z.leb_le; exact Hpass).
  rewrite file_logger_log_level_passes by exact Hle.
  rewrite (file_logger_log_written _ path this (after 1 [] w1));
    [| subst this; reflexivity | subst this; split; reflexivity
     | subst this; reflexivity | subst this; reflexivity].
  rewrite after_after.
  destruct (reopen_returns this
              (after (0 + 1)
                 ([] ++ [Lock;
                         FileWrite path
                           (timestamp_of (now w1) +:+ label uncolored level
                            +:+ message +:+ NL);
                         FileFlush path; Unlock]) w1))
    as (this' & m & tail & Heq & _ & _ & Hname & _ & Hnw);
    [subst this; reflexivity | subst this; split; reflexivity |].
  rewrite Heq. exists this', (m + (0 + 1) + 2)%nat, tail.
  split; [| split; [exact Hnw | rewrite Hname; subst this; reflexivity]].
  subst w1. rewrite !after_after. reflexivity.
Qed.

(** ** A negative reopen interval *)

Lemma parse_digits_numeric (s : string) :
  numeric s = true -> parse_digits None s = Some (decimal_value 0 s).
Proof.
  unfold numeric. intros H. apply andb_true_iff in H as [Hne Hd].
  destruct s as [| c s]; [discriminate Hne |].
  cbn in Hd. apply andb_true_iff in Hd as [Hc Hs].
  cbn [parse_digits decimal_value]. rewrite Hc.
  change (default 0 None) with 0.
  apply parse_digits_all_digits. exact Hs.
Qed.

(** X11.  [std::stoul] accepts a minus sign and negates in
    [unsigned long], so a "reopen_interval" of "-N" (N from 1 to
    9223372036) is no error: the constructor returns a logger whose
    interval is -N seconds, and with such an interval the reopen check is
    due at every call, as long as the clock is not behind the last
    reopen. *)
Theorem negative_interval_always_due (digits : string)
    (config : logging_config_t) (w : world) (name : string) :
  numeric digits = true ->
  0 < decimal_value 0 digits <= 9223372036 ->
  config !! "file_name" = Some name ->
  config !! "reopen_interval" = Some ("-" +:+ digits) ->
  stoul_result ("-" +:+ digits) = inr (2 ^ 64 - decimal_value 0 digits) /\
  exists (this : file_logger) (w' : world),
    file_logger_ctor config w = (Returns this, w') /\
    reopen_interval this = - decimal_value 0 digits /\
    forall (l : file_logger) (t : time_point),
      reopen_interval l = reopen_interval this ->
      0 <= t - last_reopen l < 2 ^ 63 ->
      reopen_due t l = true.
Proof.
  intros Hnum Hv Hn Hi.
  set (v := decimal_value 0 digits) in *.
  assert (Hs : stoul_result ("-" +:+ digits) = inr (2 ^ 64 - v)).
  { unfold stoul_result. change ("-" +:+ digits) with (String "-" digits).
    cbn [skip_spaces]. change (is_space "-") with false. cbv iota.
    rewrite (parse_digits_numeric digits Hnum). fold v.
    unfold ULONG_MAX.
    replace (2 ^ 64 - 1 <? v) with false
      by (symmetry; apply Z.ltb_ge; change (2 ^ 64) with 18446744073709551616; lia).
    rewrite Z.mod_small
      by (change (2 ^ 64) with 18446744073709551616; lia).
    reflexivity. }
  split; [exact Hs |].
  assert (Hw : wrap64 (2 ^ 64 - v) = - v).
  { unfold wrap64. change (2 ^ 64) with 18446744073709551616.
    change (2 ^ 63) with 9223372036854775808.
    replace (18446744073709551616 - v + 9223372036854775808)
      with (9223372036854775808 - v + 1 * 18446744073709551616) by lia.
    rewrite Z.mod_add by lia. rewrite Z.mod_small by lia. lia. }
  destruct (file_logger_ctor_reopens config w name (- v) Hn)
    as (this & k & tail & _ & Hc & _ & _ & _ & Hri & _).
  { rewrite Hi. exists (2 ^ 64 - v). split; [exact Hs | symmetry; exact Hw]. }
  exists this, (after k tail w). split; [exact Hc |]. split; [exact Hri |].
  intros l t Hl Ht. unfold reopen_due. rewrite Hl, Hri.
  change (2 ^ 63) with 9223372036854775808 in Ht.
  rewrite !wrap64_small
    by (unfold ns_per_s; change (2 ^ 63) with 9223372036854775808; lia).
  apply Z.ltb_lt. unfold ns_per_s. lia.
Qed.

(** ** Decimal text read back *)

Lemma digit_value_digit_char (x : Z) :
  digit_value (digit_char (x mod 10)) = x mod 10.
Proof.
  assert (H : 0 <= x mod 10 < 10) by (apply Z.mod_pos_bound; lia).
  set (r := x mod 10) in *.
  assert (Hr : r = 0 \/ r = 1 \/ r = 2 \/ r = 3 \/ r = 4 \/ r = 5 \/ r = 6
               \/ r = 7 \/ r = 8 \/ r = 9) by lia.
  destruct Hr as [-> | [-> | [-> | [-> | [-> | [-> | [-> | [-> | [-> | ->]]]]]]]]];
    reflexivity.
Qed.

Lemma decimal_value_append (acc : Z) (a b : string) :
  decimal_value acc (a +:+ b) = decimal_value (decimal_value acc a) b.
Proof.
  revert acc. induction a as [| c a IH]; intros acc; [reflexivity |].
  change (String c a +:+ b) with (String c (a +:+ b)).
  cbn [decimal_value]. apply IH.
Qed.

Lemma decimal_value_pad_digits (w : nat) (n : Z) :
  0 <= n < 10 ^ Z.of_nat w -> decimal_value 0 (pad_digits w n) = n.
Proof.
  revert n. induction w as [| w IH]; intros n Hn.
  - cbn in Hn. cbn. lia.
  - cbn [pad_digits]. rewrite decimal_value_append.
    replace (Z.of_nat (S w)) with (Z.succ (Z.of_nat w)) in Hn by lia.
    rewrite Z.pow_succ_r in Hn by lia.
    rewrite IH
      by (split; [apply Z.div_pos; lia | apply Z.div_lt_upper_bound; lia]).
    cbn [decimal_value]. rewrite digit_value_digit_char.
    Z.div_mod_to_equations. lia.
Qed.

Lemma all_digits_append (a b : string) :
  all_digits (a +:+ b) = all_digits a && all_digits b.
Proof.
  induction a as [| c a IH]; [reflexivity |].
  change (String c a +:+ b) with (String c (a +:+ b)).
  cbn [all_digits]. rewrite IH. apply andb_assoc.
Qed.

Lemma all_digits_pad_digits (w : nat) (n : Z) : all_digits (pad_digits w n) = true.
Proof.
  revert n. induction w as [| w IH]; intros n; [reflexivity |].
  cbn [pad_digits]. rewrite all_digits_append, IH.
  cbn [all_digits andb]. rewrite is_digit_digit_char. reflexivity.
Qed.

Lemma ndigits_aux_enough (fuel : nat) (n : Z) :
  0 <= n < 10 ^ Z.of_nat (S fuel) -> n < 10 ^ Z.of_nat (ndigits_aux fuel n).
Proof.
  revert n. induction fuel as [| fuel IH]; intros n Hn; [exact (proj2 Hn) |].
  cbn [ndigits_aux]. destruct (n <? 10) eqn:E.
  - apply Z.ltb_lt in E. exact E.
  - apply Z.ltb_ge in E.
    replace (Z.of_nat (S (S fuel))) with (Z.succ (Z.of_nat (S fuel))) in Hn by lia.
    rewrite Z.pow_succ_r in Hn by lia.
    assert (H10 : 0 <= n / 10 < 10 ^ Z.of_nat (S fuel))
      by (split; [apply Z.div_pos; lia | apply Z.div_lt_upper_bound; lia]).
    specialize (IH (n / 10) H10).
    replace (Z.of_nat (S (ndigits_aux fuel (n / 10))))
      with (Z.succ (Z.of_nat (ndigits_aux fuel (n / 10)))) by lia.
    rewrite Z.pow_succ_r by lia.
    set (X := 10 ^ Z.of_nat (ndigits_aux fuel (n / 10))) in *.
    Z.div_mod_to_equations. lia.
Qed.

Lemma ndigits_enough (n : Z) : 0 <= n -> n < 10 ^ Z.of_nat (ndigits n).
Proof.
  intros Hn. unfold ndigits. apply ndigits_aux_enough. split; [exact Hn |].
  assert (H0 : 0 <= Z.log2 n) by apply Z.log2_nonneg.
  replace (Z.of_nat (S (Z.to_nat (Z.log2 n)))) with (Z.succ (Z.log2 n)) by lia.
  destruct (Z.eq_dec n 0) as [-> | Hne]; [reflexivity |].
  destruct (Z.log2_spec n) as [_ Hlt]; [lia |].
  eapply Z.lt_le_trans; [exact Hlt |].
  apply Z.pow_le_mono_l. lia.
Qed.

Lemma to_string_digits (p : Z) :
  0 <= p ->
  all_digits (to_string p) = true /\ decimal_value 0 (to_string p) = p.
Proof.
  intros Hp. unfold to_string.
  replace (p <? 0) with false by (symmetry; apply Z.ltb_ge; lia).
  split; [apply all_digits_pad_digits |].
  apply decimal_value_pad_digits. split; [exact Hp | apply ndigits_enough; exact Hp].
Qed.

Lemma digits_dash_split (a b x y : string) :
  all_digits a = true -> all_digits b = true ->
  a +:+ String "-" x = b +:+ String "-" y -> a = b /\ x = y.
Proof.
  revert b. induction a as [| c a IH]; intros [| c' b] Ha Hb Heq.
  - injection Heq as ->. split; reflexivity.
  - change (String "-" x = String c' (b +:+ String "-" y)) in Heq.
    injection Heq as <- _. discriminate Hb.
  - change (String c (a +:+ String "-" x) = String "-" y) in Heq.
    injection Heq as -> _. discriminate Ha.
  - change (String c (a +:+ String "-" x) = String c' (b +:+ String "-" y)) in Heq.
    injection Heq as -> Heq.
    cbn in Ha, Hb. apply andb_true_iff in Ha as [_ Ha].
    apply andb_true_iff in Hb as [_ Hb].
    destruct (IH b Ha Hb Heq) as [-> ->]. split; reflexivity.
Qed.

Lemma file_logger_ctor_name (config : logging_config_t) (w : world)
    (this : file_logger) (w' : world) :
  file_logger_ctor config w = (Returns this, w') ->
  exists name : string,
    config !! "file_name" = Some name /\
    file_name this = to_string (pid w) +:+ "-" +:+ name.
Proof.
  intros Hc.
  destruct (config !! "file_name") as [name |] eqn:Hn;
    [| rewrite (file_logger_ctor_no_name _ _ Hn) in Hc; discriminate Hc].
  assert (Hi : exists interval,
             match config !! "reopen_interval" with
             | Some value => exists n, stoul_result value = inr n /\ interval = wrap64 n
             | None => interval = 300
             end).
  { destruct (config !! "reopen_interval") as [value |] eqn:Hv; [| eauto].
    destruct (stoul_result value) as [e | n] eqn:Hs; [| eauto].
    rewrite (file_logger_ctor_bad_interval _ _ _ _ _ Hn Hv Hs) in Hc.
    discriminate Hc. }
  destruct Hi as [interval Hi].
  destruct (file_logger_ctor_reopens config w name interval Hn Hi)
    as (this0 & k & tail & _ & Hc0 & _ & _ & Hname & _).
  rewrite Hc0 in Hc. injection Hc as <- _.
  exists name. split; [reflexivity | exact Hname].
Qed.

(** X12.  The file name [<pid>-<file_name>] tells processes apart: two
    file loggers with the same file name were constructed by processes
    with the same id, from configurations with the same "file_name". *)
Theorem file_name_separates_processes (config1 config2 : logging_config_t)
    (w1 w2 : world) (this1 this2 : file_logger) (w1' w2' : world) :
  0 <= pid w1 -> 0 <= pid w2 ->
  file_logger_ctor config1 w1 = (Returns this1, w1') ->
  file_logger_ctor config2 w2 = (Returns this2, w2') ->
  file_name this1 = file_name this2 ->
  pid w1 = pid w2 /\ config1 !! "file_name" = config2 !! "file_name".
Proof.
  intros Hp1 Hp2 Hc1 Hc2 Heq.
  destruct (file_logger_ctor_name _ _ _ _ Hc1) as (name1 & Hn1 & Hf1).
  destruct (file_logger_ctor_name _ _ _ _ Hc2) as (name2 & Hn2 & Hf2).
  rewrite Hf1, Hf2 in Heq.
  destruct (to_string_digits _ Hp1) as [Hd1 Hv1].
  destruct (to_string_digits _ Hp2) as [Hd2 Hv2].
  destruct (digits_dash_split _ _ _ _ Hd1 Hd2 Heq) as [Hs ->].
  split; [| rewrite Hn1, Hn2; reflexivity].
  rewrite <- Hv1, <- Hv2, Hs. reflexivity.
Qed.

(** ** The time a timestamp denotes *)

Lemma timestamp_micros_fields (y mo d h mi a b : Z) :
  0 <= y < 10000 -> 0 <= mo < 100 -> 0 <= d < 100 -> 0 <= h < 100 ->
  0 <= mi < 100 -> 0 <= a < 100 -> 0 <= b < 1000000 ->
  timestamp_micros
    (pad_digits 4 y +:+ "/" +:+ pad_digits 2 mo +:+ "/" +:+ pad_digits 2 d +:+ " "
     +:+ pad_digits 2 h +:+ ":" +:+ pad_digits 2 mi +:+ ":" +:+ pad_digits 2 a +:+ "."
     +:+ pad_digits 6 b)
  = (((days_from_civil y mo d * 24 + h) * 60 + mi) * 60 + a) * 1000000 + b.
Proof.
  intros Hy Hmo Hd Hh Hmi Ha Hb.
  set (s := pad_digits 4 y +:+ "/" +:+ pad_digits 2 mo +:+ "/" +:+ pad_digits 2 d
            +:+ " " +:+ pad_digits 2 h +:+ ":" +:+ pad_digits 2 mi +:+ ":"
            +:+ pad_digits 2 a +:+ "." +:+ pad_digits 6 b).
  assert (E1 : substring 0 4 s = pad_digits 4 y)
    by (cbv -[digit_char Z.div Z.modulo]; reflexivity).
  assert (E2 : substring 5 2 s = pad_digits 2 mo)
    by (cbv -[digit_char Z.div Z.modulo]; reflexivity).
  assert (E3 : substring 8 2 s = pad_digits 2 d)
    by (cbv -[digit_char Z.div Z.modulo]; reflexivity).
  assert (E4 : substring 11 2 s = pad_digits 2 h)
    by (cbv -[digit_char Z.div Z.modulo]; reflexivity).
  assert (E5 : substring 14 2 s = pad_digits 2 mi)
    by (cbv -[digit_char Z.div Z.modulo]; reflexivity).
  assert (E6 : substring 17 2 s = pad_digits 2 a)
    by (cbv -[digit_char Z.div Z.modulo]; reflexivity).
  assert (E7 : substring 20 6 s = pad_digits 6 b)
    by (cbv -[digit_char Z.div Z.modulo]; reflexivity).
  unfold timestamp_micros, field. rewrite E1, E2, E3, E4, E5, E6, E7.
  rewrite !decimal_value_pad_digits by assumption. reflexivity.
Qed.

(** X13.  Read back as a calendar date and a time of day, the text
    [timestamp] prints for a reading at or after the epoch denotes a time
    within half a microsecond of the reading; hence two readings at least
    a microsecond apart never print in the inverse order. *)
Theorem timestamp_round_trip (tp : time_point) :
  0 <= tp < 2 ^ 63 ->
  -500 <= timestamp_micros (timestamp_of tp) * 1000 - tp <= 500 /\
  forall later : time_point,
    tp + 1000 <= later < 2 ^ 63 ->
    timestamp_micros (timestamp_of tp) <= timestamp_micros (timestamp_of later).
Proof.
  assert (Hclose : forall t, 0 <= t < 2 ^ 63 ->
                     -500 <= timestamp_micros (timestamp_of t) * 1000 - t <= 500).
  { intros t Ht.
    destruct (timestamp_of_fields t Ht)
      as (y & mo & d & h & mi & micro & Heq & Hy & Hmo & Hd & Hh & Hmi & Hmicro
          & Hmin & Hc).
    assert (Hdm : days_in_month y mo <= 31).
    { unfold days_in_month.
      repeat match goal with
             | |- context [if ?c then _ else _] => destruct c
             end; lia. }
    rewrite Heq, timestamp_micros_fields;
      try lia; Z.div_mod_to_equations; lia. }
  intros Htp. split; [apply Hclose; exact Htp |].
  intros later Hl.
  pose proof (Hclose tp Htp) as H1.
  assert (H2 : -500 <= timestamp_micros (timestamp_of later) * 1000 - later <= 500)
    by (apply Hclose; lia).
  lia.
Qed.

(** ** The output of the test driver *)

Lemma stdout_writes_app (s t : list event) :
  stdout_writes (s ++ t) = (stdout_writes s ++ stdout_writes t)%list.
Proof.
  induction s as [| e s IH]; [reflexivity |].
  destruct e; cbn [app stdout_writes]; rewrite IH; reflexivity.
Qed.

Lemma writes_leveled (flags : build_flags) (s : string) (this : std_out_logger)
    (level : log_level) :
  writes_lines this s (if passes flags level then 1 else 0)%nat
    (log_level_free flags s level).
Proof.
  intros w. unfold log_level_free, on_logger, get_logger.
  cbn [singleton env]. unfold logger_log_level, bind, get, dispatch.
  cbn [fst snd]. rewrite std_out_leveled_call.
  destruct (passes flags level).
  - eexists. split; [reflexivity |]. split; [reflexivity |].
    cbn [stdout_writes]. apply Forall_cons. split; [| apply Forall_nil; exact I].
    exists (timestamp_of (now w) +:+ " [" +:+ to_string (pid w) +:+ "]"
            +:+ label (levels this) level).
    rewrite !append_assoc. reflexivity.
  - exists []. rewrite after_0_nil. split; [reflexivity |].
    split; [reflexivity | apply Forall_nil; exact I].
Qed.

Lemma writes_custom (s : string) (this : std_out_logger) :
  writes_lines this s 1%nat
    (do ts <- in_env timestamp;
     log_free (((ts +:+ (" " +:+ ESC +:+ "[35;1m[CUSTOM]" +:+ ESC +:+ "[0m "))
                +:+ s) +:+ NL)).
Proof.
  intros w. unfold bind at 1. unfold in_env. cbn [env singleton].
  rewrite timestamp_reads_clock.
  unfold log_free, on_logger, get_logger. cbn [singleton env].
  unfold logger_log, bind, get, dispatch. cbn [fst snd].
  exists [StdoutWrite
            (((timestamp_of (now w)
               +:+ (" " +:+ ESC +:+ "[35;1m[CUSTOM]" +:+ ESC +:+ "[0m "))
              +:+ s) +:+ NL);
          StdoutFlush].
  split; [| split; [reflexivity |]].
  - destruct w as [ck rd pd op tr]. unfold after. cbn.
    rewrite <- ?List.app_assoc. reflexivity.
  - cbn [stdout_writes]. apply Forall_cons. split; [| apply Forall_nil; exact I].
    eexists. rewrite (append_assoc _ s NL). reflexivity.
Qed.

Lemma writes_seq (s : string) (this : std_out_logger) (j k : nat)
    (m1 m2 : M process unit) :
  writes_lines this s j m1 -> writes_lines this s k m2 ->
  writes_lines this s (j + k) (run m1; m2).
Proof.
  intros H1 H2 w. destruct (H1 w) as (e1 & E1 & L1 & F1).
  destruct (H2 (after j e1 w)) as (e2 & E2 & L2 & F2).
  exists (e1 ++ e2)%list. unfold bind. rewrite E1, E2, after_after.
  replace (k + j)%nat with (j + k)%nat by lia.
  split; [reflexivity |]. rewrite stdout_writes_app.
  split; [rewrite length_app; lia | apply Forall_app; split; assumption].
Qed.

Lemma writes_work_pass (flags : build_flags) (s : string) (this : std_out_logger) :
  writes_lines this s (passing_levels flags + 1)%nat (work_pass flags s).
Proof.
  unfold work_pass, log_ERROR, log_WARN, log_INFO, log_DEBUG, log_TRACE.
  replace (passing_levels flags + 1)%nat
    with ((if passes flags ERROR then 1 else 0)
          + ((if passes flags WARN then 1 else 0)
             + ((if passes flags INFO then 1 else 0)
                + ((if passes flags DEBUG then 1 else 0)
                   + ((if passes flags TRACE then 1 else 0) + 1)))))%nat.
  - repeat (apply writes_seq; [apply writes_leveled |]). apply writes_custom.
  - unfold passing_levels. cbn [List.filter].
    destruct (passes flags ERROR), (passes flags WARN), (passes flags INFO),
      (passes flags DEBUG), (passes flags TRACE); reflexivity.
Qed.

Lemma writes_work_loop (flags : build_flags) (s : string) (this : std_out_logger)
    (n : nat) :
  writes_lines this s (n * (passing_levels flags + 1))%nat (work_loop flags n s).
Proof.
  induction n as [| n IH].
  - intros w. exists []. rewrite after_0_nil.
    split; [reflexivity |]. split; [reflexivity | apply Forall_nil; exact I].
  - cbn [work_loop Nat.mul]. apply writes_seq; [apply writes_work_pass | exact IH].
Qed.

(** X14.  On a standard-output logger one call of [work] returns 10 after
    two passes, each writing one line for every level that passes the
    cutoff and one custom line: 2 * (passing levels + 1) writes to
    standard output and as many clock readings, every written line ending
    with "hi my name is: <thread id>" and a newline, and the logger is
    left as it was. *)
Theorem work_output (flags : build_flags) (thread_id : string)
    (this : std_out_logger) (w : world) :
  exists evs : list event,
    work flags thread_id {| singleton := Some (Std_out_logger this); env := w |}
    = (Returns 10,
       {| singleton := Some (Std_out_logger this);
          env := after (2 * (passing_levels flags + 1)) evs w |}) /\
    length (stdout_writes evs) = (2 * (passing_levels flags + 1))%nat /\
    Forall (carries ("hi my name is: " +:+ thread_id)) (stdout_writes evs).
Proof.
  destruct (writes_work_loop flags ("hi my name is: " +:+ thread_id) this 2 w)
    as (evs & E & L & F).
  exists evs. unfold work. cbv zeta. unfold bind at 1. rewrite E.
  split; [reflexivity |]. split; assumption.
Qed.

(** ** A run of raw writes *)



(** ** The reopen check after a raw write *)

(** X16.  A raw write on a good stream attached to [path] writes the
    bytes and flushes under the lock, releases it, and takes it again for
    the reopen check.  Without overflow in the comparison, the check
    closes and reopens the file exactly when strictly more than the
    interval has elapsed since the last reopen, and then the time of the
    last reopen becomes the reading taken after the open; when no more
    than the interval has elapsed the logger is left as it was and
    nothing is closed or opened. *)
Theorem raw_write_reopens_when_due (message path : string) (this : file_logger)
    (w : world) :
  fl_lock this = false -> quiet (file this) ->
  of_file (file this) = Some path -> good (file this) = true ->
  - 2 ^ 63 <= reopen_interval this * ns_per_s < 2 ^ 63 ->
  - 2 ^ 63 <= now w - last_reopen this < 2 ^ 63 ->
  exists (this' : file_logger) (n : nat) (tail : list event),
    file_logger_log message (this, w)
    = (Returns tt,
       (this',
        after n ([Lock; FileWrite path message; FileFlush path; Unlock; Lock]
                 ++ tail)%list w)) /\
    (reopen_interval this * ns_per_s < now w - last_reopen this ->
     tail = [FileClose path;
             FileOpen (file_name this) (Z.lor ios_out ios_app)
               (openable w (file_name this));
             Unlock] /\
     n = 2%nat /\
     last_reopen this' = clock w (S (clock_reads w)) /\
     good (file this') = openable w (file_name this)) /\
    (now w - last_reopen this <= reopen_interval this * ns_per_s ->
     tail = [Unlock] /\ n = 1%nat /\ this' = this).
Proof.
  intros Hl Hq Hf Hg Hi Ht.
  pose proof (reopen_due_exact (now w) this Hi Ht) as Hdue.
  rewrite (file_logger_log_spec message path) by assumption.
  destruct (reopen_due (now w) this).
  - assert (Hlt : reopen_interval this * ns_per_s < now w - last_reopen this)
      by (apply Hdue; reflexivity).
    eexists _, _, _. split; [reflexivity |]. split.
    + intros _. split; [reflexivity |]. split; [reflexivity |].
      split; [reflexivity |]. cbn [file]. destruct (openable w (file_name this));
        reflexivity.
    + intros Hle. lia.
  - assert (Hle : ~ reopen_interval this * ns_per_s < now w - last_reopen this)
      by (intros H; apply Hdue in H; discriminate H).
    eexists _, _, _. split; [reflexivity |]. split.
    + intros Hlt. contradiction.
    + intros _. repeat split; reflexivity.
Qed.

(** ** The further properties at sample inputs *)

Lemma null_logger_is_silent_witness :
  ({[ "type" := "" ]} : logging_config_t) !! "type" = Some "" /\
  configure {[ "type" := "" ]} {| singleton := None; env := sample_world |}
  = (Returns tt,
     {| singleton := Some (Logger {| lock := false |}); env := sample_world |}) /\
  work default_build "7"
    {| singleton := Some (Logger {| lock := false |}); env := sample_world |}
  = (Returns 10,
     {| singleton := Some (Logger {| lock := false |});
        env := after 2 [] sample_world |}).
Proof.
  assert (H : ({[ "type" := "" ]} : logging_config_t) !! "type" = Some "")
    by reflexivity.
  split; [exact H |].
  destruct (null_logger_is_silent default_build _ sample_world H) as (Hc & _ & Hw).
  split; [exact Hc | exact (Hw "7")].
Defined.

Lemma timestamp_fits_buffer_witness :
  - 2 ^ 63 <= now sample_world < 2 ^ 63 /\
  exists s : string,
    timestamp sample_world = (Returns s, after 1 [] sample_world) /\
    String.length s = String.length "year/mo/dy hr:mn:sc.xxxxxx".
Proof.
  assert (H : - 2 ^ 63 <= now sample_world < 2 ^ 63)
    by (vm_compute; split; [discriminate | reflexivity]).
  split; [exact H | exact (timestamp_fits_buffer sample_world H)].
Defined.

Lemma free_logging_always_returns_witness :
  process_ok
    {| singleton := Some (File_logger sample_file_logger); env := sample_world |} /\
  exists p' : process,
    work default_build "7"
      {| singleton := Some (File_logger sample_file_logger); env := sample_world |}
    = (Returns 10, p') /\
    process_ok p'.
Proof.
  assert (H : process_ok
                {| singleton := Some (File_logger sample_file_logger);
                   env := sample_world |})
    by (split; [reflexivity | split; [split; reflexivity | right; reflexivity]]).
  split; [exact H |].
  destruct (free_logging_always_returns default_build _ H) as (_ & _ & Hw & _).
  exact (Hw "7").
Defined.

Lemma file_operations_under_lock_witness :
  settled sample_file_logger /\
  exists this' n evs,
    file_logger_log_level default_build "disk almost full" WARN
      (sample_file_logger, sample_world)
    = (Returns tt, (this', after n evs sample_world)) /\
    disciplined "4242-test.log" false evs = true /\
    settled this'.
Proof.
  assert (H : settled sample_file_logger)
    by (split; [reflexivity | split; [split; reflexivity | right; reflexivity]]).
  split; [exact H |].
  destruct (proj2 (file_operations_under_lock default_build sample_file_logger
                     sample_world H) "disk almost full" WARN)
    as (this' & n & evs & E & D & S & _).
  exists this', n, evs. split; [exact E |]. split; [exact D | exact S].
Defined.

Lemma file_logger_ctor_settles_witness :
  exists (this : file_logger) (w' : world),
    file_logger_ctor (file_config "300") sample_world = (Returns this, w') /\
    settled this /\
    exists n evs,
      w' = after n evs sample_world /\
      disciplined (file_name this) false evs = true.
Proof.
  eexists _, _. split; [vm_compute; reflexivity |].
  apply (file_logger_ctor_settles (file_config "300") sample_world).
  vm_compute. reflexivity.
Defined.

Lemma failed_stream_recovers_witness :
  settled failed_file_logger /\
  good (file failed_file_logger) = false /\
  reopen_due (now sample_world) failed_file_logger = true /\
  openable sample_world (file_name failed_file_logger) = true /\
  exists (healed : file_logger) (w' : world),
    file_logger_log "lost" (failed_file_logger, sample_world)
    = (Returns tt, (healed, w')) /\
    good (file healed) = true /\
    of_file (file healed) = Some "4242-test.log" /\
    trace w'
    = [Lock; Unlock; Lock;
       FileOpen "4242-test.log" (Z.lor ios_out ios_app) true; Unlock].
Proof.
  assert (Hs : settled failed_file_logger)
    by (split; [reflexivity | split; [split; reflexivity | left; reflexivity]]).
  assert (Hg : good (file failed_file_logger) = false) by reflexivity.
  assert (Hd : reopen_due (now sample_world) failed_file_logger = true)
    by (vm_compute; reflexivity).
  assert (Ho : openable sample_world (file_name failed_file_logger) = true)
    by reflexivity.
  split; [exact Hs |]. split; [exact Hg |]. split; [exact Hd |].
  split; [exact Ho |].
  destruct (failed_stream_recovers "lost" failed_file_logger sample_world
              Hs (or_introl Hg) Hd Ho) as [H1 _].
  eexists _, _. split; [exact H1 |]. repeat split; reflexivity.
Defined.

Lemma configured_file_logger_writes_witness :
  file_config "300" !! "type" = Some "file" /\
  file_config "300" !! "file_name" = Some "test.log" /\
  wrap64 (300 * ns_per_s) < wrap64 (now sample_world) /\
  passes default_build ERROR = true /\
  exists (l : file_logger) (n : nat) (tail : list event),
    (run configure (file_config "300");
     log_level_free default_build "boom" ERROR)
      {| singleton := None; env := sample_world |}
    = (Returns tt,
       {| singleton := Some (File_logger l);
          env := after n
                   ([Lock; FileOpen "4242-test.log" (Z.lor ios_out ios_app) true;
                     Unlock; Lock;
                     FileWrite "4242-test.log"
                       (timestamp_of (clock sample_world 2)
                        +:+ label uncolored ERROR +:+ "boom" +:+ NL);
                     FileFlush "4242-test.log"; Unlock] ++ tail)%list
                   sample_world |}) /\
    no_write tail = true /\
    file_name l = "4242-test.log".
Proof.
  assert (Ht : file_config "300" !! "type" = Some "file")
    by (vm_compute; reflexivity).
  assert (Hn : file_config "300" !! "file_name" = Some "test.log")
    by (vm_compute; reflexivity).
  assert (Hi : match file_config "300" !! "reopen_interval" with
               | Some value => exists n, stoul_result value = inr n /\ 300 = wrap64 n
               | None => 300 = 300
               end).
  { replace (file_config "300" !! "reopen_interval") with (Some "300")
      by (vm_compute; reflexivity).
    exists 300. split; vm_compute; reflexivity. }
  assert (Hdue : wrap64 (300 * ns_per_s) < wrap64 (now sample_world))
    by (vm_compute; reflexivity).
  assert (Hp : passes default_build ERROR = true) by reflexivity.
  split; [exact Ht |]. split; [exact Hn |]. split; [exact Hdue |].
  split; [exact Hp |].
  exact (configured_file_logger_writes default_build (file_config "300")
           sample_world "test.log" 300 "boom" ERROR Ht Hn Hi Hdue eq_refl Hp).
Defined.

Lemma negative_interval_always_due_witness :
  numeric "5" = true /\
  stoul_result "-5" = inr (2 ^ 64 - 5) /\
  exists (this : file_logger) (w' : world),
    file_logger_ctor (file_config "-5") sample_world = (Returns this, w') /\
    reopen_interval this = -5 /\
    forall (l : file_logger) (t : time_point),
      reopen_interval l = reopen_interval this ->
      0 <= t - last_reopen l < 2 ^ 63 ->
      reopen_due t l = true.
Proof.
  assert (Hnum : numeric "5" = true) by reflexivity.
  assert (Hv : 0 < decimal_value 0 "5" <= 9223372036)
    by (change (decimal_value 0 "5") with 5; lia).
  assert (Hn : file_config "-5" !! "file_name" = Some "test.log")
    by (vm_compute; reflexivity).
  assert (Hi : file_config "-5" !! "reopen_interval" = Some ("-" +:+ "5"))
    by (vm_compute; reflexivity).
  split; [exact Hnum |].
  exact (negative_interval_always_due "5" (file_config "-5") sample_world
           "test.log" Hnum Hv Hn Hi).
Defined.

Lemma file_name_separates_processes_witness :
  pid sample_world = pid sample_world /\
  file_config "300" !! "file_name" = file_config "0" !! "file_name".
Proof.
  eapply (file_name_separates_processes (file_config "300") (file_config "0")
            sample_world sample_world).
  - vm_compute. discriminate.
  - vm_compute. discriminate.
  - vm_compute. reflexivity.
  - vm_compute. reflexivity.
  - reflexivity.
Defined.

Lemma timestamp_round_trip_witness :
  0 <= 1793361600123456789 < 2 ^ 63 /\
  -500 <= timestamp_micros (timestamp_of 1793361600123456789) * 1000
          - 1793361600123456789 <= 500.
Proof.
  assert (H : 0 <= 1793361600123456789 < 2 ^ 63)
    by (vm_compute; split; [discriminate | reflexivity]).
  split; [exact H | exact (proj1 (timestamp_round_trip _ H))].
Defined.


Lemma raw_write_reopens_when_due_witness :
  exists (this' : file_logger) (n : nat) (tail : list event),
    file_logger_log "boom" (sample_file_logger, sample_world)
    = (Returns tt,
       (this',
        after n ([Lock; FileWrite "4242-test.log" "boom";
                  FileFlush "4242-test.log"; Unlock; Lock] ++ tail)%list
          sample_world)) /\
    tail = [Unlock] /\ n = 1%nat /\ this' = sample_file_logger.
Proof.
  assert (Hi : - 2 ^ 63 <= reopen_interval sample_file_logger * ns_per_s < 2 ^ 63)
    by (vm_compute; split; [discriminate | reflexivity]).
  assert (Ht : - 2 ^ 63 <= now sample_world - last_reopen sample_file_logger < 2 ^ 63)
    by (vm_compute; split; [discriminate | reflexivity]).
  assert (Hle : now sample_world - last_reopen sample_file_logger
                <= reopen_interval sample_file_logger * ns_per_s)
    by (vm_compute; discriminate).
  destruct (raw_write_reopens_when_due "boom" "4242-test.log" sample_file_logger
              sample_world eq_refl (conj eq_refl eq_refl) eq_refl eq_refl Hi Ht)
    as (this' & n & tail & E & _ & Hnot).
  exists this', n, tail. split; [exact E | exact (Hnot Hle)].
Defined.
